(** * Bulk-messaging campaign pipeline of whatomate: queue, worker, handlers

    A shallow embedding of
      - [internal/queue]    (Redis-stream producer and consumer),
      - [internal/worker]   (campaign send loop),
      - [internal/handlers] (campaign HTTP handlers and stats aggregator),
    followed by the properties of the pipeline that were checked on it.

    Conventions.
      - Go [int] is a 64-bit two's-complement integer, carried in [Z] with
        the wrap-around of [++] written out ([int_add]).
      - [uuid.UUID] is carried in [N]; [time.Time] in [Z] (milliseconds).
      - [error] is the error text; a Go [(T, error)] pair is a [result T].
      - [map[string]interface{}] is a [gmap string any]; a nil map is [None].
      - gorm statements act on an in-memory [DB]; every statement first asks
        the fault oracle of the store whether it fails, so the handlers keep
        their error branches.  Columns maintained by gorm itself
        (created_at, updated_at) are not represented.
      - Logging has no effect on any state that is modelled and is dropped. *)

From Stdlib Require Import ZArith String Ascii List Lia DecimalString.
From stdpp Require Import base option list gmap strings.

Local Open Scope string_scope.
Local Open Scope Z_scope.

(** ** Go base types *)

Definition error := string.

Inductive result (A : Type) : Type :=
| Ok (a : A)
| Err (e : error).
Arguments Ok {A} a.
Arguments Err {A} e.

Definition UUID := N.
Definition Time := Z.

(** [interface{}] values as they occur as map values in this code: what
    [encoding/json] and go-redis put there.  The code never computes with a
    number, which is carried as an integer. *)
#[warnings="-register-all"]
Inductive any : Type :=
| AnyNil
| AnyString (s : string)
| AnyNumber (z : Z)
| AnyBool (b : bool)
| AnySlice (l : list any)
| AnyMap (m : list (string * any)).

Definition int_min : Z := - 2 ^ 63.
Definition int_max : Z := 2 ^ 63 - 1.

(** Two's-complement reduction of a mathematical integer to a Go [int]. *)
Definition wrap_int (z : Z) : Z := (z + 2 ^ 63) mod 2 ^ 64 - 2 ^ 63.

Definition int_add (a b : Z) : Z := wrap_int (a + b).

(** [fmt.Sprintf("%d", i)] *)
Definition Sprintf_d (i : Z) : string := NilZero.string_of_int (Z.to_int i).

(** [fmt.Sprintf("unknown job type: %s", s)] and the like. *)
Definition Sprintf_s (prefix s : string) : string := (prefix ++ s)%string.

(** [fmt.Errorf("...: %w", err)] *)
Definition Errorf_w (prefix : string) (err : error) : error :=
  (prefix ++ ": " ++ err)%string.

(** ** models

    Package [internal/models] declares the rows of the store.  Its records
    are given here with the fields the queue, the worker and the campaign
    handlers read or write. *)

Module models.

(** [models.JSONB] is [map[string]interface{}]; [None] is the nil map. *)
Definition JSONB := option (gmap string any).

Definition len_JSONB (j : JSONB) : Z :=
  match j with
  | None => 0
  | Some m => Z.of_nat (size m)
  end.

(** [m[key]] on a possibly nil map, with the comma-ok result. *)
Definition index_JSONB (j : JSONB) (key : string) : option any :=
  match j with
  | None => None
  | Some m => m !! key
  end.

(** Modelled from the spec: [models.Template], declared outside the files
    at hand; a template reference with the name and language the gateway
    call needs. *)
Record Template := {
  Template_ID : UUID;
  Template_OrganizationID : UUID;
  Template_Name : string;
  Template_Language : string
}.

(** Modelled from the spec: [models.WhatsAppAccount], declared outside the
    files at hand; the target account of a campaign, looked up by name and
    organization. *)
Record WhatsAppAccount := {
  Account_Name : string;
  Account_OrganizationID : UUID;
  PhoneID : string;
  BusinessID : string;
  APIVersion : string;
  AccessToken : string
}.

(** Modelled from the spec: [models.BulkMessageCampaign], declared outside
    the files at hand; identity, status (a string), the five counters and
    the timestamps of the spec's Campaign. *)
Record BulkMessageCampaign := {
  ID : UUID;
  OrganizationID : UUID;
  WhatsAppAccount_ : string;
  Name : string;
  TemplateID : UUID;
  Status : string;
  TotalRecipients : Z;
  SentCount : Z;
  DeliveredCount : Z;
  ReadCount : Z;
  FailedCount : Z;
  ScheduledAt : option Time;
  StartedAt : option Time;
  CompletedAt : option Time
}.

(** Modelled from the spec: [models.BulkMessageRecipient], declared outside
    the files at hand; identity, owning campaign, phone number, name,
    parameter map, status with error message, provider message id and
    sent_at. *)
Record BulkMessageRecipient := {
  Recipient_ID : UUID;
  CampaignID : UUID;
  PhoneNumber : string;
  RecipientName : string;
  TemplateParams : JSONB;
  Recipient_Status : string;
  ErrorMessage : string;
  WhatsAppMessageID : string;
  SentAt : option Time
}.

(** Modelled from the spec: [models.Message], declared outside the files
    at hand; the message ledger of the stats aggregator, with only the
    columns the campaign code reads or writes: [metadata->>'campaign_id'],
    [status], [error_message]. *)
Record Message := {
  Metadata_campaign_id : option string;
  Message_Status : string;
  Message_ErrorMessage : string
}.

End models.
Import models.

(** ** pkg/whatsapp: the gateway call the worker issues *)

Module whatsapp.

(** [whatsapp.Account], as [sendTemplateMessage] fills it. *)
Record Account := {
  PhoneID : string;
  BusinessID : string;
  APIVersion : string;
  AccessToken : string
}.

(** [map[string]interface{}{"type": "text", "text": val}] *)
Record BodyParameter := {
  param_type : string;
  param_text : any
}.

(** [map[string]interface{}{"type": "body", "parameters": bodyParams}] *)
Record Component := {
  comp_type : string;
  comp_parameters : list BodyParameter
}.

(** Arguments of [Client.SendTemplateMessageWithComponents]. *)
Record Call := {
  call_account : Account;
  call_phoneNumber : string;
  call_templateName : string;
  call_templateLanguage : string;
  call_components : list Component
}.

End whatsapp.

(** ** gorm: the relational store *)

Module gorm.

(** [gorm.Expr(column + " + 1")]: an expression the store evaluates
    against the row being updated. *)
Inductive sqlexpr : Type :=
| ColPlus (column : string) (k : Z).

(** Right-hand sides that occur in [Update] and [Updates] calls. *)
Inductive value : Type :=
| VString (s : string)
| VInt (z : Z)
| VTime (t : Time)
| VExpr (e : sqlexpr).

(** [map[string]interface{}{...}] handed to [Updates]; [Update(col, v)] is
    the one-entry map. *)
Definition assignments := list (string * value).

Record DB := {
  campaigns : list BulkMessageCampaign;
  recipients : list BulkMessageRecipient;
  messages : list Message;
  accounts : list WhatsAppAccount;
  templates : list Template;
  (** supply of primary keys for created rows *)
  next_uuid : N;
  (** fault oracle: one entry is consumed by every statement, [true]
      makes the statement fail; an exhausted oracle means no more faults *)
  faults : list bool
}.

Definition with_campaigns (d : DB) (cs : list BulkMessageCampaign) : DB :=
  {| campaigns := cs; recipients := recipients d; messages := messages d;
     accounts := accounts d; templates := templates d;
     next_uuid := next_uuid d; faults := faults d |}.

Definition with_recipients (d : DB) (rs : list BulkMessageRecipient) : DB :=
  {| campaigns := campaigns d; recipients := rs; messages := messages d;
     accounts := accounts d; templates := templates d;
     next_uuid := next_uuid d; faults := faults d |}.

Definition with_messages (d : DB) (ms : list Message) : DB :=
  {| campaigns := campaigns d; recipients := recipients d; messages := ms;
     accounts := accounts d; templates := templates d;
     next_uuid := next_uuid d; faults := faults d |}.

Definition with_next_uuid (d : DB) (n : N) : DB :=
  {| campaigns := campaigns d; recipients := recipients d; messages := messages d;
     accounts := accounts d; templates := templates d;
     next_uuid := n; faults := faults d |}.

Definition with_faults (d : DB) (fs : list bool) : DB :=
  {| campaigns := campaigns d; recipients := recipients d; messages := messages d;
     accounts := accounts d; templates := templates d;
     next_uuid := next_uuid d; faults := fs |}.

Definition ErrRecordNotFound : error := "record not found".
Definition ErrEmptySlice : error := "empty slice found".
Definition ErrStatement : error := "statement failed".

(** Ask the oracle whether the next statement fails. *)
Definition tick (d : DB) : bool * DB :=
  match faults d with
  | [] => (false, d)
  | f :: fs => (f, with_faults d fs)
  end.

(** *** Evaluating assignments at the storage layer *)

Definition campaign_int_column (c : BulkMessageCampaign) (col : string) : option Z :=
  if String.eqb col "total_recipients" then Some (TotalRecipients c)
  else if String.eqb col "sent_count" then Some (SentCount c)
  else if String.eqb col "delivered_count" then Some (DeliveredCount c)
  else if String.eqb col "read_count" then Some (ReadCount c)
  else if String.eqb col "failed_count" then Some (FailedCount c)
  else None.

(** An integer right-hand side, evaluated on the stored row [old]. *)
Definition eval_int (old : BulkMessageCampaign) (v : value) : option Z :=
  match v with
  | VInt z => Some z
  | VExpr (ColPlus col k) =>
      match campaign_int_column old col with
      | Some x => Some (x + k)
      | None => None
      end
  | _ => None
  end.

Definition set_Status (c : BulkMessageCampaign) (s : string) : BulkMessageCampaign :=
  {| ID := ID c; OrganizationID := OrganizationID c;
     WhatsAppAccount_ := WhatsAppAccount_ c; Name := Name c;
     TemplateID := TemplateID c; Status := s;
     TotalRecipients := TotalRecipients c; SentCount := SentCount c;
     DeliveredCount := DeliveredCount c; ReadCount := ReadCount c;
     FailedCount := FailedCount c; ScheduledAt := ScheduledAt c;
     StartedAt := StartedAt c; CompletedAt := CompletedAt c |}.

Definition set_times (c : BulkMessageCampaign) (started completed : option Time)
    : BulkMessageCampaign :=
  {| ID := ID c; OrganizationID := OrganizationID c;
     WhatsAppAccount_ := WhatsAppAccount_ c; Name := Name c;
     TemplateID := TemplateID c; Status := Status c;
     TotalRecipients := TotalRecipients c; SentCount := SentCount c;
     DeliveredCount := DeliveredCount c; ReadCount := ReadCount c;
     FailedCount := FailedCount c; ScheduledAt := ScheduledAt c;
     StartedAt := started; CompletedAt := completed |}.

Definition set_counters (c : BulkMessageCampaign) (total sent delivered read failed : Z)
    : BulkMessageCampaign :=
  {| ID := ID c; OrganizationID := OrganizationID c;
     WhatsAppAccount_ := WhatsAppAccount_ c; Name := Name c;
     TemplateID := TemplateID c; Status := Status c;
     TotalRecipients := total; SentCount := sent;
     DeliveredCount := delivered; ReadCount := read;
     FailedCount := failed; ScheduledAt := ScheduledAt c;
     StartedAt := StartedAt c; CompletedAt := CompletedAt c |}.

(** One assignment [col = v] of an UPDATE on [bulk_message_campaigns]:
    [old] is the stored row (what expressions read), [c] the row being
    built.  [None]: the store rejects the statement. *)
Definition assign_campaign (old c : BulkMessageCampaign) (a : string * value)
    : option BulkMessageCampaign :=
  let (col, v) := a in
  if String.eqb col "status" then
    match v with VString s => Some (set_Status c s) | _ => None end
  else if String.eqb col "started_at" then
    match v with VTime t => Some (set_times c (Some t) (CompletedAt c)) | _ => None end
  else if String.eqb col "completed_at" then
    match v with VTime t => Some (set_times c (StartedAt c) (Some t)) | _ => None end
  else if String.eqb col "total_recipients" then
    match eval_int old v with
    | Some z => Some (set_counters c z (SentCount c) (DeliveredCount c) (ReadCount c) (FailedCount c))
    | None => None
    end
  else if String.eqb col "sent_count" then
    match eval_int old v with
    | Some z => Some (set_counters c (TotalRecipients c) z (DeliveredCount c) (ReadCount c) (FailedCount c))
    | None => None
    end
  else if String.eqb col "delivered_count" then
    match eval_int old v with
    | Some z => Some (set_counters c (TotalRecipients c) (SentCount c) z (ReadCount c) (FailedCount c))
    | None => None
    end
  else if String.eqb col "read_count" then
    match eval_int old v with
    | Some z => Some (set_counters c (TotalRecipients c) (SentCount c) (DeliveredCount c) z (FailedCount c))
    | None => None
    end
  else if String.eqb col "failed_count" then
    match eval_int old v with
    | Some z => Some (set_counters c (TotalRecipients c) (SentCount c) (DeliveredCount c) (ReadCount c) z)
    | None => None
    end
  else None.

Fixpoint assign_campaign_all (old c : BulkMessageCampaign) (a : assignments)
    : option BulkMessageCampaign :=
  match a with
  | [] => Some c
  | x :: a' =>
      match assign_campaign old c x with
      | Some c' => assign_campaign_all old c' a'
      | None => None
      end
  end.

Definition update_campaign_row (a : assignments) (c : BulkMessageCampaign)
    : option BulkMessageCampaign :=
  assign_campaign_all c c a.

Definition set_recipient (r : BulkMessageRecipient) (status err wamid : string)
    (sent_at : option Time) : BulkMessageRecipient :=
  {| Recipient_ID := Recipient_ID r; CampaignID := CampaignID r;
     PhoneNumber := PhoneNumber r; RecipientName := RecipientName r;
     TemplateParams := TemplateParams r; Recipient_Status := status;
     ErrorMessage := err; WhatsAppMessageID := wamid; SentAt := sent_at |}.

(** One assignment of an UPDATE on [bulk_message_recipients]. *)
Definition assign_recipient (r : BulkMessageRecipient) (a : string * value)
    : option BulkMessageRecipient :=
  let (col, v) := a in
  if String.eqb col "status" then
    match v with
    | VString s => Some (set_recipient r s (ErrorMessage r) (WhatsAppMessageID r) (SentAt r))
    | _ => None
    end
  else if String.eqb col "error_message" then
    match v with
    | VString s => Some (set_recipient r (Recipient_Status r) s (WhatsAppMessageID r) (SentAt r))
    | _ => None
    end
  else if String.eqb col "whats_app_message_id" then
    match v with
    | VString s => Some (set_recipient r (Recipient_Status r) (ErrorMessage r) s (SentAt r))
    | _ => None
    end
  else if String.eqb col "sent_at" then
    match v with
    | VTime t => Some (set_recipient r (Recipient_Status r) (ErrorMessage r) (WhatsAppMessageID r) (Some t))
    | _ => None
    end
  else None.

Fixpoint update_recipient_row (a : assignments) (r : BulkMessageRecipient)
    : option BulkMessageRecipient :=
  match a with
  | [] => Some r
  | x :: a' =>
      match assign_recipient r x with
      | Some r' => update_recipient_row a' r'
      | None => None
      end
  end.

(** One assignment of an UPDATE on [messages]. *)
Definition assign_message (m : Message) (a : string * value) : option Message :=
  let (col, v) := a in
  if String.eqb col "status" then
    match v with
    | VString s => Some {| Metadata_campaign_id := Metadata_campaign_id m;
                           Message_Status := s;
                           Message_ErrorMessage := Message_ErrorMessage m |}
    | _ => None
    end
  else if String.eqb col "error_message" then
    match v with
    | VString s => Some {| Metadata_campaign_id := Metadata_campaign_id m;
                           Message_Status := Message_Status m;
                           Message_ErrorMessage := s |}
    | _ => None
    end
  else None.

Fixpoint update_message_row (a : assignments) (m : Message) : option Message :=
  match a with
  | [] => Some m
  | x :: a' =>
      match assign_message m x with
      | Some m' => update_message_row a' m'
      | None => None
      end
  end.

(** [UPDATE t SET a WHERE P]: every row that satisfies [P] is rewritten;
    the whole statement is rejected when an assignment is. *)
Fixpoint update_where {A : Type} (upd : A -> option A) (P : A -> bool)
    (rows : list A) : option (list A) :=
  match rows with
  | [] => Some []
  | x :: rows' =>
      match update_where upd P rows' with
      | None => None
      | Some rest =>
          if P x then
            match upd x with
            | Some x' => Some (x' :: rest)
            | None => None
            end
          else Some (x :: rest)
      end
  end.

(** *** Statements *)

(** [db.Where(P).First(&row)] *)
Definition First {A : Type} (table : DB -> list A) (P : A -> bool) (d : DB)
    : DB * result A :=
  let (f, d) := tick d in
  if f then (d, Err ErrStatement)
  else match List.find P (table d) with
       | Some x => (d, Ok x)
       | None => (d, Err ErrRecordNotFound)
       end.

(** [db.Where(P).Find(&rows)] *)
Definition Find {A : Type} (table : DB -> list A) (P : A -> bool) (d : DB)
    : DB * result (list A) :=
  let (f, d) := tick d in
  if f then (d, Err ErrStatement)
  else (d, Ok (List.filter P (table d))).

(** [db.Model(&T{}).Where(P).Count(&n)] *)
Definition Count {A : Type} (table : DB -> list A) (P : A -> bool) (d : DB)
    : DB * result Z :=
  let (f, d) := tick d in
  if f then (d, Err ErrStatement)
  else (d, Ok (Z.of_nat (length (List.filter P (table d))))).

(** [db.Where("id = ?", id).Preload("Template").First(&campaign)]: the
    campaign row, then a second statement for its template; the
    [Template] pointer stays nil when no template row matches. *)
Definition First_campaign_Preload_Template (P : BulkMessageCampaign -> bool) (d : DB)
    : DB * result (BulkMessageCampaign * option Template) :=
  match First campaigns P d with
  | (d, Err e) => (d, Err e)
  | (d, Ok c) =>
      match Find templates (fun t => bool_decide (Template_ID t = TemplateID c)) d with
      | (d, Err e) => (d, Err e)
      | (d, Ok ts) => (d, Ok (c, head ts))
      end
  end.

(** [db.Model(..).Where(P).Updates(a)] on [bulk_message_campaigns];
    [db.Model(&campaign).Updates(a)] is the case [P := id = campaign.ID]. *)
Definition Updates_campaigns (P : BulkMessageCampaign -> bool) (a : assignments)
    (d : DB) : DB * option error :=
  let (f, d) := tick d in
  if f then (d, Some ErrStatement)
  else match update_where (update_campaign_row a) P (campaigns d) with
       | Some cs => (with_campaigns d cs, None)
       | None => (d, Some ErrStatement)
       end.

Definition by_ID (c : BulkMessageCampaign) : BulkMessageCampaign -> bool :=
  fun row => bool_decide (ID row = ID c).

(** [db.Model(..).Where(P).Updates(a)] on [bulk_message_recipients]. *)
Definition Updates_recipients (P : BulkMessageRecipient -> bool) (a : assignments)
    (d : DB) : DB * option error :=
  let (f, d) := tick d in
  if f then (d, Some ErrStatement)
  else match update_where (update_recipient_row a) P (recipients d) with
       | Some rs => (with_recipients d rs, None)
       | None => (d, Some ErrStatement)
       end.

Definition by_Recipient_ID (r : BulkMessageRecipient) : BulkMessageRecipient -> bool :=
  fun row => bool_decide (Recipient_ID row = Recipient_ID r).

(** [db.Model(&models.Message{}).Where(P).Updates(a)]. *)
Definition Updates_messages (P : Message -> bool) (a : assignments)
    (d : DB) : DB * option error :=
  let (f, d) := tick d in
  if f then (d, Some ErrStatement)
  else match update_where (update_message_row a) P (messages d) with
       | Some ms => (with_messages d ms, None)
       | None => (d, Some ErrStatement)
       end.

(** Primary keys handed out to the rows of one [Create]. *)
Fixpoint assign_ids (n : N) (rs : list BulkMessageRecipient)
    : list BulkMessageRecipient * N :=
  match rs with
  | [] => ([], n)
  | r :: rs' =>
      let (rest, n') := assign_ids (n + 1)%N rs' in
      ({| Recipient_ID := n; CampaignID := CampaignID r;
          PhoneNumber := PhoneNumber r; RecipientName := RecipientName r;
          TemplateParams := TemplateParams r;
          Recipient_Status := Recipient_Status r;
          ErrorMessage := ErrorMessage r;
          WhatsAppMessageID := WhatsAppMessageID r; SentAt := SentAt r |} :: rest, n')
  end.

(** [db.Create(&recipients)]; gorm refuses an empty slice. *)
Definition Create_recipients (rs : list BulkMessageRecipient) (d : DB)
    : DB * option error :=
  let (f, d) := tick d in
  if f then (d, Some ErrStatement)
  else match rs with
       | [] => (d, Some ErrEmptySlice)
       | _ :: _ =>
           let (rows, n) := assign_ids (next_uuid d) rs in
           (with_next_uuid (with_recipients d (recipients d ++ rows)) n, None)
       end.

(** [db.Where(P).Delete(&models.BulkMessageRecipient{})] *)
Definition Delete_recipients (P : BulkMessageRecipient -> bool) (d : DB)
    : DB * option error :=
  let (f, d) := tick d in
  if f then (d, Some ErrStatement)
  else (with_recipients d (List.filter (fun r => negb (P r)) (recipients d)), None).

(** [db.Delete(&campaign)] *)
Definition Delete_campaign (c : BulkMessageCampaign) (d : DB) : DB * option error :=
  let (f, d) := tick d in
  if f then (d, Some ErrStatement)
  else (with_campaigns d (List.filter (fun row => negb (by_ID c row)) (campaigns d)), None).

End gorm.

(** ** go-redis: one stream with one consumer group *)

Module redis.

(** [redis.Nil]: the reply of a blocking read that timed out. *)
Definition Nil : error := "redis: nil".
Definition ErrCommand : error := "redis: command failed".
Definition ErrCanceled : error := "context canceled".

Record XMessage := {
  ID : string;
  Values : gmap string any
}.

Record XStream := {
  Stream : string;
  Messages : list XMessage
}.

Record XPendingExt := {
  XPendingExt_ID : string;
  Consumer : string;
  Idle : Z;
  RetryCount : Z
}.

(** An entry of the group's pending-entries list. *)
Record pending := {
  pending_ID : string;
  owner : string;
  delivered_at : Z;
  deliveries : Z
}.

Record Server := {
  (** server clock, milliseconds *)
  now : Z;
  (** entries of the stream, oldest first *)
  stream : list XMessage;
  next_seq : Z;
  (** how many entries of [stream] the group has been handed so far *)
  delivered : nat;
  (** pending-entries list of the group *)
  pel : list pending;
  (** fault oracle, as for the store *)
  faults : list bool
}.

Definition with_pel (s : Server) (delivered' : nat) (pel' : list pending) : Server :=
  {| now := now s; stream := stream s; next_seq := next_seq s;
     delivered := delivered'; pel := pel'; faults := faults s |}.

Definition tick (s : Server) : bool * Server :=
  match faults s with
  | [] => (false, s)
  | f :: fs =>
      (f, {| now := now s; stream := stream s; next_seq := next_seq s;
             delivered := delivered s; pel := pel s; faults := fs |})
  end.

(** Every command is issued under a context; [ctx_done] tells whether that
    context is already cancelled when the command is issued. *)
Definition command {A : Type} (ctx_done : bool) (run : Server -> Server * result A)
    (s : Server) : Server * result A :=
  if ctx_done then (s, Err ErrCanceled)
  else
    let (f, s) := tick s in
    if f then (s, Err ErrCommand) else run s.

(** XADD stream * field value ...: the new id is the clock reading and a
    sequence number that keeps ids unique and increasing.  Redis restarts
    the sequence at 0 in every millisecond; here it runs on across the
    stream, which gives the same order and the same uniqueness. *)
Definition XAdd (ctx_done : bool) (values : gmap string any) : Server -> Server * result string :=
  command ctx_done (fun s =>
    let id := (Sprintf_d (now s) ++ "-" ++ Sprintf_d (next_seq s))%string in
    ({| now := now s;
        stream := stream s ++ [ {| ID := id; Values := values |} ];
        next_seq := next_seq s + 1;
        delivered := delivered s; pel := pel s; faults := faults s |}, Ok id)).

(** XREADGROUP GROUP g consumer COUNT n BLOCK t STREAMS stream >:
    entries never handed to the group are handed to [consumer] and
    recorded as pending; [Nil] when there are none within the timeout. *)
Definition XReadGroup (ctx_done : bool) (stream_name consumer : string) (count : Z)
    : Server -> Server * result (list XStream) :=
  command ctx_done (fun s =>
    match take (Z.to_nat count) (drop (delivered s) (stream s)) with
    | [] => (s, Err Nil)
    | msgs =>
        let fresh := map (fun m => {| pending_ID := ID m; owner := consumer;
                                      delivered_at := now s; deliveries := 1 |}) msgs in
        (with_pel s (delivered s + length msgs)%nat (pel s ++ fresh),
         Ok [ {| Stream := stream_name; Messages := msgs |} ])
    end).

(** XACK stream group id: the entry leaves the pending-entries list. *)
Definition XAck (ctx_done : bool) (id : string) : Server -> Server * result Z :=
  command ctx_done (fun s =>
    let keep := List.filter (fun p => negb (String.eqb (pending_ID p) id)) (pel s) in
    (with_pel s (delivered s) keep,
     Ok (Z.of_nat (length (pel s)) - Z.of_nat (length keep)))).

Definition idle (s : Server) (p : pending) : Z := now s - delivered_at p.

(** XPENDING stream group IDLE min-idle - + count *)
Definition XPendingExt_ (ctx_done : bool) (min_idle count : Z)
    : Server -> Server * result (list XPendingExt) :=
  command ctx_done (fun s =>
    let stale := List.filter (fun p => min_idle <=? idle s p) (pel s) in
    (s, Ok (map (fun p => {| XPendingExt_ID := pending_ID p; Consumer := owner p;
                             Idle := idle s p; RetryCount := deliveries p |})
                (take (Z.to_nat count) stale)))).

Definition claims (s : Server) (min_idle : Z) (ids : list string) (p : pending) : bool :=
  existsb (String.eqb (pending_ID p)) ids && (min_idle <=? idle s p).

(** XCLAIM stream group consumer min-idle id ...: the listed pending
    entries that are idle long enough change owner; their messages are
    returned. *)
Definition XClaim (ctx_done : bool) (consumer : string) (min_idle : Z) (ids : list string)
    : Server -> Server * result (list XMessage) :=
  command ctx_done (fun s =>
    let claimed := List.filter (claims s min_idle ids) (pel s) in
    let pel' := map (fun p => if claims s min_idle ids p
                              then {| pending_ID := pending_ID p; owner := consumer;
                                      delivered_at := now s;
                                      deliveries := deliveries p + 1 |}
                              else p) (pel s) in
    (with_pel s (delivered s) pel',
     Ok (List.filter (fun m => existsb (fun p => String.eqb (pending_ID p) (ID m)) claimed)
                     (stream s)))).

End redis.

(** ** internal/queue *)

Module queue.

Definition JobType := string.

(** [JobTypeRecipient] is for processing a single recipient message. *)
Definition JobTypeRecipient : JobType := "recipient".

(** [JobTypeCampaign] is for processing bulk message campaigns. *)
Definition JobTypeCampaign : JobType := "campaign".

Record RecipientJob := {
  Job_CampaignID : UUID;
  RecipientID : UUID;
  OrganizationID : UUID;
  PhoneNumber : string;
  RecipientName : string;
  TemplateParams : JSONB;
  Job_EnqueuedAt : Time
}.

Record CampaignJob := {
  CampaignID : UUID;
  EnqueuedAt : Time
}.

(** The [Queue] interface the handlers are given. *)
Class Queue (Q : Type) := {
  EnqueueRecipient : RecipientJob -> Q -> Q * option error;
  EnqueueRecipients : list RecipientJob -> Q -> Q * option error
}.

Definition StreamName : string := "whatomate:campaigns".
Definition ConsumerGroup : string := "campaign-workers".
(** [5 * time.Second] and [5 * time.Minute], in milliseconds *)
Definition BlockTimeout : Z := 5 * 1000.
Definition ClaimMinIdleTime : Z := 5 * 60 * 1000.

(** What the consumer and its handler share besides the stream: the
    cancellation state of the context and the handler's own state. *)
Record Local (St : Type) := {
  ctx_done : bool;
  app : St
}.
Arguments ctx_done {St} _.
Arguments app {St} _.

Record World (St : Type) := {
  server : redis.Server;
  local : Local St
}.
Arguments server {St} _.
Arguments local {St} _.

Definition set_server {St : Type} (w : World St) (sv : redis.Server) : World St :=
  {| server := sv; local := local w |}.

Definition set_local {St : Type} (w : World St) (l : Local St) : World St :=
  {| server := server w; local := l |}.

(** [ctx.Err()] of a cancelled context *)
Definition ctx_Err : error := "context canceled".

Section RedisQueue.

(** [encoding/json] on [CampaignJob]. *)
Variable json_Marshal : CampaignJob -> result string.
Variable json_Unmarshal : string -> result CampaignJob.

(** [RedisQueue.EnqueueCampaign] *)
Definition EnqueueCampaign (ctx_done : bool) (campaignID : UUID) (s : redis.Server)
    : redis.Server * option error :=
  let job := {| CampaignID := campaignID; EnqueuedAt := redis.now s |} in
  match json_Marshal job with
  | Err err => (s, Some (Errorf_w "failed to marshal job" err))
  | Ok payload =>
      match redis.XAdd ctx_done
              (<["type" := AnyString JobTypeCampaign]>
                 (<["payload" := AnyString payload]> ∅)) s with
      | (s, Err err) => (s, Some (Errorf_w "failed to enqueue campaign job" err))
      | (s, Ok _) => (s, None)
      end
  end.

(** The consumer: its identity, the handler it is given, and what the
    rest of the system does while it blocks in its [i]-th read. *)
Variable St : Type.
Variable consumerID : string.
Variable handler : CampaignJob -> Local St -> Local St * option error.
Variable env : nat -> World St -> World St.

(** [RedisConsumer.processMessage] *)
Definition processMessage (msg : redis.XMessage) (l : Local St)
    : Local St * option error :=
  match redis.Values msg !! "type" with
  | Some (AnyString jobType) =>
      if negb (String.eqb jobType JobTypeCampaign) then
        (l, Some (Sprintf_s "unknown job type: " jobType))
      else
        match redis.Values msg !! "payload" with
        | Some (AnyString payload) =>
            match json_Unmarshal payload with
            | Err err => (l, Some (Errorf_w "failed to unmarshal job" err))
            | Ok job => handler job l
            end
        | _ => (l, Some "invalid message: missing payload")
        end
  | _ => (l, Some "invalid message: missing type")
  end.

(** Body of [for _, msg := range ...] in both [Consume] and
    [claimPendingMessages] (they differ in log texts only): process,
    and acknowledge unless processing failed. *)
Definition process_and_ack (w : World St) (msg : redis.XMessage) : World St :=
  match processMessage msg (local w) with
  | (l, Some _) =>
      (* Don't ACK failed messages - they'll be reclaimed later *)
      set_local w l
  | (l, None) =>
      let w := set_local w l in
      (* a failed ACK is logged and nothing else *)
      set_server w (fst (redis.XAck (ctx_done l) (redis.ID msg) (server w)))
  end.

Definition process_messages (w : World St) (msgs : list redis.XMessage) : World St :=
  foldl process_and_ack w msgs.

(** [RedisConsumer.claimPendingMessages] *)
Definition claimPendingMessages (w : World St) : World St * option error :=
  match redis.XPendingExt_ (ctx_done (local w)) ClaimMinIdleTime 100 (server w) with
  | (sv, Err err) =>
      (set_server w sv, Some (Errorf_w "failed to get pending messages" err))
  | (sv, Ok pending) =>
      let w := set_server w sv in
      if (Z.of_nat (length pending) =? 0) then (w, None)
      else
        (foldl (fun w p =>
                  match redis.XClaim (ctx_done (local w)) consumerID ClaimMinIdleTime
                          [redis.XPendingExt_ID p] (server w) with
                  | (sv, Err _) => set_server w sv
                  | (sv, Ok messages) => process_messages (set_server w sv) messages
                  end) w pending, None)
  end.

(** One turn of the [for] loop of [Consume]; [Some err] is
    [return err], [None] goes round again. *)
Definition Consume_iter (i : nat) (w : World St) : World St * option error :=
  if ctx_done (local w) then (w, Some ctx_Err)
  else
    let w := env i w in
    match redis.XReadGroup (ctx_done (local w)) StreamName consumerID 1 (server w) with
    | (sv, Err err) =>
        let w := set_server w sv in
        if String.eqb err redis.Nil then (w, None)
        else if ctx_done (local w) then (w, Some ctx_Err)
        else (w, None)
    | (sv, Ok streams) =>
        (foldl (fun w st => process_messages w (redis.Messages st))
               (set_server w sv) streams, None)
    end.

(** The loop itself; [None] when it is still running after [fuel] turns. *)
Fixpoint Consume_loop (fuel i : nat) (w : World St) : option (World St * error) :=
  match fuel with
  | O => None
  | S fuel' =>
      match Consume_iter i w with
      | (w', Some err) => Some (w', err)
      | (w', None) => Consume_loop fuel' (S i) w'
      end
  end.

(** [RedisConsumer.Consume] *)
Definition Consume (fuel : nat) (w : World St) : option (World St * error) :=
  (* a failure to claim is a warning only *)
  let w := fst (claimPendingMessages w) in
  Consume_loop fuel 0%nat w.

End RedisQueue.

End queue.

(** ** internal/worker *)

Module worker.

(** What a worker acts on: the store, the wall clock, and the calls it has
    made to the messaging gateway so far. *)
Record State := {
  db : gorm.DB;
  clock : Time;
  outbox : list whatsapp.Call
}.

Definition set_db (st : State) (d : gorm.DB) : State :=
  {| db := d; clock := clock st; outbox := outbox st |}.

(** [time.Sleep(d)] *)
Definition Sleep (d : Z) (st : State) : State :=
  {| db := db st; clock := clock st + d; outbox := outbox st |}.

Definition set_app (l : queue.Local State) (st : State) : queue.Local State :=
  {| queue.ctx_done := queue.ctx_done l; queue.app := st |}.

(** How a call of [processCampaign] ends: it returns an error or nil, or
    the goroutine panics. *)
Inductive outcome : Type :=
| Return (err : option error)
| Panic (msg : string).

(** What the Go runtime panics with when a nil pointer is dereferenced
    (the text of the [runtime.Error]). *)
Definition nil_dereference : string :=
  "runtime error: invalid memory address or nil pointer dereference".

(** How the [for _, recipient := range recipients] loop is left. *)
Inductive loop_exit : Type :=
| Exhausted
| Cancelled
| Stopped
| Panicked.

(** Body of the loop [for i := 1; i <= 10; i++] in [sendTemplateMessage]:
    one iteration appends the parameter for key [i] when it is present. *)
Definition bodyParams_step (tp : JSONB) (bodyParams : list whatsapp.BodyParameter)
    (i : Z) : list whatsapp.BodyParameter :=
  let key := Sprintf_d i in
  match index_JSONB tp key with
  | Some val =>
      bodyParams ++ [ {| whatsapp.param_type := "text"; whatsapp.param_text := val |} ]
  | None => bodyParams
  end.

Definition bodyParams_loop (tp : JSONB) : list whatsapp.BodyParameter :=
  foldl (bodyParams_step tp) [] (seqZ 1 10).

(** The [components] slice built by [sendTemplateMessage]. *)
Definition build_components (tp : JSONB) : list whatsapp.Component :=
  let components := [] in
  if bool_decide (tp <> None) && (0 <? len_JSONB tp) then
    let bodyParams := bodyParams_loop tp in
    if 0 <? Z.of_nat (length bodyParams) then
      components ++ [ {| whatsapp.comp_type := "body";
                         whatsapp.comp_parameters := bodyParams |} ]
    else components
  else components.

Section Worker.

(** [whatsapp.Client.SendTemplateMessageWithComponents]: the provider
    message id, or the error. *)
Variable gateway : whatsapp.Call -> result string.

(** What the rest of the system (operators, webhooks, other workers,
    the shutdown signal) does before the [i]-th turn of the send loop:
    it may cancel the context and write to the store. *)
Variable env : nat -> bool * gorm.DB -> bool * gorm.DB.

Definition interfere (i : nat) (l : queue.Local State) : queue.Local State :=
  let (done, d) := env i (queue.ctx_done l, db (queue.app l)) in
  {| queue.ctx_done := done; queue.app := set_db (queue.app l) d |}.

(** [Worker.sendTemplateMessage]; [None] is the nil-pointer panic of
    [template.Name] when the campaign's template was not loaded. *)
Definition sendTemplateMessage (account : WhatsAppAccount) (template : option Template)
    (recipient : BulkMessageRecipient) (st : State) : State * option (result string) :=
  let waAccount := {| whatsapp.PhoneID := models.PhoneID account;
                      whatsapp.BusinessID := models.BusinessID account;
                      whatsapp.APIVersion := models.APIVersion account;
                      whatsapp.AccessToken := models.AccessToken account |} in
  let components := build_components (TemplateParams recipient) in
  match template with
  | None => (st, None)
  | Some t =>
      let call := {| whatsapp.call_account := waAccount;
                     whatsapp.call_phoneNumber := PhoneNumber recipient;
                     whatsapp.call_templateName := Template_Name t;
                     whatsapp.call_templateLanguage := Template_Language t;
                     whatsapp.call_components := components |} in
      ({| db := db st; clock := clock st; outbox := outbox st ++ [call] |},
       Some (gateway call))
  end.

(** One turn of [for _, recipient := range recipients]: [campaign],
    [template] and [account] are what [processCampaign] loaded, [cnt] is
    the pair of locals [(sentCount, failedCount)].  [Some x] leaves the
    loop, [None] goes on to the next recipient. *)
Definition process_recipient (campaignID : UUID) (campaign : BulkMessageCampaign)
    (template : option Template) (account : WhatsAppAccount)
    (i : nat) (l : queue.Local State) (cnt : Z * Z)
    (recipient : BulkMessageRecipient)
    : queue.Local State * (Z * Z) * option loop_exit :=
  let l := interfere i l in
  (* Check context for cancellation *)
  if queue.ctx_done l then (l, cnt, Some Cancelled)
  else
    let st := queue.app l in
    (* Check if campaign is still active (not paused/cancelled); the
       error of this read is dropped, the zero value has Status "" *)
    let (d, cur) := gorm.First gorm.campaigns
                      (fun c => bool_decide (ID c = campaignID)) (db st) in
    let st := set_db st d in
    let status := match cur with Ok c => Status c | Err _ => "" end in
    if String.eqb status "paused" || String.eqb status "cancelled" then
      (set_app l st, cnt, Some Stopped)
    else
      (* Send template message *)
      match sendTemplateMessage account template recipient st with
      | (st, None) => (set_app l st, cnt, Some Panicked)
      | (st, Some res) =>
          let now := clock st in
          let '(sentCount, failedCount) := cnt in
          let '(st, sentCount, failedCount) :=
            match res with
            | Err err =>
                (set_db st (fst (gorm.Updates_recipients (gorm.by_Recipient_ID recipient)
                                   [("status", gorm.VString "failed");
                                    ("error_message", gorm.VString err)] (db st))),
                 sentCount, int_add failedCount 1)
            | Ok messageID =>
                (set_db st (fst (gorm.Updates_recipients (gorm.by_Recipient_ID recipient)
                                   [("status", gorm.VString "sent");
                                    ("whats_app_message_id", gorm.VString messageID);
                                    ("sent_at", gorm.VTime now)] (db st))),
                 int_add sentCount 1, failedCount)
            end in
          (* Update campaign counts *)
          let st := set_db st (fst (gorm.Updates_campaigns (gorm.by_ID campaign)
                                      [("sent_count", gorm.VInt sentCount);
                                       ("failed_count", gorm.VInt failedCount)] (db st))) in
          (* Small delay to avoid rate limiting *)
          let st := Sleep 100 st in
          (set_app l st, (sentCount, failedCount), None)
      end.

Fixpoint send_loop (campaignID : UUID) (campaign : BulkMessageCampaign)
    (template : option Template) (account : WhatsAppAccount)
    (i : nat) (l : queue.Local State) (cnt : Z * Z)
    (recipients : list BulkMessageRecipient)
    : queue.Local State * (Z * Z) * loop_exit :=
  match recipients with
  | [] => (l, cnt, Exhausted)
  | recipient :: rest =>
      match process_recipient campaignID campaign template account i l cnt recipient with
      | (l, cnt, Some x) => (l, cnt, x)
      | (l, cnt, None) => send_loop campaignID campaign template account (S i) l cnt rest
      end
  end.

(** [Worker.processCampaign] *)
Definition processCampaign (campaignID : UUID) (l : queue.Local State)
    : queue.Local State * outcome :=
  let st := queue.app l in
  (* Get campaign with template *)
  match gorm.First_campaign_Preload_Template
          (fun c => bool_decide (ID c = campaignID)) (db st) with
  | (d, Err err) =>
      (set_app l (set_db st d), Return (Some (Errorf_w "failed to load campaign" err)))
  | (d, Ok (campaign, template)) =>
      let st := set_db st d in
      (* Check if campaign is still in a startable state *)
      if negb (String.eqb (Status campaign) "queued")
         && negb (String.eqb (Status campaign) "processing") then
        (set_app l st, Return None)
      else
        (* Get WhatsApp account *)
        match gorm.First gorm.accounts
                (fun a => bool_decide (Account_Name a = WhatsAppAccount_ campaign)
                          && bool_decide (Account_OrganizationID a = OrganizationID campaign))
                (db st) with
        | (d, Err err) =>
            let st := set_db st d in
            let st := set_db st (fst (gorm.Updates_campaigns (gorm.by_ID campaign)
                                        [("status", gorm.VString "failed")] (db st))) in
            (set_app l st, Return (Some (Errorf_w "failed to load WhatsApp account" err)))
        | (d, Ok account) =>
            let st := set_db st d in
            (* Update status to processing *)
            let st := set_db st (fst (gorm.Updates_campaigns (gorm.by_ID campaign)
                                        [("status", gorm.VString "processing")] (db st))) in
            (* Get all pending recipients *)
            match gorm.Find gorm.recipients
                    (fun r => bool_decide (CampaignID r = campaignID)
                              && bool_decide (Recipient_Status r = "pending"))
                    (db st) with
            | (d, Err err) =>
                let st := set_db st d in
                let st := set_db st (fst (gorm.Updates_campaigns (gorm.by_ID campaign)
                                            [("status", gorm.VString "failed")] (db st))) in
                (set_app l st, Return (Some (Errorf_w "failed to load recipients" err)))
            | (d, Ok recipients) =>
                let st := set_db st d in
                let sentCount := SentCount campaign in
                let failedCount := FailedCount campaign in
                match send_loop campaignID campaign template account 0%nat
                        (set_app l st) (sentCount, failedCount) recipients with
                | (l, _, Cancelled) => (l, Return (Some queue.ctx_Err))
                | (l, _, Stopped) => (l, Return None)
                | (l, _, Panicked) =>
                    (l, Panic nil_dereference)
                | (l, (sentCount, failedCount), Exhausted) =>
                    (* Mark campaign as completed *)
                    let st := queue.app l in
                    let now := clock st in
                    let st := set_db st (fst (gorm.Updates_campaigns (gorm.by_ID campaign)
                                                [("status", gorm.VString "completed");
                                                 ("completed_at", gorm.VTime now);
                                                 ("sent_count", gorm.VInt sentCount);
                                                 ("failed_count", gorm.VInt failedCount)]
                                                (db st))) in
                    (set_app l st, Return None)
                end
            end
        end
  end.

(** [Worker.handleCampaignJob] *)
Definition handleCampaignJob (job : queue.CampaignJob) (l : queue.Local State)
    : queue.Local State * outcome :=
  processCampaign (queue.CampaignID job) l.

End Worker.

End worker.

(** ** internal/handlers: campaigns *)

Module handlers.

(** [fasthttp] status codes *)
Definition StatusOK : Z := 200.
Definition StatusBadRequest : Z := 400.
Definition StatusUnauthorized : Z := 401.
Definition StatusNotFound : Z := 404.
Definition StatusInternalServerError : Z := 500.

(** What a handler sends: [r.SendErrorEnvelope(code, message, nil, "")]
    or [r.SendEnvelope(data)]. *)
Inductive Response : Type :=
| SendErrorEnvelope (code : Z) (message : string)
| SendEnvelope (data : list (string * any)).

Definition status_code (resp : Response) : Z :=
  match resp with
  | SendErrorEnvelope code _ => code
  | SendEnvelope _ => StatusOK
  end.

Record RecipientRequest := {
  Req_PhoneNumber : string;
  Req_RecipientName : string;
  Req_TemplateParams : JSONB
}.

(** What the campaign handlers read from a [fastglue.Request]:
    the organization id the auth middleware left in the context
    ([getOrgIDFromContext] fails when it is missing), the [id] path
    value, and the result of [r.Decode(&req, "json")] for the import
    body. *)
Record Request := {
  organization_id : option UUID;
  id : string;
  recipients_body : result (list RecipientRequest)
}.

(** [websocket.WSMessage] of type [TypeCampaignStatsUpdate], as handed to
    [WSHub.BroadcastToOrg]. *)
Record StatsUpdate := {
  to_org : UUID;
  campaign_id : string;
  sent_count : Z;
  delivered_count : Z;
  read_count : Z;
  failed_count : Z
}.

(** The [App] a handler runs on; [WSHub] is [None] when no hub is
    configured, else the broadcasts made so far. *)
Record App (Q : Type) := {
  DB : gorm.DB;
  Queue : Q;
  clock : Time;
  WSHub : option (list StatsUpdate)
}.
Arguments DB {Q} _.
Arguments Queue {Q} _.
Arguments clock {Q} _.
Arguments WSHub {Q} _.

Definition set_DB {Q : Type} (a : App Q) (d : gorm.DB) : App Q :=
  {| DB := d; Queue := Queue a; clock := clock a; WSHub := WSHub a |}.

Definition set_Queue {Q : Type} (a : App Q) (q : Q) : App Q :=
  {| DB := DB a; Queue := q; clock := clock a; WSHub := WSHub a |}.

Definition set_WSHub {Q : Type} (a : App Q) (h : option (list StatsUpdate)) : App Q :=
  {| DB := DB a; Queue := Queue a; clock := clock a; WSHub := h |}.

Section Campaigns.

Context {Q : Type} {QueueQ : queue.Queue Q}.

(** [uuid.Parse] and [UUID.String] *)
Variable uuid_Parse : string -> option UUID.
Variable uuid_String : UUID -> string.

(** The lookup every handler starts with:
    [Where("id = ? AND organization_id = ?", id, orgID).First(&campaign)] *)
Definition owned (id orgID : UUID) : BulkMessageCampaign -> bool :=
  fun c => bool_decide (ID c = id) && bool_decide (OrganizationID c = orgID).

Definition of_campaign_with_status (id : UUID) (status : string)
    : BulkMessageRecipient -> bool :=
  fun r => bool_decide (CampaignID r = id) && bool_decide (Recipient_Status r = status).

(** [App.DeleteCampaign] *)
Definition DeleteCampaign (r : Request) (a : App Q) : App Q * Response :=
  match organization_id r with
  | None => (a, SendErrorEnvelope StatusUnauthorized "Unauthorized")
  | Some orgID =>
  match uuid_Parse (id r) with
  | None => (a, SendErrorEnvelope StatusBadRequest "Invalid campaign ID")
  | Some id =>
  match gorm.First gorm.campaigns (owned id orgID) (DB a) with
  | (d, Err _) => (set_DB a d, SendErrorEnvelope StatusNotFound "Campaign not found")
  | (d, Ok campaign) =>
      let a := set_DB a d in
      (* Don't allow deletion of running campaigns *)
      if String.eqb (Status campaign) "processing" || String.eqb (Status campaign) "queued" then
        (a, SendErrorEnvelope StatusBadRequest "Cannot delete running campaign")
      else
        (* Delete recipients first *)
        match gorm.Delete_recipients (fun r => bool_decide (CampaignID r = id)) (DB a) with
        | (d, Some _) =>
            (set_DB a d, SendErrorEnvelope StatusInternalServerError "Failed to delete campaign")
        | (d, None) =>
            let a := set_DB a d in
            (* Delete campaign *)
            match gorm.Delete_campaign campaign (DB a) with
            | (d, Some _) =>
                (set_DB a d, SendErrorEnvelope StatusInternalServerError "Failed to delete campaign")
            | (d, None) =>
                (set_DB a d,
                 SendEnvelope [("message", AnyString "Campaign deleted successfully")])
            end
        end
  end end end.

(** The jobs [StartCampaign] and [RetryFailed] build, one per recipient;
    [EnqueuedAt] is left at its zero value. *)
Definition make_jobs (id orgID : UUID) (recipients : list BulkMessageRecipient)
    : list queue.RecipientJob :=
  map (fun recipient =>
         {| queue.Job_CampaignID := id;
            queue.RecipientID := Recipient_ID recipient;
            queue.OrganizationID := orgID;
            queue.PhoneNumber := PhoneNumber recipient;
            queue.RecipientName := RecipientName recipient;
            queue.TemplateParams := TemplateParams recipient;
            queue.Job_EnqueuedAt := 0 |}) recipients.

(** [App.StartCampaign] *)
Definition StartCampaign (r : Request) (a : App Q) : App Q * Response :=
  match organization_id r with
  | None => (a, SendErrorEnvelope StatusUnauthorized "Unauthorized")
  | Some orgID =>
  match uuid_Parse (id r) with
  | None => (a, SendErrorEnvelope StatusBadRequest "Invalid campaign ID")
  | Some id =>
  match gorm.First gorm.campaigns (owned id orgID) (DB a) with
  | (d, Err _) => (set_DB a d, SendErrorEnvelope StatusNotFound "Campaign not found")
  | (d, Ok campaign) =>
      let a := set_DB a d in
      (* Check if campaign can be started *)
      if negb (String.eqb (Status campaign) "draft")
         && negb (String.eqb (Status campaign) "scheduled")
         && negb (String.eqb (Status campaign) "paused") then
        (a, SendErrorEnvelope StatusBadRequest "Campaign cannot be started in current state")
      else
        (* Get all pending recipients *)
        match gorm.Find gorm.recipients (of_campaign_with_status id "pending") (DB a) with
        | (d, Err _) =>
            (set_DB a d, SendErrorEnvelope StatusInternalServerError "Failed to load recipients")
        | (d, Ok recipients) =>
            let a := set_DB a d in
            if Z.of_nat (length recipients) =? 0 then
              (a, SendErrorEnvelope StatusBadRequest "Campaign has no pending recipients")
            else
              (* Update status to processing *)
              let now := clock a in
              let updates := [("status", gorm.VString "processing");
                              ("started_at", gorm.VTime now)] in
              match gorm.Updates_campaigns (gorm.by_ID campaign) updates (DB a) with
              | (d, Some _) =>
                  (set_DB a d,
                   SendErrorEnvelope StatusInternalServerError "Failed to start campaign")
              | (d, None) =>
                  let a := set_DB a d in
                  (* Enqueue all recipients as individual jobs *)
                  let jobs := make_jobs id orgID recipients in
                  match queue.EnqueueRecipients jobs (Queue a) with
                  | (q, Some _) =>
                      let a := set_Queue a q in
                      (* Revert status on failure *)
                      let a := set_DB a (fst (gorm.Updates_campaigns (gorm.by_ID campaign)
                                                [("status", gorm.VString "draft")] (DB a))) in
                      (a, SendErrorEnvelope StatusInternalServerError "Failed to queue recipients")
                  | (q, None) =>
                      (set_Queue a q,
                       SendEnvelope [("message", AnyString "Campaign started");
                                     ("status", AnyString "processing")])
                  end
              end
        end
  end end end.

(** [App.PauseCampaign] *)
Definition PauseCampaign (r : Request) (a : App Q) : App Q * Response :=
  match organization_id r with
  | None => (a, SendErrorEnvelope StatusUnauthorized "Unauthorized")
  | Some orgID =>
  match uuid_Parse (id r) with
  | None => (a, SendErrorEnvelope StatusBadRequest "Invalid campaign ID")
  | Some id =>
  match gorm.First gorm.campaigns (owned id orgID) (DB a) with
  | (d, Err _) => (set_DB a d, SendErrorEnvelope StatusNotFound "Campaign not found")
  | (d, Ok campaign) =>
      let a := set_DB a d in
      if negb (String.eqb (Status campaign) "processing")
         && negb (String.eqb (Status campaign) "queued") then
        (a, SendErrorEnvelope StatusBadRequest "Campaign is not running")
      else
        match gorm.Updates_campaigns (gorm.by_ID campaign)
                [("status", gorm.VString "paused")] (DB a) with
        | (d, Some _) =>
            (set_DB a d, SendErrorEnvelope StatusInternalServerError "Failed to pause campaign")
        | (d, None) =>
            (set_DB a d,
             SendEnvelope [("message", AnyString "Campaign paused");
                           ("status", AnyString "paused")])
        end
  end end end.

(** [App.CancelCampaign] *)
Definition CancelCampaign (r : Request) (a : App Q) : App Q * Response :=
  match organization_id r with
  | None => (a, SendErrorEnvelope StatusUnauthorized "Unauthorized")
  | Some orgID =>
  match uuid_Parse (id r) with
  | None => (a, SendErrorEnvelope StatusBadRequest "Invalid campaign ID")
  | Some id =>
  match gorm.First gorm.campaigns (owned id orgID) (DB a) with
  | (d, Err _) => (set_DB a d, SendErrorEnvelope StatusNotFound "Campaign not found")
  | (d, Ok campaign) =>
      let a := set_DB a d in
      if String.eqb (Status campaign) "completed" || String.eqb (Status campaign) "cancelled" then
        (a, SendErrorEnvelope StatusBadRequest "Campaign already finished")
      else
        match gorm.Updates_campaigns (gorm.by_ID campaign)
                [("status", gorm.VString "cancelled")] (DB a) with
        | (d, Some _) =>
            (set_DB a d, SendErrorEnvelope StatusInternalServerError "Failed to cancel campaign")
        | (d, None) =>
            (set_DB a d,
             SendEnvelope [("message", AnyString "Campaign cancelled");
                           ("status", AnyString "cancelled")])
        end
  end end end.

(** [COUNT(CASE WHEN status IN (...) THEN 1 END)] over the selected rows *)
Definition count_status (statuses : list string) (ms : list Message) : Z :=
  Z.of_nat (length (List.filter
                      (fun m => existsb (String.eqb (Message_Status m)) statuses) ms)).

(** [App.recalculateCampaignStats]: recalculates all campaign stats from
    the messages table.  A failed SELECT leaves [stats] at its zero
    value; a failed UPDATE is logged. *)
Definition recalculateCampaignStats (campaignID : UUID) (a : App Q) : App Q :=
  let (d, rows) := gorm.Find gorm.messages
                     (fun m => bool_decide
                                 (Metadata_campaign_id m = Some (uuid_String campaignID)))
                     (DB a) in
  let a := set_DB a d in
  let ms := match rows with Ok ms => ms | Err _ => [] end in
  let Sent := count_status ["sent"; "delivered"; "read"] ms in
  let Delivered := count_status ["delivered"; "read"] ms in
  let Read := count_status ["read"] ms in
  let Failed := count_status ["failed"] ms in
  set_DB a (fst (gorm.Updates_campaigns (fun c => bool_decide (ID c = campaignID))
                   [("sent_count", gorm.VInt Sent);
                    ("delivered_count", gorm.VInt Delivered);
                    ("read_count", gorm.VInt Read);
                    ("failed_count", gorm.VInt Failed)] (DB a))).

(** [App.incrementCampaignStat]: increments the campaign counter that
    belongs to a message status reported by the gateway. *)
Definition incrementCampaignStat (campaignID : string) (status : string) (a : App Q)
    : App Q :=
  match uuid_Parse campaignID with
  | None => a
  | Some campaignUUID =>
      let column :=
        if String.eqb status "delivered" then Some "delivered_count"
        else if String.eqb status "read" then Some "read_count"
        else if String.eqb status "failed" then Some "failed_count"
        else None (* sent is already counted during processCampaign *) in
      match column with
      | None => a
      | Some column =>
          match gorm.Updates_campaigns (fun c => bool_decide (ID c = campaignUUID))
                  [(column, gorm.VExpr (gorm.ColPlus column 1))] (DB a) with
          | (d, Some _) => set_DB a d
          | (d, None) =>
              let a := set_DB a d in
              (* Broadcast stats update via WebSocket *)
              match WSHub a with
              | None => a
              | Some sent =>
                  match gorm.First gorm.campaigns
                          (fun c => bool_decide (ID c = campaignUUID)) (DB a) with
                  | (d, Err _) => set_DB a d
                  | (d, Ok campaign) =>
                      set_WSHub (set_DB a d)
                        (Some (sent ++ [ {| to_org := OrganizationID campaign;
                                            campaign_id := campaignID;
                                            sent_count := SentCount campaign;
                                            delivered_count := DeliveredCount campaign;
                                            read_count := ReadCount campaign;
                                            failed_count := FailedCount campaign |} ])%list)
                  end
              end
          end
      end
  end.

(** [App.RetryFailed]: retries sending to all failed recipients *)
Definition RetryFailed (r : Request) (a : App Q) : App Q * Response :=
  match organization_id r with
  | None => (a, SendErrorEnvelope StatusUnauthorized "Unauthorized")
  | Some orgID =>
  match uuid_Parse (id r) with
  | None => (a, SendErrorEnvelope StatusBadRequest "Invalid campaign ID")
  | Some id =>
  match gorm.First gorm.campaigns (owned id orgID) (DB a) with
  | (d, Err _) => (set_DB a d, SendErrorEnvelope StatusNotFound "Campaign not found")
  | (d, Ok campaign) =>
      let a := set_DB a d in
      (* Only allow retry on completed or paused campaigns *)
      if negb (String.eqb (Status campaign) "completed")
         && negb (String.eqb (Status campaign) "paused")
         && negb (String.eqb (Status campaign) "failed") then
        (a, SendErrorEnvelope StatusBadRequest
              "Can only retry failed messages on completed, paused, or failed campaigns")
      else
        (* Get failed recipients *)
        match gorm.Find gorm.recipients (of_campaign_with_status id "failed") (DB a) with
        | (d, Err _) =>
            (set_DB a d,
             SendErrorEnvelope StatusInternalServerError "Failed to load failed recipients")
        | (d, Ok failedRecipients) =>
            let a := set_DB a d in
            if Z.of_nat (length failedRecipients) =? 0 then
              (a, SendErrorEnvelope StatusBadRequest "No failed messages to retry")
            else
              (* Reset failed recipients to pending *)
              match gorm.Updates_recipients (of_campaign_with_status id "failed")
                      [("status", gorm.VString "pending");
                       ("error_message", gorm.VString "")] (DB a) with
              | (d, Some _) =>
                  (set_DB a d,
                   SendErrorEnvelope StatusInternalServerError
                     "Failed to reset failed recipients")
              | (d, None) =>
                  let a := set_DB a d in
                  (* Reset failed messages in messages table to pending;
                     an error is logged *)
                  let a := set_DB a (fst (gorm.Updates_messages
                             (fun m => bool_decide (Metadata_campaign_id m = Some (uuid_String id))
                                       && bool_decide (Message_Status m = "failed"))
                             [("status", gorm.VString "pending");
                              ("error_message", gorm.VString "")] (DB a))) in
                  (* Recalculate campaign stats from messages table *)
                  let a := recalculateCampaignStats id a in
                  (* Update campaign status to processing *)
                  match gorm.Updates_campaigns (gorm.by_ID campaign)
                          [("status", gorm.VString "processing")] (DB a) with
                  | (d, Some _) =>
                      (set_DB a d,
                       SendErrorEnvelope StatusInternalServerError "Failed to update campaign")
                  | (d, None) =>
                      let a := set_DB a d in
                      (* Enqueue failed recipients as individual jobs *)
                      let jobs := make_jobs id orgID failedRecipients in
                      match queue.EnqueueRecipients jobs (Queue a) with
                      | (q, Some _) =>
                          (set_Queue a q,
                           SendErrorEnvelope StatusInternalServerError
                             "Failed to queue recipients")
                      | (q, None) =>
                          (set_Queue a q,
                           SendEnvelope
                             [("message", AnyString "Retrying failed messages");
                              ("retry_count", AnyNumber (Z.of_nat (length failedRecipients)));
                              ("status", AnyString "processing")])
                      end
                  end
              end
        end
  end end end.

(** [App.ImportRecipients]: adds recipients to a campaign *)
Definition ImportRecipients (r : Request) (a : App Q) : App Q * Response :=
  match organization_id r with
  | None => (a, SendErrorEnvelope StatusUnauthorized "Unauthorized")
  | Some orgID =>
  match uuid_Parse (id r) with
  | None => (a, SendErrorEnvelope StatusBadRequest "Invalid campaign ID")
  | Some id =>
  match gorm.First gorm.campaigns (owned id orgID) (DB a) with
  | (d, Err _) => (set_DB a d, SendErrorEnvelope StatusNotFound "Campaign not found")
  | (d, Ok campaign) =>
      let a := set_DB a d in
      if negb (String.eqb (Status campaign) "draft") then
        (a, SendErrorEnvelope StatusBadRequest "Can only add recipients to draft campaigns")
      else
        match recipients_body r with
        | Err _ => (a, SendErrorEnvelope StatusBadRequest "Invalid request body")
        | Ok req_Recipients =>
            (* Create recipients *)
            let recipients :=
              map (fun rec =>
                     {| Recipient_ID := 0%N;
                        CampaignID := id;
                        PhoneNumber := Req_PhoneNumber rec;
                        RecipientName := Req_RecipientName rec;
                        TemplateParams := Req_TemplateParams rec;
                        Recipient_Status := "pending";
                        ErrorMessage := "";
                        WhatsAppMessageID := "";
                        SentAt := None |}) req_Recipients in
            match gorm.Create_recipients recipients (DB a) with
            | (d, Some _) =>
                (set_DB a d,
                 SendErrorEnvelope StatusInternalServerError "Failed to add recipients")
            | (d, None) =>
                let a := set_DB a d in
                (* Update total recipients count; both errors are dropped *)
                let (d, n) := gorm.Count gorm.recipients
                                (fun r => bool_decide (CampaignID r = id)) (DB a) in
                let a := set_DB a d in
                let totalCount := match n with Ok n => n | Err _ => 0 end in
                let a := set_DB a (fst (gorm.Updates_campaigns (gorm.by_ID campaign)
                                          [("total_recipients", gorm.VInt totalCount)] (DB a))) in
                (a, SendEnvelope
                      [("message", AnyString "Recipients added successfully");
                       ("added_count", AnyNumber (Z.of_nat (length req_Recipients)));
                       ("total_recipients", AnyNumber totalCount)])
            end
        end
  end end end.

(** The campaign actions of the API, and the handler behind each. *)
Inductive action : Type :=
| Start
| Pause
| Cancel
| Retry
| Import
| Delete.

Definition invoke (act : action) : Request -> App Q -> App Q * Response :=
  match act with
  | Start => StartCampaign
  | Pause => PauseCampaign
  | Cancel => CancelCampaign
  | Retry => RetryFailed
  | Import => ImportRecipients
  | Delete => DeleteCampaign
  end.

End Campaigns.

End handlers.

(** ** The specification's vocabulary *)

Module spec.

(** The transition table of the campaign state machine: in which stored
    states an API action is accepted. *)
Definition permitted (act : handlers.action) (status : string) : bool :=
  match act with
  | handlers.Start =>
      bool_decide (status ∈ ["draft"; "scheduled"; "paused"])
  | handlers.Pause =>
      bool_decide (status ∈ ["processing"; "queued"])
  | handlers.Cancel =>
      negb (bool_decide (status ∈ ["completed"; "cancelled"]))
  | handlers.Retry =>
      bool_decide (status ∈ ["completed"; "paused"; "failed"])
  | handlers.Import =>
      bool_decide (status = "draft")
  | handlers.Delete =>
      negb (bool_decide (status ∈ ["processing"; "queued"]))
  end.

(** A 4xx response. *)
Definition client_error (code : Z) : Prop := 400 <= code < 500.

(** The store holds the same rows. *)
Definition same_rows (d d' : gorm.DB) : Prop :=
  gorm.campaigns d' = gorm.campaigns d /\
  gorm.recipients d' = gorm.recipients d /\
  gorm.messages d' = gorm.messages d /\
  gorm.accounts d' = gorm.accounts d /\
  gorm.templates d' = gorm.templates d.

(** Number of recipients of campaign [id] in status [status]. *)
Definition count_recipients (id : UUID) (status : string)
    (rs : list BulkMessageRecipient) : Z :=
  Z.of_nat (length (List.filter
                      (fun r => bool_decide (CampaignID r = id)
                                && bool_decide (Recipient_Status r = status)) rs)).

(** Counter consistency of campaign [id]: every stored row of the campaign
    carries the recipient counts. *)
Definition counters_consistent (id : UUID) (d : gorm.DB) : Prop :=
  Forall (fun c => ID c = id ->
                   SentCount c = count_recipients id "sent" (gorm.recipients d) /\
                   FailedCount c = count_recipients id "failed" (gorm.recipients d))
         (gorm.campaigns d).

Definition counters_consistentb (id : UUID) (d : gorm.DB) : bool :=
  forallb (fun c => negb (bool_decide (ID c = id)) ||
                    (bool_decide (SentCount c = count_recipients id "sent" (gorm.recipients d))
                     && bool_decide (FailedCount c = count_recipients id "failed" (gorm.recipients d))))
          (gorm.campaigns d).

(** The body parameters of a send: the entries of the parameter map under
    the keys "1" .. "10", in ascending numeric key order. *)
Definition body_parameters (tp : JSONB) : list whatsapp.BodyParameter :=
  omap (fun i : Z =>
          match index_JSONB tp (Sprintf_d i) with
          | Some val => Some {| whatsapp.param_type := "text"; whatsapp.param_text := val |}
          | None => None
          end) (seqZ 1 10).

(** The components of a send: one body component carrying the body
    parameters, or none when there is no body parameter. *)
Definition components (tp : JSONB) : list whatsapp.Component :=
  match body_parameters tp with
  | [] => []
  | ps => [ {| whatsapp.comp_type := "body"; whatsapp.comp_parameters := ps |} ]
  end.

(** The parameter map without the entries the gateway call does not use. *)
Definition ordinal_keys : list string := map Sprintf_d (seqZ 1 10).

Definition restrict_to_ordinals (tp : JSONB) : JSONB :=
  match tp with
  | None => None
  | Some m => Some (filter (fun kv : string * any => kv.1 ∈ ordinal_keys) m)
  end.

(** What retry-failed does to one recipient row: a failed recipient of the
    campaign becomes pending with its error message cleared, every other
    column and every other row stay as they are. *)
Definition retry_reset (id : UUID) (r : BulkMessageRecipient) : BulkMessageRecipient :=
  if bool_decide (CampaignID r = id) && bool_decide (Recipient_Status r = "failed") then
    {| Recipient_ID := Recipient_ID r; CampaignID := CampaignID r;
       PhoneNumber := PhoneNumber r; RecipientName := RecipientName r;
       TemplateParams := TemplateParams r;
       Recipient_Status := "pending"; ErrorMessage := "";
       WhatsAppMessageID := WhatsAppMessageID r; SentAt := SentAt r |}
  else r.

(** Ids of the entries in the pending-entries list of the group. *)
Definition pending_ids (s : redis.Server) : list string :=
  map redis.pending_ID (redis.pel s).

(** The phone numbers a worker has sent to, in the order of the sends. *)
Definition phones (st : worker.State) : list string :=
  map whatsapp.call_phoneNumber (worker.outbox st).

(** The recipients of campaign [id] that are pending in the store. *)
Definition pending_recipients (id : UUID) (d : gorm.DB) : list BulkMessageRecipient :=
  List.filter (fun r => bool_decide (CampaignID r = id)
                        && bool_decide (Recipient_Status r = "pending"))
              (gorm.recipients d).

(** The status values an [Updates] call assigns. *)
Definition status_writes (a : gorm.assignments) : list string :=
  omap (fun cv : string * gorm.value =>
          if String.eqb (fst cv) "status" then
            match snd cv with
            | gorm.VString s => Some s
            | _ => None
            end
          else None) a.

(** No campaign has become completed between [d] and [d']: every
    completed row of [d'] was a completed row of [d]. *)
Definition no_new_completed (d d' : gorm.DB) : Prop :=
  forall c', c' ∈ gorm.campaigns d' -> Status c' = "completed" ->
    exists c, c ∈ gorm.campaigns d /\ ID c = ID c' /\ Status c = "completed".

(** The status the worker sees when it re-reads campaign [id]: that of the
    first row with this id, or the zero value when there is none. *)
Definition observed_status (id : UUID) (d : gorm.DB) : string :=
  match List.find (fun c => bool_decide (ID c = id)) (gorm.campaigns d) with
  | Some c => Status c
  | None => ""
  end.

(** The campaign would not be observed paused or cancelled. *)
Definition running (id : UUID) (d : gorm.DB) : Prop :=
  observed_status id d <> "paused" /\ observed_status id d <> "cancelled".

(** The campaign has a row in the store. *)
Definition present (id : UUID) (d : gorm.DB) : Prop :=
  exists c, c ∈ gorm.campaigns d /\ ID c = id.

(** The rest of the system leaves a run of campaign [id] undisturbed: it
    does not cancel the context, does not break a healthy store, and does
    not pause, cancel or delete the campaign. *)
Definition undisturbed (id : UUID) (env : nat -> bool * gorm.DB -> bool * gorm.DB) : Prop :=
  forall i d,
    gorm.faults d = [] -> running id d -> present id d ->
    fst (env i (false, d)) = false /\
    gorm.faults (snd (env i (false, d))) = [] /\
    running id (snd (env i (false, d))) /\
    present id (snd (env i (false, d))).

(** What the worker writes to the row of a recipient it has sent to, and
    to the row of one the gateway refused. *)
Definition mark_sent (messageID : string) (now : Time) (r : BulkMessageRecipient)
    : BulkMessageRecipient :=
  {| Recipient_ID := Recipient_ID r; CampaignID := CampaignID r;
     PhoneNumber := PhoneNumber r; RecipientName := RecipientName r;
     TemplateParams := TemplateParams r;
     Recipient_Status := "sent"; ErrorMessage := ErrorMessage r;
     WhatsAppMessageID := messageID; SentAt := Some now |}.

Definition mark_failed (err : string) (r : BulkMessageRecipient) : BulkMessageRecipient :=
  {| Recipient_ID := Recipient_ID r; CampaignID := CampaignID r;
     PhoneNumber := PhoneNumber r; RecipientName := RecipientName r;
     TemplateParams := TemplateParams r;
     Recipient_Status := "failed"; ErrorMessage := err;
     WhatsAppMessageID := WhatsAppMessageID r; SentAt := SentAt r |}.

(** Whether a recipient row counts for campaign [id] in status [status]. *)
Definition counts_as (id : UUID) (status : string) (r : BulkMessageRecipient) : bool :=
  bool_decide (CampaignID r = id) && bool_decide (Recipient_Status r = status).

(** The messages of campaign [id], as the recompute selects them. *)
Definition campaign_messages (id_text : string) (d : gorm.DB) : list Message :=
  List.filter (fun m => bool_decide (Metadata_campaign_id m = Some id_text))
              (gorm.messages d).

(** What holds between two turns of the send loop of campaign [id] when
    nobody else writes: the store is healthy, primary keys are unique, the
    recipients still to go are stored rows that are pending, the locals
    [cnt] are the recipient counts, and so are the stored counters. *)
Definition loop_invariant (id : UUID) (d : gorm.DB) (cnt : Z * Z)
    (remaining : list BulkMessageRecipient) : Prop :=
  gorm.faults d = [] /\
  NoDup (map Recipient_ID (gorm.recipients d)) /\
  Z.of_nat (length (gorm.recipients d)) <= int_max /\
  NoDup (map Recipient_ID remaining) /\
  Forall (fun r => r ∈ gorm.recipients d /\ counts_as id "pending" r = true) remaining /\
  cnt = (count_recipients id "sent" (gorm.recipients d),
         count_recipients id "failed" (gorm.recipients d)) /\
  Forall (fun c => ID c = id -> SentCount c = fst cnt /\ FailedCount c = snd cnt)
         (gorm.campaigns d).

(** The ids the consumer may acknowledge in a batch run from world [w]:
    those of the entries on which processing returns success, each taken in
    the world the batch has reached when the entry's turn comes. *)
Fixpoint succeeded (json_Unmarshal : string -> result queue.CampaignJob) (St : Type)
    (handler : queue.CampaignJob -> queue.Local St -> queue.Local St * option error)
    (w : queue.World St) (msgs : list redis.XMessage) : list string :=
  match msgs with
  | [] => []
  | m :: ms =>
      match snd (queue.processMessage json_Unmarshal St handler m (queue.local w)) with
      | None => [redis.ID m]
      | Some _ => []
      end
      ++ succeeded json_Unmarshal St handler
           (queue.process_and_ack json_Unmarshal St handler w m) ms
  end.

(** The same for the reclaim phase: the entries claimed one by one from the
    list of stale pending entries. *)
Fixpoint reclaimed_ok (json_Unmarshal : string -> result queue.CampaignJob) (St : Type)
    (consumerID : string)
    (handler : queue.CampaignJob -> queue.Local St -> queue.Local St * option error)
    (w : queue.World St) (pending : list redis.XPendingExt) : list string :=
  match pending with
  | [] => []
  | p :: ps =>
      match redis.XClaim (queue.ctx_done (queue.local w)) consumerID
              queue.ClaimMinIdleTime [redis.XPendingExt_ID p] (queue.server w) with
      | (sv, Err _) =>
          reclaimed_ok json_Unmarshal St consumerID handler (queue.set_server w sv) ps
      | (sv, Ok messages) =>
          succeeded json_Unmarshal St handler (queue.set_server w sv) messages
          ++ reclaimed_ok json_Unmarshal St consumerID handler
               (queue.process_messages json_Unmarshal St handler
                  (queue.set_server w sv) messages) ps
      end
  end.

Definition reclaim_succeeded (json_Unmarshal : string -> result queue.CampaignJob)
    (St : Type) (consumerID : string)
    (handler : queue.CampaignJob -> queue.Local St -> queue.Local St * option error)
    (w : queue.World St) : list string :=
  match redis.XPendingExt_ (queue.ctx_done (queue.local w)) queue.ClaimMinIdleTime 100
          (queue.server w) with
  | (sv, Ok pending) =>
      reclaimed_ok json_Unmarshal St consumerID handler (queue.set_server w sv) pending
  | (_, Err _) => []
  end.

End spec.

(** ** A concrete deployment to run the pipeline on *)

Module scenario.

Definition org : UUID := 1%N.
Definition cid : UUID := 10%N.
Definition cid_text : string := "0000000a-0000-4000-8000-000000000000".

(** [uuid.Parse] and [UUID.String] restricted to the one campaign id. *)
Definition uuid_Parse (s : string) : option UUID :=
  if String.eqb s cid_text then Some cid else None.

Definition uuid_String (u : UUID) : string :=
  if N.eqb u cid then cid_text else "".

(** An in-memory stand-in for the queue behind the handlers: it appends the
    batch when it is healthy and refuses it otherwise. *)
Record MemQueue := {
  healthy : bool;
  jobs : list queue.RecipientJob
}.

Definition mem_enqueue (batch : list queue.RecipientJob) (q : MemQueue)
    : MemQueue * option error :=
  if healthy q then ({| healthy := true; jobs := jobs q ++ batch |}, None)
  else (q, Some "dial tcp: connection refused").

#[global] Instance mem_queue : queue.Queue MemQueue := {|
  queue.EnqueueRecipient := fun job => mem_enqueue [job];
  queue.EnqueueRecipients := mem_enqueue
|}.

(** A gateway that refuses the phone numbers "+2" and "+4". *)
Definition gateway (call : whatsapp.Call) : result string :=
  if String.eqb (whatsapp.call_phoneNumber call) "+2"
     || String.eqb (whatsapp.call_phoneNumber call) "+4"
  then Err "(#131026) Message undeliverable"
  else Ok ("wamid." ++ whatsapp.call_phoneNumber call)%string.

(** A gateway that accepts every send. *)
Definition gateway_up (call : whatsapp.Call) : result string :=
  Ok ("wamid." ++ whatsapp.call_phoneNumber call)%string.

(** Nobody else touches the context or the store. *)
Definition alone (i : nat) (x : bool * gorm.DB) : bool * gorm.DB := x.

Definition account : WhatsAppAccount :=
  {| Account_Name := "main"; Account_OrganizationID := org;
     models.PhoneID := "1055"; models.BusinessID := "2066";
     models.APIVersion := "v21.0"; models.AccessToken := "token" |}.

Definition template : Template :=
  {| Template_ID := 20%N; Template_OrganizationID := org;
     Template_Name := "order_update"; Template_Language := "en" |}.

Definition campaign (status : string) (sent failed : Z) : BulkMessageCampaign :=
  {| ID := cid; OrganizationID := org; WhatsAppAccount_ := "main";
     Name := "autumn"; TemplateID := 20%N; Status := status;
     TotalRecipients := 5; SentCount := sent; DeliveredCount := 0;
     ReadCount := 0; FailedCount := failed;
     ScheduledAt := None; StartedAt := None; CompletedAt := None |}.

Definition recipient (n : N) (phone status err wamid : string) : BulkMessageRecipient :=
  {| Recipient_ID := n; CampaignID := cid; PhoneNumber := phone;
     RecipientName := ""; TemplateParams := Some (<["1" := AnyString "Ada"]> ∅);
     Recipient_Status := status; ErrorMessage := err;
     WhatsAppMessageID := wamid; SentAt := None |}.

Definition store (cs : list BulkMessageCampaign) (rs : list BulkMessageRecipient)
    (ms : list Message) : gorm.DB :=
  {| gorm.campaigns := cs; gorm.recipients := rs; gorm.messages := ms;
     gorm.accounts := [account]; gorm.templates := [template];
     gorm.next_uuid := 1000%N; gorm.faults := [] |}.

(** Five freshly imported recipients of a draft campaign. *)
Definition five_pending : list BulkMessageRecipient :=
  [ recipient 101 "+1" "pending" "" ""; recipient 102 "+2" "pending" "" "";
    recipient 103 "+3" "pending" "" ""; recipient 104 "+4" "pending" "" "";
    recipient 105 "+5" "pending" "" "" ].

Definition app (d : gorm.DB) (queue_up : bool) : handlers.App MemQueue :=
  {| handlers.DB := d;
     handlers.Queue := {| healthy := queue_up; jobs := [] |};
     handlers.clock := 1700000000000;
     handlers.WSHub := None |}.

Definition request : handlers.Request :=
  {| handlers.organization_id := Some org;
     handlers.id := cid_text;
     handlers.recipients_body := Ok [] |}.

Definition worker_on (d : gorm.DB) : queue.Local worker.State :=
  {| queue.ctx_done := false;
     queue.app := {| worker.db := d; worker.clock := 1700000000000; worker.outbox := [] |} |}.

Definition handle (act : handlers.action) (a : handlers.App MemQueue)
    : handlers.App MemQueue * handlers.Response :=
  handlers.invoke uuid_Parse uuid_String act request a.

Definition run_worker (gw : whatsapp.Call -> result string)
    (env : nat -> bool * gorm.DB -> bool * gorm.DB) (d : gorm.DB)
    : queue.Local worker.State * worker.outcome :=
  worker.processCampaign gw env cid (worker_on d).

Definition statuses (d : gorm.DB) : list string :=
  map Recipient_Status (gorm.recipients d).

Definition counters (d : gorm.DB) : list (string * Z * Z) :=
  map (fun c => (Status c, SentCount c, FailedCount c)) (gorm.campaigns d).

(** A recipient whose parameter map has no ordinal key. *)
Definition recipient_named : BulkMessageRecipient :=
  {| Recipient_ID := 106%N; CampaignID := cid; PhoneNumber := "+6";
     RecipientName := "Ada";
     TemplateParams := Some (<["name" := AnyString "Ada"]> (<["11" := AnyString "x"]> ∅));
     Recipient_Status := "pending"; ErrorMessage := "";
     WhatsAppMessageID := ""; SentAt := None |}.

(** A stream server with an empty stream and an empty pending list. *)
Definition server : redis.Server :=
  {| redis.now := 1700000000000; redis.stream := []; redis.next_seq := 0;
     redis.delivered := 0%nat; redis.pel := []; redis.faults := [] |}.

Definition campaign_job : queue.CampaignJob :=
  {| queue.CampaignID := cid; queue.EnqueuedAt := 1700000000000 |}.

Definition dq : string := String (ascii_of_nat 34) EmptyString.

(** A stand-in for [encoding/json] on [CampaignJob], restricted for
    decoding to the one job of the scenario.  It writes the timestamp as
    a number, where the library writes RFC 3339 text; the properties take
    the two functions as parameters and the sample runs need only that
    decoding undoes encoding. *)
Definition json_text (job : queue.CampaignJob) : string :=
  ("{" ++ dq ++ "campaign_id" ++ dq ++ ":" ++ dq ++ uuid_String (queue.CampaignID job) ++ dq
   ++ "," ++ dq ++ "enqueued_at" ++ dq ++ ":" ++ Sprintf_d (queue.EnqueuedAt job) ++ "}")%string.

Definition json_Marshal (job : queue.CampaignJob) : result string :=
  Ok (json_text job).

Definition json_Unmarshal (payload : string) : result queue.CampaignJob :=
  if String.eqb payload (json_text campaign_job) then Ok campaign_job
  else Err "invalid character".

(** The state a consumer's handler works on, and a handler that accepts
    every job and counts them. *)
Definition idle_local : queue.Local nat :=
  {| queue.ctx_done := false; queue.app := 0%nat |}.

Definition counting_handler (job : queue.CampaignJob) (l : queue.Local nat)
    : queue.Local nat * option error :=
  ({| queue.ctx_done := queue.ctx_done l; queue.app := S (queue.app l) |}, None).

(** An entry in the envelope the specification describes. *)
Definition recipient_entry : redis.XMessage :=
  {| redis.ID := "1700000000000-0";
     redis.Values := <["type" := AnyString "recipient"]>
                       (<["payload" := AnyString (json_text campaign_job)]> ∅) |}.

(** An entry in the envelope [EnqueueCampaign] writes. *)
Definition campaign_entry : redis.XMessage :=
  {| redis.ID := "1699999000000-0";
     redis.Values := <["type" := AnyString "campaign"]>
                       (<["payload" := AnyString (json_text campaign_job)]> ∅) |}.

(** A consumer that finds one unread entry of type "recipient". *)
Definition unread_world : queue.World nat :=
  {| queue.server :=
       {| redis.now := 1700000000000; redis.stream := [recipient_entry];
          redis.next_seq := 1; redis.delivered := 0%nat; redis.pel := [];
          redis.faults := [] |};
     queue.local := idle_local |}.

(** A consumer that finds one entry a dead worker left pending a quarter
    of an hour ago. *)
Definition stale_world : queue.World nat :=
  {| queue.server :=
       {| redis.now := 1700000000000; redis.stream := [campaign_entry];
          redis.next_seq := 1; redis.delivered := 1%nat;
          redis.pel := [ {| redis.pending_ID := "1699999000000-0";
                            redis.owner := "worker-dead-17";
                            redis.delivered_at := 1699999100000;
                            redis.deliveries := 1 |} ];
          redis.faults := [] |};
     queue.local := idle_local |}.

(** Nothing else happens while the consumer blocks. *)
Definition quiet (i : nat) (w : queue.World nat) : queue.World nat := w.

(** The draft campaign right after the import of its five recipients. *)
Definition draft_store : gorm.DB := store [campaign "draft" 0 0] five_pending [].

(** The campaign after a worker run in which the gateway refused "+2" and
    "+4": three recipients sent, two failed. *)
Definition completed_store : gorm.DB :=
  store [campaign "completed" 3 2]
    [ recipient 101 "+1" "sent" "" "wamid.+1";
      recipient 102 "+2" "failed" "(#131026) Message undeliverable" "";
      recipient 103 "+3" "sent" "" "wamid.+3";
      recipient 104 "+4" "failed" "(#131026) Message undeliverable" "";
      recipient 105 "+5" "sent" "" "wamid.+5" ] [].

(** A campaign resumed after a pause: one recipient already sent, one
    still pending. *)
Definition resumed_store : gorm.DB :=
  store [campaign "processing" 1 0]
    [ recipient 101 "+1" "sent" "" "wamid.+1";
      recipient 102 "+2" "pending" "" "" ] [].

(** The status callback of the gateway for a message of the campaign, as
    it reaches [incrementCampaignStat]. *)
Definition callback (status : string) (d : gorm.DB) : gorm.DB :=
  handlers.DB (handlers.incrementCampaignStat uuid_Parse cid_text status (app d true)).

(** The callback arrives while the worker is about to start its first
    send. *)
Definition callback_before_first_send (status : string) (i : nat) (x : bool * gorm.DB)
    : bool * gorm.DB :=
  match i with
  | O => (fst x, callback status (snd x))
  | S _ => x
  end.

(** The operator pauses the campaign before the worker's [k]-th send. *)
Definition pause_before (k : nat) (i : nat) (x : bool * gorm.DB) : bool * gorm.DB :=
  if Nat.eqb i k
  then (fst x, handlers.DB (fst (handle handlers.Pause (app (snd x) true))))
  else x.

Definition db_after (run : queue.Local worker.State * worker.outcome) : gorm.DB :=
  worker.db (queue.app (fst run)).

(** The campaign while a worker run is under way, nothing sent yet. *)
Definition processing_store : gorm.DB := store [campaign "processing" 0 0] five_pending [].

End scenario.

(** ** Vocabulary of the further properties *)

Module behaviour.

(** The gateway call a send to recipient [r] makes, with the credentials
    of [account] and the name and language of template [t]. *)
Definition template_call (account : WhatsAppAccount) (t : Template)
    (r : BulkMessageRecipient) : whatsapp.Call :=
  {| whatsapp.call_account :=
       {| whatsapp.PhoneID := models.PhoneID account;
          whatsapp.BusinessID := models.BusinessID account;
          whatsapp.APIVersion := models.APIVersion account;
          whatsapp.AccessToken := models.AccessToken account |};
     whatsapp.call_phoneNumber := PhoneNumber r;
     whatsapp.call_templateName := Template_Name t;
     whatsapp.call_templateLanguage := Template_Language t;
     whatsapp.call_components := worker.build_components (TemplateParams r) |}.

(** How a finished run has left the row [r'] of a recipient whose row was
    [r] when the run began: a pending recipient of the campaign carries the
    answer of the gateway to its send, any other row is as it was. *)
Definition settled (gateway : whatsapp.Call -> result string) (id : UUID)
    (account : WhatsAppAccount) (t : Template) (r r' : BulkMessageRecipient) : Prop :=
  if spec.counts_as id "pending" r then
    match gateway (template_call account t r) with
    | Ok messageID => exists now, r' = spec.mark_sent messageID now r
    | Err err => r' = spec.mark_failed err r
    end
  else r' = r.

(** The same while the run is under way: the rows of the recipients still
    to go, [remaining], are as they were. *)
Definition in_progress (gateway : whatsapp.Call -> result string) (id : UUID)
    (account : WhatsAppAccount) (t : Template) (remaining : list BulkMessageRecipient)
    (r r' : BulkMessageRecipient) : Prop :=
  if bool_decide (Recipient_ID r ∈ map Recipient_ID remaining) then r' = r
  else settled gateway id account t r r'.

(** The rest of the system does not write to the recipient table. *)
Definition leaves_recipients (env : nat -> bool * gorm.DB -> bool * gorm.DB) : Prop :=
  forall i x, gorm.recipients (snd (env i x)) = gorm.recipients (snd x).

(** The rest of the system completes no campaign. *)
Definition completes_nothing (env : nat -> bool * gorm.DB -> bool * gorm.DB) : Prop :=
  forall i x, spec.no_new_completed (snd x) (snd (env i x)).

(** The rest of the system does not break a healthy store. *)
Definition keeps_healthy (env : nat -> bool * gorm.DB -> bool * gorm.DB) : Prop :=
  forall i x, gorm.faults (snd x) = [] -> gorm.faults (snd (env i x)) = [].

(** What the reclaim phase keeps of a server on which every pending entry
    under the id of [p] is younger than the claim threshold: the clock, the
    entry [p] itself, and the youth of the entries under its id. *)
Definition spared (p : redis.pending) (now0 : Z) (sv : redis.Server) : Prop :=
  redis.now sv = now0 /\
  p ∈ redis.pel sv /\
  forall q, q ∈ redis.pel sv -> redis.pending_ID q = redis.pending_ID p ->
            redis.idle sv q < queue.ClaimMinIdleTime.

(** The store when the send loop is entered: the rows of the campaign
    have been set to processing. *)
Definition entered (c : BulkMessageCampaign) (d : gorm.DB) : gorm.DB :=
  gorm.with_campaigns d
    (map (fun row => if gorm.by_ID c row then gorm.set_Status row "processing" else row)
         (gorm.campaigns d)).

(** What one status callback adds to the counters of a campaign row: one
    to the counter of a delivered, read or failed message, nothing for any
    other status. *)
Definition bump (status : string) (c : BulkMessageCampaign) : BulkMessageCampaign :=
  gorm.set_counters c (TotalRecipients c) (SentCount c)
    (DeliveredCount c + (if String.eqb status "delivered" then 1 else 0))
    (ReadCount c + (if String.eqb status "read" then 1 else 0))
    (FailedCount c + (if String.eqb status "failed" then 1 else 0)).

(** The store after a status callback for campaign [id] on a healthy
    store. *)
Definition counted (id : option UUID) (status : string) (d : gorm.DB) : gorm.DB :=
  match id with
  | None => d
  | Some id =>
      gorm.with_campaigns d
        (map (fun c => if bool_decide (ID c = id) then bump status c else c)
             (gorm.campaigns d))
  end.

End behaviour.

(** ** Further deployments to run the pipeline on *)

Module samples.

(** A consumer on an empty stream, and one whose context is cancelled
    before it starts. *)
Definition idle_world : queue.World nat :=
  {| queue.server := scenario.server; queue.local := scenario.idle_local |}.

Definition cancelled_world : queue.World nat :=
  {| queue.server := scenario.server;
     queue.local := {| queue.ctx_done := true; queue.app := 0%nat |} |}.

(** The shutdown signal arrives while the consumer blocks in its [k]-th
    read. *)
Definition shutdown_at (k : nat) (i : nat) (w : queue.World nat) : queue.World nat :=
  if Nat.eqb i k
  then queue.set_local w {| queue.ctx_done := true; queue.app := queue.app (queue.local w) |}
  else w.

(** An entry a live worker was handed a minute ago. *)
Definition young_entry : redis.pending :=
  {| redis.pending_ID := "1699999940000-0"; redis.owner := "worker-live-4";
     redis.delivered_at := 1699999940000; redis.deliveries := 1 |}.

(** A server with one stale and one young pending entry. *)
Definition mixed_world : queue.World nat :=
  {| queue.server :=
       {| redis.now := 1700000000000;
          redis.stream :=
            [ scenario.campaign_entry;
              {| redis.ID := "1699999940000-0";
                 redis.Values := redis.Values scenario.campaign_entry |} ];
          redis.next_seq := 2; redis.delivered := 2%nat;
          redis.pel := [ {| redis.pending_ID := "1699999000000-0";
                            redis.owner := "worker-dead-17";
                            redis.delivered_at := 1699999100000;
                            redis.deliveries := 1 |};
                         young_entry ];
          redis.faults := [] |};
     queue.local := scenario.idle_local |}.

(** Stores on which a worker run does not get to send. *)
Definition without_account (d : gorm.DB) : gorm.DB :=
  {| gorm.campaigns := gorm.campaigns d; gorm.recipients := gorm.recipients d;
     gorm.messages := gorm.messages d; gorm.accounts := [];
     gorm.templates := gorm.templates d; gorm.next_uuid := gorm.next_uuid d;
     gorm.faults := gorm.faults d |}.

Definition without_template (d : gorm.DB) : gorm.DB :=
  {| gorm.campaigns := gorm.campaigns d; gorm.recipients := gorm.recipients d;
     gorm.messages := gorm.messages d; gorm.accounts := gorm.accounts d;
     gorm.templates := []; gorm.next_uuid := gorm.next_uuid d;
     gorm.faults := gorm.faults d |}.

Definition no_campaign_store : gorm.DB := scenario.store [] scenario.five_pending [].

(** A campaign picked up again when all its recipients are settled. *)
Definition settled_store : gorm.DB :=
  scenario.store [scenario.campaign "processing" 3 2]
    (gorm.recipients scenario.completed_store) [].

(** A paused campaign with its five recipients still pending. *)
Definition paused_store : gorm.DB :=
  scenario.store [scenario.campaign "paused" 0 0] scenario.five_pending [].

(** A draft campaign without recipients. *)
Definition empty_draft_store : gorm.DB := scenario.store [scenario.campaign "draft" 0 0] [] [].

(** A completed campaign without failed recipients. *)
Definition all_sent_store : gorm.DB :=
  scenario.store [scenario.campaign "completed" 1 0]
    [scenario.recipient 101 "+1" "sent" "" "wamid.+1"] [].

(** The request of a caller of another organization. *)
Definition foreign_request : handlers.Request :=
  {| handlers.organization_id := Some 2%N;
     handlers.id := scenario.cid_text;
     handlers.recipients_body := Ok [] |}.

(** An import of two recipients. *)
Definition two_requests : list handlers.RecipientRequest :=
  [ {| handlers.Req_PhoneNumber := "+6"; handlers.Req_RecipientName := "Grace";
       handlers.Req_TemplateParams := None |};
    {| handlers.Req_PhoneNumber := "+7"; handlers.Req_RecipientName := "";
       handlers.Req_TemplateParams := None |} ].

Definition import_request : handlers.Request :=
  {| handlers.organization_id := Some scenario.org;
     handlers.id := scenario.cid_text;
     handlers.recipients_body := Ok two_requests |}.

(** The jobs of the five pending recipients of the scenario. *)
Definition five_jobs : list queue.RecipientJob :=
  handlers.make_jobs scenario.cid scenario.org scenario.five_pending.

(** An application with a hub that has not broadcast yet. *)
Definition hub_app (d : gorm.DB) : handlers.App scenario.MemQueue :=
  {| handlers.DB := d;
     handlers.Queue := {| scenario.healthy := true; scenario.jobs := [] |};
     handlers.clock := 1700000000000;
     handlers.WSHub := Some [] |}.

(** The message ledger of a campaign of five messages, and one message of
    another campaign. *)
Definition message (campaign status : string) : Message :=
  {| Metadata_campaign_id := Some campaign; Message_Status := status;
     Message_ErrorMessage := "" |}.

Definition ledger_store : gorm.DB :=
  scenario.store [scenario.campaign "completed" 0 0] []
    [ message scenario.cid_text "sent"; message scenario.cid_text "delivered";
      message scenario.cid_text "read"; message scenario.cid_text "failed";
      message scenario.cid_text "pending"; message "other" "read" ].

(** The campaign row of [ledger_store] after a recompute. *)
Definition recounted : BulkMessageCampaign :=
  {| ID := scenario.cid; OrganizationID := scenario.org; WhatsAppAccount_ := "main";
     Name := "autumn"; TemplateID := 20%N; Status := "completed";
     TotalRecipients := 5; SentCount := 3; DeliveredCount := 2;
     ReadCount := 1; FailedCount := 1;
     ScheduledAt := None; StartedAt := None; CompletedAt := None |}.

(** A run that an operator pauses before the third send, and the store
    after the operator has started the campaign again. *)
Definition paused_run : queue.Local worker.State * worker.outcome :=
  scenario.run_worker scenario.gateway (scenario.pause_before 2) scenario.processing_store.

Definition resumed_by_start : gorm.DB :=
  handlers.DB (fst (scenario.handle handlers.Start
                      (scenario.app (scenario.db_after paused_run) true))).

End samples.

(** * Properties *)

(** ** Tactics and facts shared by the proofs *)

Ltac destruct_match :=
  match goal with
  | |- context [match ?x with _ => _ end] => destruct x eqn:?
  | H : context [match ?x with _ => _ end] |- _ => destruct x eqn:?
  end.

Ltac invert H := inversion H; subst; clear H.

(** [H : s ∈ [lit1; ...; litn]] where [s] is known to differ from each. *)
Ltac elem_of_literals H :=
  repeat (apply elem_of_cons in H as [H|H]; [congruence|]);
  by apply elem_of_nil in H.

Local Open Scope list_scope.

(** ** Building the gateway call *)

Section SendTemplate.

Lemma foldl_bodyParams_step (tp : JSONB) (l : list Z) (acc : list whatsapp.BodyParameter) :
  foldl (worker.bodyParams_step tp) acc l =
  acc ++ omap (fun i : Z =>
                 match index_JSONB tp (Sprintf_d i) with
                 | Some val => Some {| whatsapp.param_type := "text";
                                       whatsapp.param_text := val |}
                 | None => None
                 end) l.
Proof.
  revert acc. induction l as [|i l IH]; intros acc; simpl.
  - by rewrite app_nil_r.
  - rewrite IH. unfold worker.bodyParams_step.
    destruct (index_JSONB tp (Sprintf_d i)); simpl; [|done].
    by rewrite <- app_assoc.
Qed.

Lemma bodyParams_loop_spec (tp : JSONB) :
  worker.bodyParams_loop tp = spec.body_parameters tp.
Proof. unfold worker.bodyParams_loop. by rewrite foldl_bodyParams_step. Qed.

Lemma body_parameters_nil_map : spec.body_parameters None = [].
Proof. reflexivity. Qed.

Lemma body_parameters_empty_map : spec.body_parameters (Some ∅) = [].
Proof.
  unfold spec.body_parameters.
  induction (seqZ 1 10) as [|i l IH]; simpl; [done|]. by rewrite lookup_empty.
Qed.

Lemma build_components_spec (tp : JSONB) :
  worker.build_components tp = spec.components tp.
Proof.
  unfold worker.build_components, spec.components.
  rewrite bodyParams_loop_spec.
  destruct tp as [m|]; simpl.
  - destruct (decide (size m = 0%nat)) as [Hz|Hnz].
    + apply map_size_empty_iff in Hz. subst m.
      rewrite body_parameters_empty_map. reflexivity.
    + assert ((0 <? Z.of_nat (size m)) = true) as Hlt by (apply Z.ltb_lt; lia).
      rewrite Hlt.
      destruct (spec.body_parameters (Some m)); reflexivity.
  - reflexivity.
Qed.

Lemma body_parameters_restrict (tp : JSONB) :
  spec.body_parameters (spec.restrict_to_ordinals tp) = spec.body_parameters tp.
Proof.
  destruct tp as [m|]; [|reflexivity].
  unfold spec.body_parameters, spec.restrict_to_ordinals, spec.ordinal_keys.
  assert (forall l : list Z, l ⊆ seqZ 1 10 ->
    omap (fun i : Z =>
            match index_JSONB (Some (filter (fun kv : string * any =>
                                               kv.1 ∈ map Sprintf_d (seqZ 1 10)) m))
                    (Sprintf_d i) with
            | Some val => Some {| whatsapp.param_type := "text"; whatsapp.param_text := val |}
            | None => None
            end) l =
    omap (fun i : Z =>
            match index_JSONB (Some m) (Sprintf_d i) with
            | Some val => Some {| whatsapp.param_type := "text"; whatsapp.param_text := val |}
            | None => None
            end) l) as Hgen.
  { induction l as [|i l IH]; intros Hsub; [reflexivity|].
    assert (i ∈ seqZ 1 10) as Hi by (apply Hsub; left).
    assert (l ⊆ seqZ 1 10) as Hl by (intros x Hx; apply Hsub; by right).
    cbn [omap list_omap]. rewrite IH by done.
    assert (index_JSONB (Some (filter (fun kv : string * any =>
                                         kv.1 ∈ map Sprintf_d (seqZ 1 10)) m)) (Sprintf_d i)
            = index_JSONB (Some m) (Sprintf_d i)) as ->; [|reflexivity].
    unfold index_JSONB. destruct (m !! Sprintf_d i) as [v|] eqn:Hm.
    - apply map_lookup_filter_Some. split; [done|].
      cbn [fst]. apply list_elem_of_In, in_map. by apply list_elem_of_In.
    - apply map_lookup_filter_None. by left. }
  apply Hgen. done.
Qed.

(** C10.  The components the worker hands to the gateway are the spec's:
    the body parameters are exactly the entries under the keys "1" .. "10"
    in ascending numeric order; entries under any other key do not matter
    (dropping them from the map gives the same components); and a map
    without any key in that range, the empty map and the nil map included,
    gives no body component at all. *)
Theorem sendTemplateMessage_components
    (gateway : whatsapp.Call -> result string) (account : WhatsAppAccount)
    (t : Template) (recipient : BulkMessageRecipient) (st : worker.State) :
  let tp := TemplateParams recipient in
  (exists call,
      worker.sendTemplateMessage gateway account (Some t) recipient st =
        ({| worker.db := worker.db st; worker.clock := worker.clock st;
            worker.outbox := worker.outbox st ++ [call] |}, Some (gateway call)) /\
      whatsapp.call_components call = worker.build_components tp) /\
  worker.build_components tp = spec.components tp /\
  worker.build_components (spec.restrict_to_ordinals tp) = worker.build_components tp /\
  (forallb (fun i : Z => bool_decide (index_JSONB tp (Sprintf_d i) = None)) (seqZ 1 10) = true ->
   worker.build_components tp = []).
Proof.
  intros tp. repeat split.
  - eexists. split; reflexivity.
  - apply build_components_spec.
  - rewrite !build_components_spec. unfold spec.components.
    by rewrite body_parameters_restrict.
  - intros Hall. rewrite build_components_spec. unfold spec.components.
    assert (spec.body_parameters tp = []) as ->; [|reflexivity].
    unfold spec.body_parameters. rewrite forallb_forall in Hall.
    induction (seqZ 1 10) as [|i l IH]; [reflexivity|].
    cbn [omap list_omap].
    assert (index_JSONB tp (Sprintf_d i) = None) as ->.
    { eapply bool_decide_eq_true_1, Hall. by left. }
    apply IH. intros x Hx. apply Hall. by right.
Qed.

Lemma sendTemplateMessage_components_witness :
  forallb (fun i : Z =>
             bool_decide (index_JSONB (TemplateParams scenario.recipient_named)
                            (Sprintf_d i) = None)) (seqZ 1 10) = true /\
  worker.build_components (TemplateParams scenario.recipient_named) = [].
Proof.
  assert (forallb (fun i : Z =>
             bool_decide (index_JSONB (TemplateParams scenario.recipient_named)
                            (Sprintf_d i) = None)) (seqZ 1 10) = true) as Hnone
    by (vm_compute; reflexivity).
  split; [exact Hnone|].
  exact (proj2 (proj2 (proj2 (sendTemplateMessage_components scenario.gateway
           scenario.account scenario.template scenario.recipient_named
           (queue.app (scenario.worker_on (scenario.store [] [] []))))))
         Hnone).
Defined.

End SendTemplate.

(** ** The job envelope and its dispatch *)

Section Envelope.

Variable json_Marshal : queue.CampaignJob -> result string.
Variable json_Unmarshal : string -> result queue.CampaignJob.
Variable St : Type.
Variable handler : queue.CampaignJob -> queue.Local St -> queue.Local St * option error.

Lemma EnqueueCampaign_persists (ctx_done : bool) (id : UUID) (s s' : redis.Server) :
  queue.EnqueueCampaign json_Marshal ctx_done id s = (s', None) ->
  exists payload entry_id,
    json_Marshal {| queue.CampaignID := id; queue.EnqueuedAt := redis.now s |} = Ok payload /\
    redis.stream s' =
      redis.stream s ++
        [ {| redis.ID := entry_id;
             redis.Values := <["type" := AnyString "campaign"]>
                               (<["payload" := AnyString payload]> ∅) |} ].
Proof.
  unfold queue.EnqueueCampaign.
  destruct (json_Marshal _) as [payload|e]; [|discriminate].
  unfold redis.XAdd, redis.command, redis.tick.
  destruct ctx_done; [discriminate|].
  destruct (redis.faults s) as [|[] fs]; simpl; try discriminate.
  - intros [= <-]. eexists _, _. split; [reflexivity|]. reflexivity.
  - intros [= <-]. eexists _, _. split; [reflexivity|]. reflexivity.
Qed.

Lemma EnqueueCampaign_fails (ctx_done : bool) (id : UUID) (s s' : redis.Server) (e : error) :
  queue.EnqueueCampaign json_Marshal ctx_done id s = (s', Some e) ->
  redis.stream s' = redis.stream s.
Proof.
  unfold queue.EnqueueCampaign.
  destruct (json_Marshal _) as [payload|e']; [|intros [= <- _]; done].
  unfold redis.XAdd, redis.command, redis.tick.
  destruct ctx_done; [intros [= <- _]; done|].
  destruct (redis.faults s) as [|[] fs]; simpl; try discriminate.
  intros [= <- _]. done.
Qed.

Lemma processMessage_cases (msg : redis.XMessage) (l : queue.Local St) :
  (exists e, queue.processMessage json_Unmarshal St handler msg l = (l, Some e)) \/
  (exists payload job,
      redis.Values msg !! "type" = Some (AnyString "campaign") /\
      redis.Values msg !! "payload" = Some (AnyString payload) /\
      json_Unmarshal payload = Ok job /\
      queue.processMessage json_Unmarshal St handler msg l = handler job l).
Proof.
  unfold queue.processMessage.
  destruct (redis.Values msg !! "type") as [[|t| | | |]|] eqn:Ht; try (left; eauto; fail).
  destruct (String.eqb t queue.JobTypeCampaign) eqn:Heq; simpl; [|left; eauto].
  apply String.eqb_eq in Heq. subst t.
  destruct (redis.Values msg !! "payload") as [[|p| | | |]|] eqn:Hp; try (left; eauto; fail).
  destruct (json_Unmarshal p) as [job|e] eqn:Hj; [|left; eauto].
  right. exists p, job. done.
Qed.

Lemma processMessage_unknown_type (msg : redis.XMessage) (l : queue.Local St) (t : string) :
  redis.Values msg !! "type" = Some (AnyString t) ->
  t <> "campaign" ->
  queue.processMessage json_Unmarshal St handler msg l =
    (l, Some ("unknown job type: " ++ t)%string).
Proof.
  intros Ht Hne. unfold queue.processMessage. rewrite Ht.
  destruct (String.eqb t queue.JobTypeCampaign) eqn:Heq; [|reflexivity].
  apply String.eqb_eq in Heq. done.
Qed.

(** C1 (as amended).  [EnqueueCampaign] persists one entry per call, in the
    envelope {type: "campaign", payload: json-encoded CampaignJob}, and
    nothing when it fails.  [processMessage] is total: it either returns an
    error and leaves the handler's state alone, or the entry has type
    "campaign", its payload decodes to a job, and the result is the
    campaign handler's on that job.  Any other type, "recipient" included,
    is answered with the error "unknown job type".  An entry written by
    [EnqueueCampaign] whose payload decodes to the job that was encoded
    reaches the handler with that job. *)
Theorem campaign_envelope_dispatch :
  (forall ctx_done id s s',
      queue.EnqueueCampaign json_Marshal ctx_done id s = (s', None) ->
      exists payload entry_id,
        json_Marshal {| queue.CampaignID := id; queue.EnqueuedAt := redis.now s |}
          = Ok payload /\
        redis.stream s' =
          redis.stream s ++
            [ {| redis.ID := entry_id;
                 redis.Values := <["type" := AnyString "campaign"]>
                                   (<["payload" := AnyString payload]> ∅) |} ]) /\
  (forall ctx_done id s s' e,
      queue.EnqueueCampaign json_Marshal ctx_done id s = (s', Some e) ->
      redis.stream s' = redis.stream s) /\
  (forall msg l,
      (exists e, queue.processMessage json_Unmarshal St handler msg l = (l, Some e)) \/
      (exists payload job,
          redis.Values msg !! "type" = Some (AnyString "campaign") /\
          redis.Values msg !! "payload" = Some (AnyString payload) /\
          json_Unmarshal payload = Ok job /\
          queue.processMessage json_Unmarshal St handler msg l = handler job l)) /\
  (forall msg l t,
      redis.Values msg !! "type" = Some (AnyString t) ->
      t <> "campaign" ->
      queue.processMessage json_Unmarshal St handler msg l =
        (l, Some ("unknown job type: " ++ t)%string)) /\
  (forall id s s' l,
      queue.EnqueueCampaign json_Marshal false id s = (s', None) ->
      (forall payload,
          json_Marshal {| queue.CampaignID := id; queue.EnqueuedAt := redis.now s |}
            = Ok payload ->
          json_Unmarshal payload
            = Ok {| queue.CampaignID := id; queue.EnqueuedAt := redis.now s |}) ->
      exists msg,
        last (redis.stream s') = Some msg /\
        queue.processMessage json_Unmarshal St handler msg l =
          handler {| queue.CampaignID := id; queue.EnqueuedAt := redis.now s |} l).
Proof.
  split; [intros; by eapply EnqueueCampaign_persists|].
  split; [intros; by eapply EnqueueCampaign_fails|].
  split; [apply processMessage_cases|].
  split; [apply processMessage_unknown_type|].
  intros id s s' l Henq Hround.
  destruct (EnqueueCampaign_persists _ _ _ _ Henq) as (payload & entry_id & Hm & Hs).
  eexists. split.
  - rewrite Hs. apply last_snoc.
  - unfold queue.processMessage. cbn [redis.Values].
    rewrite lookup_insert_eq. cbn.
    rewrite lookup_insert_ne by done. rewrite lookup_insert_eq.
    rewrite (Hround _ Hm). reflexivity.
Qed.

End Envelope.

Lemma campaign_envelope_dispatch_witness :
  exists s' msg,
    queue.EnqueueCampaign scenario.json_Marshal false scenario.cid scenario.server
      = (s', None) /\
    last (redis.stream s') = Some msg /\
    queue.processMessage scenario.json_Unmarshal nat scenario.counting_handler msg
      scenario.idle_local
    = scenario.counting_handler scenario.campaign_job scenario.idle_local.
Proof.
  pose proof (proj2 (proj2 (proj2 (proj2
    (campaign_envelope_dispatch scenario.json_Marshal scenario.json_Unmarshal nat
       scenario.counting_handler))))
    scenario.cid scenario.server
    (fst (queue.EnqueueCampaign scenario.json_Marshal false scenario.cid scenario.server))
    scenario.idle_local) as H.
  destruct H as (msg & Hlast & Hproc).
  - vm_compute. reflexivity.
  - intros payload [= <-]. vm_compute. reflexivity.
  - eexists _, msg. split; [vm_compute; reflexivity|]. split; [exact Hlast|exact Hproc].
Defined.

(** C1 as stated fails on the code: the entry [EnqueueCampaign] persists
    has type "campaign", not "recipient", and [processMessage] turns an
    entry of type "recipient" away as an unknown job type without calling
    the handler. *)
Lemma recipient_envelope_counterexample :
  map (fun m => redis.Values m !! "type")
      (redis.stream (fst (queue.EnqueueCampaign scenario.json_Marshal false
                            scenario.cid scenario.server)))
    = [Some (AnyString "campaign")] /\
  redis.Values scenario.recipient_entry !! "type" = Some (AnyString queue.JobTypeRecipient) /\
  queue.processMessage scenario.json_Unmarshal nat scenario.counting_handler
    scenario.recipient_entry scenario.idle_local
  = (scenario.idle_local, Some "unknown job type: recipient").
Proof. vm_compute. repeat split; reflexivity. Qed.

(** ** The consumer: acknowledgment *)

Section Acknowledge.

Lemma tick_pel (s : redis.Server) : redis.pel (snd (redis.tick s)) = redis.pel s.
Proof. unfold redis.tick. destruct (redis.faults s); reflexivity. Qed.

Lemma XAck_pending_ids (ctx_done : bool) (id : string) (s : redis.Server) :
  spec.pending_ids (fst (redis.XAck ctx_done id s)) = spec.pending_ids s \/
  spec.pending_ids (fst (redis.XAck ctx_done id s)) =
    List.filter (fun x => negb (String.eqb x id)) (spec.pending_ids s).
Proof.
  unfold redis.XAck, redis.command.
  destruct ctx_done; [by left|].
  destruct (redis.tick s) as [f s0] eqn:Ht.
  assert (redis.pel s0 = redis.pel s) as Hpel.
  { pose proof (tick_pel s) as H. by rewrite Ht in H. }
  destruct f; cbn [fst]; unfold spec.pending_ids; rewrite ?Hpel; [by left|].
  right. cbn [redis.pel redis.with_pel]. rewrite ?Hpel.
  generalize (redis.pel s). clear. intros l.
  induction l as [|p ps IH]; [reflexivity|].
  cbn [List.filter map]. destruct (String.eqb (redis.pending_ID p) id); cbn [negb map].
  - apply IH.
  - by rewrite IH.
Qed.

Lemma XClaim_pending_ids (ctx_done : bool) (consumer : string) (min_idle : Z)
    (ids : list string) (s : redis.Server) :
  spec.pending_ids (fst (redis.XClaim ctx_done consumer min_idle ids s)) = spec.pending_ids s.
Proof.
  unfold redis.XClaim, redis.command.
  destruct ctx_done; [reflexivity|].
  destruct (redis.tick s) as [f s0] eqn:Ht.
  assert (redis.pel s0 = redis.pel s) as Hpel.
  { pose proof (tick_pel s) as H. by rewrite Ht in H. }
  destruct f; cbn [fst]; unfold spec.pending_ids; rewrite ?Hpel; [reflexivity|].
  cbn [redis.pel redis.with_pel]. rewrite ?Hpel.
  rewrite map_map. apply map_ext. intros p.
  destruct (redis.claims s0 min_idle ids p); reflexivity.
Qed.

Lemma XPendingExt_pending_ids (ctx_done : bool) (min_idle count : Z) (s : redis.Server) :
  spec.pending_ids (fst (redis.XPendingExt_ ctx_done min_idle count s)) = spec.pending_ids s.
Proof.
  unfold redis.XPendingExt_, redis.command.
  destruct ctx_done; [reflexivity|].
  destruct (redis.tick s) as [f s0] eqn:Ht.
  assert (redis.pel s0 = redis.pel s) as Hpel.
  { pose proof (tick_pel s) as H. by rewrite Ht in H. }
  destruct f; cbn [fst]; unfold spec.pending_ids; by rewrite Hpel.
Qed.

(** What a successful read hands out is recorded as pending. *)
Lemma XReadGroup_pending_ids (ctx_done : bool) (name consumer : string) (count : Z)
    (s sv : redis.Server) (streams : list redis.XStream) :
  redis.XReadGroup ctx_done name consumer count s = (sv, Ok streams) ->
  exists msgs,
    streams = [ {| redis.Stream := name; redis.Messages := msgs |} ] /\
    spec.pending_ids sv = spec.pending_ids s ++ map redis.ID msgs.
Proof.
  unfold redis.XReadGroup, redis.command.
  destruct ctx_done; [discriminate|].
  destruct (redis.tick s) as [f s0] eqn:Ht.
  assert (redis.pel s0 = redis.pel s) as Hpel.
  { pose proof (tick_pel s) as H. by rewrite Ht in H. }
  destruct f; [discriminate|].
  destruct (take (Z.to_nat count) (drop (redis.delivered s0) (redis.stream s0)))
    as [|m ms]; [discriminate|].
  intros [= <- <-]. eexists. split; [reflexivity|].
  unfold spec.pending_ids. cbn [redis.pel redis.with_pel].
  rewrite ?Hpel, map_app. cbn [map redis.pending_ID]. rewrite map_map. reflexivity.
Qed.

Lemma filter_ne_gone (id x : string) (l : list string) :
  x ∈ l -> x ∉ List.filter (fun y => negb (String.eqb y id)) l -> x = id.
Proof.
  intros Hin Hout. destruct (String.eqb x id) eqn:Heq; [by apply String.eqb_eq|].
  exfalso. apply Hout. apply list_elem_of_In, filter_In.
  split; [by apply list_elem_of_In|]. by rewrite Heq.
Qed.

End Acknowledge.

Section Consumer.

Variable json_Unmarshal : string -> result queue.CampaignJob.
Variable St : Type.
Variable consumerID : string.
Variable handler : queue.CampaignJob -> queue.Local St -> queue.Local St * option error.
Variable env : nat -> queue.World St -> queue.World St.

Abbreviation processMessage := (queue.processMessage json_Unmarshal St handler).
Abbreviation process_and_ack := (queue.process_and_ack json_Unmarshal St handler).
Abbreviation process_messages := (queue.process_messages json_Unmarshal St handler).
Abbreviation claimPendingMessages :=
  (queue.claimPendingMessages json_Unmarshal St consumerID handler).
Abbreviation Consume_iter := (queue.Consume_iter json_Unmarshal St consumerID handler env).
Abbreviation succeeded := (spec.succeeded json_Unmarshal St handler).
Abbreviation reclaimed_ok := (spec.reclaimed_ok json_Unmarshal St consumerID handler).
Abbreviation reclaim_succeeded :=
  (spec.reclaim_succeeded json_Unmarshal St consumerID handler).

Lemma process_and_ack_error (w : queue.World St) (msg : redis.XMessage)
    (l' : queue.Local St) (e : error) :
  processMessage msg (queue.local w) = (l', Some e) ->
  process_and_ack w msg = queue.set_local w l'.
Proof. intros H. unfold queue.process_and_ack. by rewrite H. Qed.

Lemma process_and_ack_pending (w : queue.World St) (msg : redis.XMessage) :
  spec.pending_ids (queue.server (process_and_ack w msg)) = spec.pending_ids (queue.server w) \/
  (snd (processMessage msg (queue.local w)) = None /\
   spec.pending_ids (queue.server (process_and_ack w msg)) =
     List.filter (fun x => negb (String.eqb x (redis.ID msg)))
                 (spec.pending_ids (queue.server w))).
Proof.
  unfold queue.process_and_ack.
  destruct (processMessage msg (queue.local w)) as [l [e|]]; [by left|].
  cbn [queue.server queue.set_server queue.set_local snd].
  destruct (XAck_pending_ids (queue.ctx_done l) (redis.ID msg) (queue.server w)) as [H|H].
  - by left.
  - by right.
Qed.

Lemma process_messages_acked (msgs : list redis.XMessage) (w : queue.World St) (id : string) :
  id ∈ spec.pending_ids (queue.server w) ->
  id ∉ spec.pending_ids (queue.server (process_messages w msgs)) ->
  id ∈ succeeded w msgs.
Proof.
  revert w. induction msgs as [|m msgs IH]; intros w Hin Hout; [done|].
  unfold queue.process_messages in *. cbn [foldl] in Hout.
  cbn [spec.succeeded]. apply elem_of_app.
  destruct (process_and_ack_pending w m) as [Hsame|[Hok Hfilter]].
  - right. apply (IH (process_and_ack w m)); [by rewrite Hsame|done].
  - destruct (decide (id ∈ spec.pending_ids (queue.server (process_and_ack w m))))
      as [Hstill|Hgone].
    + right. by apply (IH (process_and_ack w m)).
    + rewrite Hfilter in Hgone. apply filter_ne_gone in Hgone; [|done].
      left. rewrite Hok, Hgone. left.
Qed.

Lemma claim_loop_acked (pending : list redis.XPendingExt) (w : queue.World St) (id : string) :
  id ∈ spec.pending_ids (queue.server w) ->
  id ∉ spec.pending_ids (queue.server
         (foldl (fun w p =>
                   match redis.XClaim (queue.ctx_done (queue.local w)) consumerID
                           queue.ClaimMinIdleTime [redis.XPendingExt_ID p] (queue.server w) with
                   | (sv, Err _) => queue.set_server w sv
                   | (sv, Ok messages) => process_messages (queue.set_server w sv) messages
                   end) w pending)) ->
  id ∈ reclaimed_ok w pending.
Proof.
  revert w. induction pending as [|p pending IH]; intros w Hin Hout; [done|].
  cbn [foldl] in Hout. cbn [spec.reclaimed_ok].
  pose proof (XClaim_pending_ids (queue.ctx_done (queue.local w)) consumerID
                queue.ClaimMinIdleTime [redis.XPendingExt_ID p] (queue.server w)) as Hclaim.
  destruct (redis.XClaim _ _ _ _ _) as [sv [messages|e]]; cbn [fst] in Hclaim.
  - apply elem_of_app.
    destruct (decide (id ∈ spec.pending_ids
                (queue.server (process_messages (queue.set_server w sv) messages))))
      as [Hstill|Hgone].
    + right. by eapply IH.
    + left. eapply (process_messages_acked messages (queue.set_server w sv)); [|done].
      cbn [queue.server queue.set_server]. by rewrite Hclaim.
  - eapply IH; [|done]. cbn [queue.server queue.set_server]. by rewrite Hclaim.
Qed.

Lemma claimPendingMessages_acked (w : queue.World St) (id : string) :
  id ∈ spec.pending_ids (queue.server w) ->
  id ∉ spec.pending_ids (queue.server (fst (claimPendingMessages w))) ->
  id ∈ reclaim_succeeded w.
Proof.
  unfold queue.claimPendingMessages, spec.reclaim_succeeded.
  pose proof (XPendingExt_pending_ids (queue.ctx_done (queue.local w))
                queue.ClaimMinIdleTime 100 (queue.server w)) as Hp.
  destruct (redis.XPendingExt_ _ _ _ _) as [sv [pending|e]]; cbn [fst] in Hp.
  - destruct (Z.of_nat (length pending) =? 0); cbn [fst queue.server queue.set_server].
    + rewrite Hp. done.
    + intros Hin Hout. eapply claim_loop_acked; [|exact Hout].
      cbn [queue.server queue.set_server]. by rewrite Hp.
  - cbn [fst queue.server queue.set_server]. rewrite Hp. done.
Qed.

Lemma Consume_iter_acked (i : nat) (w : queue.World St) (sv : redis.Server)
    (streams : list redis.XStream) (id : string) :
  queue.ctx_done (queue.local w) = false ->
  redis.XReadGroup (queue.ctx_done (queue.local (env i w))) queue.StreamName consumerID 1
    (queue.server (env i w)) = (sv, Ok streams) ->
  id ∈ spec.pending_ids sv ->
  id ∉ spec.pending_ids (queue.server (fst (Consume_iter i w))) ->
  exists msgs,
    streams = [ {| redis.Stream := queue.StreamName; redis.Messages := msgs |} ] /\
    id ∈ succeeded (queue.set_server (env i w) sv) msgs.
Proof.
  intros Hctx Hread Hin. unfold queue.Consume_iter. rewrite Hctx, Hread. cbn [fst].
  destruct (XReadGroup_pending_ids _ _ _ _ _ _ _ Hread) as (msgs & -> & _).
  cbn [foldl redis.Messages]. intros Hout. exists msgs. split; [reflexivity|].
  by eapply (process_messages_acked msgs (queue.set_server (env i w) sv)).
Qed.

Lemma Consume_iter_failed_stays (i : nat) (w : queue.World St) (sv : redis.Server)
    (m : redis.XMessage) (l' : queue.Local St) (e : error) :
  queue.ctx_done (queue.local w) = false ->
  redis.XReadGroup (queue.ctx_done (queue.local (env i w))) queue.StreamName consumerID 1
    (queue.server (env i w))
    = (sv, Ok [ {| redis.Stream := queue.StreamName; redis.Messages := [m] |} ]) ->
  processMessage m (queue.local (env i w)) = (l', Some e) ->
  redis.ID m ∈ spec.pending_ids (queue.server (fst (Consume_iter i w))) /\
  snd (Consume_iter i w) = None.
Proof.
  intros Hctx Hread Hproc. unfold queue.Consume_iter. rewrite Hctx, Hread.
  cbn [fst snd foldl redis.Messages queue.process_messages].
  erewrite process_and_ack_error by exact Hproc.
  cbn [queue.server queue.set_local queue.set_server]. split; [|reflexivity].
  destruct (XReadGroup_pending_ids _ _ _ _ _ _ _ Hread) as (msgs & [= <-] & ->).
  apply elem_of_app. right. cbn [map]. left.
Qed.

Lemma Consume_iter_continues (i : nat) (w : queue.World St) :
  queue.ctx_done (queue.local w) = false ->
  queue.ctx_done (queue.local (env i w)) = false ->
  snd (Consume_iter i w) = None.
Proof.
  intros Hctx Henv. unfold queue.Consume_iter. rewrite Hctx.
  destruct (redis.XReadGroup _ _ _ _ _) as [sv [streams|err]]; [reflexivity|].
  destruct (String.eqb err redis.Nil); [reflexivity|].
  cbn [queue.local queue.set_server]. by rewrite Henv.
Qed.


End Consumer.


(** ** The campaign handlers *)

Section Handlers.

Context {Q : Type} {QueueQ : queue.Queue Q}.
Variable uuid_Parse : string -> option UUID.
Variable uuid_String : UUID -> string.

Abbreviation invoke := (handlers.invoke uuid_Parse uuid_String).

Lemma same_rows_refl (d : gorm.DB) : spec.same_rows d d.
Proof. by repeat split. Qed.

Lemma same_rows_trans (d1 d2 d3 : gorm.DB) :
  spec.same_rows d1 d2 -> spec.same_rows d2 d3 -> spec.same_rows d1 d3.
Proof.
  intros (?&?&?&?&?) (?&?&?&?&?). repeat split; congruence.
Qed.

Lemma tick_rows (d : gorm.DB) : spec.same_rows d (snd (gorm.tick d)).
Proof. unfold gorm.tick. destruct (gorm.faults d); by repeat split. Qed.

Lemma First_rows {A : Type} (table : gorm.DB -> list A) (P : A -> bool) (d : gorm.DB) :
  spec.same_rows d (fst (gorm.First table P d)).
Proof.
  unfold gorm.First. pose proof (tick_rows d) as H.
  destruct (gorm.tick d) as [[] d']; cbn [fst snd] in *; [done|].
  destruct (List.find P (table d')); done.
Qed.

Lemma Find_rows {A : Type} (table : gorm.DB -> list A) (P : A -> bool) (d : gorm.DB) :
  spec.same_rows d (fst (gorm.Find table P d)).
Proof.
  unfold gorm.Find. pose proof (tick_rows d) as H.
  destruct (gorm.tick d) as [[] d']; cbn [fst snd] in *; done.
Qed.

(** What the lookup of a stored campaign can answer. *)
Lemma First_campaign (P : BulkMessageCampaign -> bool) (d d' : gorm.DB)
    (r : result BulkMessageCampaign) (c : BulkMessageCampaign) :
  List.find P (gorm.campaigns d) = Some c ->
  gorm.First gorm.campaigns P d = (d', r) ->
  spec.same_rows d d' /\ (r = Ok c \/ r = Err gorm.ErrStatement).
Proof.
  intros Hfind Hfirst. split.
  - pose proof (First_rows gorm.campaigns P d) as H. by rewrite Hfirst in H.
  - revert Hfirst. unfold gorm.First, gorm.tick.
    destruct (gorm.faults d) as [|[] fs]; cbn [gorm.campaigns gorm.with_faults].
    + rewrite Hfind. intros [= _ <-]. by left.
    + intros [= _ <-]. by right.
    + rewrite Hfind. intros [= _ <-]. by left.
Qed.

Lemma permitted_Start (s : string) :
  spec.permitted handlers.Start s =
  negb (negb (String.eqb s "draft") && negb (String.eqb s "scheduled")
        && negb (String.eqb s "paused")).
Proof.
  unfold spec.permitted.
  destruct (String.eqb_spec s "draft") as [->|H1]; [reflexivity|].
  destruct (String.eqb_spec s "scheduled") as [->|H2]; [reflexivity|].
  destruct (String.eqb_spec s "paused") as [->|H3]; [reflexivity|].
  apply bool_decide_eq_false_2. intros Hin. elem_of_literals Hin.
Qed.

Lemma permitted_Pause (s : string) :
  spec.permitted handlers.Pause s =
  negb (negb (String.eqb s "processing") && negb (String.eqb s "queued")).
Proof.
  unfold spec.permitted.
  destruct (String.eqb_spec s "processing") as [->|H1]; [reflexivity|].
  destruct (String.eqb_spec s "queued") as [->|H2]; [reflexivity|].
  apply bool_decide_eq_false_2. intros Hin. elem_of_literals Hin.
Qed.

Lemma permitted_Cancel (s : string) :
  spec.permitted handlers.Cancel s =
  negb (String.eqb s "completed" || String.eqb s "cancelled").
Proof.
  unfold spec.permitted. f_equal.
  destruct (String.eqb_spec s "completed") as [->|H1]; [reflexivity|].
  destruct (String.eqb_spec s "cancelled") as [->|H2]; [reflexivity|].
  apply bool_decide_eq_false_2. intros Hin. elem_of_literals Hin.
Qed.

Lemma permitted_Retry (s : string) :
  spec.permitted handlers.Retry s =
  negb (negb (String.eqb s "completed") && negb (String.eqb s "paused")
        && negb (String.eqb s "failed")).
Proof.
  unfold spec.permitted.
  destruct (String.eqb_spec s "completed") as [->|H1]; [reflexivity|].
  destruct (String.eqb_spec s "paused") as [->|H2]; [reflexivity|].
  destruct (String.eqb_spec s "failed") as [->|H3]; [reflexivity|].
  apply bool_decide_eq_false_2. intros Hin. elem_of_literals Hin.
Qed.

Lemma permitted_Import (s : string) :
  spec.permitted handlers.Import s = negb (negb (String.eqb s "draft")).
Proof.
  unfold spec.permitted.
  destruct (String.eqb_spec s "draft") as [->|H1]; [reflexivity|].
  by apply bool_decide_eq_false_2.
Qed.

Lemma permitted_Delete (s : string) :
  spec.permitted handlers.Delete s =
  negb (String.eqb s "processing" || String.eqb s "queued").
Proof.
  unfold spec.permitted. f_equal.
  destruct (String.eqb_spec s "processing") as [->|H1]; [reflexivity|].
  destruct (String.eqb_spec s "queued") as [->|H2]; [reflexivity|].
  apply bool_decide_eq_false_2. intros Hin. elem_of_literals Hin.
Qed.

Ltac rejected_by lemma :=
  let Horg := fresh "Horg" in
  let Hid := fresh "Hid" in
  let Hfind := fresh "Hfind" in
  let Hperm := fresh "Hperm" in
  let Hrows := fresh "Hrows" in
  intros Horg Hid Hfind Hperm;
  rewrite lemma in Hperm; apply negb_false_iff in Hperm;
  cbv beta delta [handlers.StartCampaign handlers.PauseCampaign handlers.CancelCampaign
                  handlers.RetryFailed handlers.ImportRecipients handlers.DeleteCampaign];
  rewrite Horg, Hid;
  match goal with
  | |- context [gorm.First ?t ?P ?d] =>
      let HF := fresh "HF" in
      let d' := fresh "d" in
      let r0 := fresh "r" in
      destruct (gorm.First t P d) as [d' r0] eqn:HF;
      destruct (First_campaign _ _ _ _ _ Hfind HF) as [Hrows [-> | ->]]
  end;
  rewrite ?Hperm; cbn [fst snd handlers.DB handlers.Queue handlers.set_DB
                       handlers.status_code];
  (split; [exact Hrows|split; [reflexivity|]]);
  unfold spec.client_error, handlers.StatusBadRequest, handlers.StatusNotFound; lia.

Lemma StartCampaign_rejected (r : handlers.Request) (a : handlers.App Q)
    (orgID id : UUID) (c : BulkMessageCampaign) :
  handlers.organization_id r = Some orgID ->
  uuid_Parse (handlers.id r) = Some id ->
  List.find (handlers.owned id orgID) (gorm.campaigns (handlers.DB a)) = Some c ->
  spec.permitted handlers.Start (Status c) = false ->
  spec.same_rows (handlers.DB a)
    (handlers.DB (fst (handlers.StartCampaign uuid_Parse r a))) /\
  handlers.Queue (fst (handlers.StartCampaign uuid_Parse r a)) = handlers.Queue a /\
  spec.client_error (handlers.status_code (snd (handlers.StartCampaign uuid_Parse r a))).
Proof. rejected_by permitted_Start. Qed.

Lemma PauseCampaign_rejected (r : handlers.Request) (a : handlers.App Q)
    (orgID id : UUID) (c : BulkMessageCampaign) :
  handlers.organization_id r = Some orgID ->
  uuid_Parse (handlers.id r) = Some id ->
  List.find (handlers.owned id orgID) (gorm.campaigns (handlers.DB a)) = Some c ->
  spec.permitted handlers.Pause (Status c) = false ->
  spec.same_rows (handlers.DB a)
    (handlers.DB (fst (handlers.PauseCampaign uuid_Parse r a))) /\
  handlers.Queue (fst (handlers.PauseCampaign uuid_Parse r a)) = handlers.Queue a /\
  spec.client_error (handlers.status_code (snd (handlers.PauseCampaign uuid_Parse r a))).
Proof. rejected_by permitted_Pause. Qed.

Lemma CancelCampaign_rejected (r : handlers.Request) (a : handlers.App Q)
    (orgID id : UUID) (c : BulkMessageCampaign) :
  handlers.organization_id r = Some orgID ->
  uuid_Parse (handlers.id r) = Some id ->
  List.find (handlers.owned id orgID) (gorm.campaigns (handlers.DB a)) = Some c ->
  spec.permitted handlers.Cancel (Status c) = false ->
  spec.same_rows (handlers.DB a)
    (handlers.DB (fst (handlers.CancelCampaign uuid_Parse r a))) /\
  handlers.Queue (fst (handlers.CancelCampaign uuid_Parse r a)) = handlers.Queue a /\
  spec.client_error (handlers.status_code (snd (handlers.CancelCampaign uuid_Parse r a))).
Proof. rejected_by permitted_Cancel. Qed.

Lemma RetryFailed_rejected (r : handlers.Request) (a : handlers.App Q)
    (orgID id : UUID) (c : BulkMessageCampaign) :
  handlers.organization_id r = Some orgID ->
  uuid_Parse (handlers.id r) = Some id ->
  List.find (handlers.owned id orgID) (gorm.campaigns (handlers.DB a)) = Some c ->
  spec.permitted handlers.Retry (Status c) = false ->
  spec.same_rows (handlers.DB a)
    (handlers.DB (fst (handlers.RetryFailed uuid_Parse uuid_String r a))) /\
  handlers.Queue (fst (handlers.RetryFailed uuid_Parse uuid_String r a)) = handlers.Queue a /\
  spec.client_error
    (handlers.status_code (snd (handlers.RetryFailed uuid_Parse uuid_String r a))).
Proof. rejected_by permitted_Retry. Qed.

Lemma ImportRecipients_rejected (r : handlers.Request) (a : handlers.App Q)
    (orgID id : UUID) (c : BulkMessageCampaign) :
  handlers.organization_id r = Some orgID ->
  uuid_Parse (handlers.id r) = Some id ->
  List.find (handlers.owned id orgID) (gorm.campaigns (handlers.DB a)) = Some c ->
  spec.permitted handlers.Import (Status c) = false ->
  spec.same_rows (handlers.DB a)
    (handlers.DB (fst (handlers.ImportRecipients uuid_Parse r a))) /\
  handlers.Queue (fst (handlers.ImportRecipients uuid_Parse r a)) = handlers.Queue a /\
  spec.client_error (handlers.status_code (snd (handlers.ImportRecipients uuid_Parse r a))).
Proof. rejected_by permitted_Import. Qed.

Lemma DeleteCampaign_rejected (r : handlers.Request) (a : handlers.App Q)
    (orgID id : UUID) (c : BulkMessageCampaign) :
  handlers.organization_id r = Some orgID ->
  uuid_Parse (handlers.id r) = Some id ->
  List.find (handlers.owned id orgID) (gorm.campaigns (handlers.DB a)) = Some c ->
  spec.permitted handlers.Delete (Status c) = false ->
  spec.same_rows (handlers.DB a)
    (handlers.DB (fst (handlers.DeleteCampaign uuid_Parse r a))) /\
  handlers.Queue (fst (handlers.DeleteCampaign uuid_Parse r a)) = handlers.Queue a /\
  spec.client_error (handlers.status_code (snd (handlers.DeleteCampaign uuid_Parse r a))).
Proof. rejected_by permitted_Delete. Qed.

(** C4.  State-machine closure: when the stored state of the campaign a
    request addresses is not one in which the transition table permits the
    action, the handler leaves every table of the store and the queue as
    they were and answers with a 4xx status (400, or 404 when the lookup
    statement itself fails).  The handlers are total functions, so there is
    no crash. *)
Theorem state_machine_closure (act : handlers.action) (r : handlers.Request)
    (a : handlers.App Q) (orgID id : UUID) (c : BulkMessageCampaign) :
  handlers.organization_id r = Some orgID ->
  uuid_Parse (handlers.id r) = Some id ->
  List.find (handlers.owned id orgID) (gorm.campaigns (handlers.DB a)) = Some c ->
  spec.permitted act (Status c) = false ->
  spec.same_rows (handlers.DB a) (handlers.DB (fst (invoke act r a))) /\
  handlers.Queue (fst (invoke act r a)) = handlers.Queue a /\
  spec.client_error (handlers.status_code (snd (invoke act r a))).
Proof.
  destruct act; cbn [handlers.invoke].
  - apply StartCampaign_rejected.
  - apply PauseCampaign_rejected.
  - apply CancelCampaign_rejected.
  - apply RetryFailed_rejected.
  - apply ImportRecipients_rejected.
  - apply DeleteCampaign_rejected.
Qed.

(** *** Which tables a statement can change *)

Lemma update_where_map {A : Type} (upd : A -> option A) (f : A -> A) (P : A -> bool)
    (rows : list A) :
  (forall x, P x = true -> upd x = Some (f x)) ->
  gorm.update_where upd P rows = Some (map (fun x => if P x then f x else x) rows).
Proof.
  intros Hupd. induction rows as [|x rows IH]; [reflexivity|].
  cbn [gorm.update_where map]. rewrite IH.
  destruct (P x) eqn:HP; [|reflexivity]. by rewrite Hupd.
Qed.

Lemma First_recipients {A : Type} (table : gorm.DB -> list A) (P : A -> bool)
    (d d' : gorm.DB) (r : result A) :
  gorm.First table P d = (d', r) -> gorm.recipients d' = gorm.recipients d.
Proof.
  intros H. pose proof (First_rows table P d) as (_&?&_). by rewrite H in *.
Qed.

Lemma Find_recipients {A : Type} (table : gorm.DB -> list A) (P : A -> bool)
    (d d' : gorm.DB) (r : result (list A)) :
  gorm.Find table P d = (d', r) -> gorm.recipients d' = gorm.recipients d.
Proof.
  intros H. pose proof (Find_rows table P d) as (_&?&_). by rewrite H in *.
Qed.

Lemma Updates_campaigns_recipients (P : BulkMessageCampaign -> bool) (a : gorm.assignments)
    (d : gorm.DB) :
  gorm.recipients (fst (gorm.Updates_campaigns P a d)) = gorm.recipients d.
Proof.
  unfold gorm.Updates_campaigns, gorm.tick.
  destruct (gorm.faults d) as [|[] fs]; cbn [fst gorm.recipients gorm.with_faults];
    try reflexivity; destruct (gorm.update_where _ _ _); reflexivity.
Qed.

Lemma Updates_messages_recipients (P : Message -> bool) (a : gorm.assignments)
    (d : gorm.DB) :
  gorm.recipients (fst (gorm.Updates_messages P a d)) = gorm.recipients d.
Proof.
  unfold gorm.Updates_messages, gorm.tick.
  destruct (gorm.faults d) as [|[] fs]; cbn [fst gorm.recipients gorm.with_faults];
    try reflexivity; destruct (gorm.update_where _ _ _); reflexivity.
Qed.

Lemma recalculateCampaignStats_recipients (id : UUID) (a : handlers.App Q) :
  gorm.recipients (handlers.DB (handlers.recalculateCampaignStats uuid_String id a))
  = gorm.recipients (handlers.DB a).
Proof.
  unfold handlers.recalculateCampaignStats.
  destruct (gorm.Find _ _ _) as [d rows] eqn:HF.
  cbn [handlers.DB handlers.set_DB].
  rewrite Updates_campaigns_recipients. by eapply Find_recipients.
Qed.

(** The UPDATE of retry-failed, when the store executes it. *)
Lemma Updates_recipients_reset (id : UUID) (d d' : gorm.DB) (e : option error) :
  gorm.Updates_recipients (handlers.of_campaign_with_status id "failed")
    [("status", gorm.VString "pending"); ("error_message", gorm.VString "")] d = (d', e) ->
  (e = None /\ gorm.recipients d' = map (spec.retry_reset id) (gorm.recipients d)) \/
  (e <> None /\ gorm.recipients d' = gorm.recipients d).
Proof.
  unfold gorm.Updates_recipients.
  assert (gorm.update_where
            (gorm.update_recipient_row
               [("status", gorm.VString "pending"); ("error_message", gorm.VString "")])
            (handlers.of_campaign_with_status id "failed") (gorm.recipients d)
          = Some (map (spec.retry_reset id) (gorm.recipients d))) as Hupd.
  { erewrite update_where_map; [reflexivity|]. intros x _. reflexivity. }
  unfold gorm.tick.
  destruct (gorm.faults d) as [|[] fs]; cbn [gorm.recipients gorm.with_faults].
  - rewrite Hupd. intros [= <- <-]. by left.
  - intros [= <- <-]. by right.
  - rewrite Hupd. intros [= <- <-]. by left.
Qed.

Lemma RetryFailed_recipients (r : handlers.Request) (a : handlers.App Q) :
  (handlers.status_code (snd (handlers.RetryFailed uuid_Parse uuid_String r a))
     = handlers.StatusOK ->
   exists id,
     uuid_Parse (handlers.id r) = Some id /\
     gorm.recipients (handlers.DB (fst (handlers.RetryFailed uuid_Parse uuid_String r a)))
       = map (spec.retry_reset id) (gorm.recipients (handlers.DB a))) /\
  (gorm.recipients (handlers.DB (fst (handlers.RetryFailed uuid_Parse uuid_String r a)))
     = gorm.recipients (handlers.DB a) \/
   exists id,
     uuid_Parse (handlers.id r) = Some id /\
     gorm.recipients (handlers.DB (fst (handlers.RetryFailed uuid_Parse uuid_String r a)))
       = map (spec.retry_reset id) (gorm.recipients (handlers.DB a))).
Proof.
  unfold handlers.RetryFailed.
  destruct (handlers.organization_id r) as [orgID|];
    [|split; [discriminate|by left]].
  destruct (uuid_Parse (handlers.id r)) as [id|] eqn:Hid;
    [|split; [discriminate|by left]].
  destruct (gorm.First _ _ _) as [d1 [campaign|e1]] eqn:H1;
    apply First_recipients in H1;
    [|split; [discriminate|by left]].
  cbn [handlers.DB handlers.set_DB].
  destruct (_ && _); [split; [discriminate|by left]|].
  destruct (gorm.Find _ _ d1) as [d2 [failedRecipients|e2]] eqn:H2;
    apply Find_recipients in H2;
    [|split; [discriminate|left; cbn; congruence]].
  cbn [handlers.DB handlers.set_DB].
  destruct (_ =? 0); [split; [discriminate|left; cbn; congruence]|].
  destruct (gorm.Updates_recipients _ _ d2) as [d3 e3] eqn:H3.
  apply Updates_recipients_reset in H3 as [[-> H3]|[Hne H3]]; cycle 1.
  { destruct e3; [|done]. split; [discriminate|left; cbn; congruence]. }
  cbn [handlers.DB handlers.set_DB].
  set (a3 := handlers.recalculateCampaignStats _ _ _).
  assert (gorm.recipients (handlers.DB a3) = map (spec.retry_reset id)
            (gorm.recipients (handlers.DB a))) as Ha3.
  { unfold a3. rewrite recalculateCampaignStats_recipients.
    cbn [handlers.DB handlers.set_DB]. rewrite Updates_messages_recipients.
    congruence. }
  pose proof (Updates_campaigns_recipients (gorm.by_ID campaign)
                [("status", gorm.VString "processing")] (handlers.DB a3)) as H4.
  destruct (gorm.Updates_campaigns _ _ (handlers.DB a3)) as [d4 e4].
  cbn [fst] in H4.
  destruct e4.
  { cbn [fst snd handlers.DB handlers.set_DB].
    split; [discriminate|]. right. exists id. split; [done|congruence]. }
  cbn [handlers.DB handlers.set_DB handlers.Queue].
  destruct (queue.EnqueueRecipients _ _) as [q [e5|]];
    cbn [fst snd handlers.DB handlers.set_DB handlers.set_Queue].
  - split; [discriminate|]. right. exists id. split; [done|congruence].
  - split; [intros _|right]; exists id; (split; [done|congruence]).
Qed.

Lemma retry_reset_facts (id : UUID) (rc : BulkMessageRecipient) :
  (CampaignID rc = id -> Recipient_Status rc = "failed" ->
   Recipient_Status (spec.retry_reset id rc) = "pending" /\
   ErrorMessage (spec.retry_reset id rc) = "") /\
  (Recipient_Status rc <> "failed" -> spec.retry_reset id rc = rc) /\
  (CampaignID rc <> id -> spec.retry_reset id rc = rc) /\
  WhatsAppMessageID (spec.retry_reset id rc) = WhatsAppMessageID rc /\
  Recipient_ID (spec.retry_reset id rc) = Recipient_ID rc.
Proof.
  unfold spec.retry_reset.
  repeat split; intros; repeat case_bool_decide; cbn; congruence.
Qed.

(** C6.  A retry-failed that is accepted rewrites the recipient table row
    by row with [retry_reset]: exactly the failed recipients of the
    campaign become pending with an empty error message; every other row,
    every sent recipient in particular, is left as it is; and the provider
    message id of no row changes.  Whatever the answer, the table is either
    untouched or rewritten in this way. *)
Theorem RetryFailed_resets_only_failures (r : handlers.Request) (a : handlers.App Q) :
  (handlers.status_code (snd (handlers.RetryFailed uuid_Parse uuid_String r a))
     = handlers.StatusOK ->
   exists id,
     uuid_Parse (handlers.id r) = Some id /\
     gorm.recipients (handlers.DB (fst (handlers.RetryFailed uuid_Parse uuid_String r a)))
       = map (spec.retry_reset id) (gorm.recipients (handlers.DB a))) /\
  (gorm.recipients (handlers.DB (fst (handlers.RetryFailed uuid_Parse uuid_String r a)))
     = gorm.recipients (handlers.DB a) \/
   exists id,
     uuid_Parse (handlers.id r) = Some id /\
     gorm.recipients (handlers.DB (fst (handlers.RetryFailed uuid_Parse uuid_String r a)))
       = map (spec.retry_reset id) (gorm.recipients (handlers.DB a))) /\
  (forall id rc,
     (CampaignID rc = id -> Recipient_Status rc = "failed" ->
      Recipient_Status (spec.retry_reset id rc) = "pending" /\
      ErrorMessage (spec.retry_reset id rc) = "") /\
     (Recipient_Status rc <> "failed" -> spec.retry_reset id rc = rc) /\
     (CampaignID rc <> id -> spec.retry_reset id rc = rc) /\
     WhatsAppMessageID (spec.retry_reset id rc) = WhatsAppMessageID rc /\
     Recipient_ID (spec.retry_reset id rc) = Recipient_ID rc).
Proof.
  pose proof (RetryFailed_recipients r a) as [H1 H2].
  split; [exact H1|]. split; [exact H2|]. apply retry_reset_facts.
Qed.

End Handlers.

Lemma state_machine_closure_witness :
  spec.same_rows scenario.draft_store
    (handlers.DB (fst (handlers.invoke scenario.uuid_Parse scenario.uuid_String
                         handlers.Pause scenario.request
                         (scenario.app scenario.draft_store true)))) /\
  handlers.Queue (fst (handlers.invoke scenario.uuid_Parse scenario.uuid_String
                         handlers.Pause scenario.request
                         (scenario.app scenario.draft_store true)))
    = handlers.Queue (scenario.app scenario.draft_store true) /\
  spec.client_error
    (handlers.status_code
       (snd (handlers.invoke scenario.uuid_Parse scenario.uuid_String
               handlers.Pause scenario.request
               (scenario.app scenario.draft_store true)))).
Proof.
  apply (state_machine_closure scenario.uuid_Parse scenario.uuid_String handlers.Pause
           scenario.request (scenario.app scenario.draft_store true)
           scenario.org scenario.cid (scenario.campaign "draft" 0 0)).
  - reflexivity.
  - reflexivity.
  - vm_compute. reflexivity.
  - vm_compute. reflexivity.
Defined.

Lemma RetryFailed_resets_only_failures_witness :
  handlers.status_code
    (snd (handlers.RetryFailed scenario.uuid_Parse scenario.uuid_String scenario.request
            (scenario.app scenario.completed_store true))) = handlers.StatusOK /\
  exists id,
    scenario.uuid_Parse (handlers.id scenario.request) = Some id /\
    gorm.recipients
      (handlers.DB (fst (handlers.RetryFailed scenario.uuid_Parse scenario.uuid_String
                           scenario.request (scenario.app scenario.completed_store true))))
    = map (spec.retry_reset id) (gorm.recipients scenario.completed_store).
Proof.
  assert (handlers.status_code
            (snd (handlers.RetryFailed scenario.uuid_Parse scenario.uuid_String
                    scenario.request (scenario.app scenario.completed_store true)))
          = handlers.StatusOK) as Hok by (vm_compute; reflexivity).
  split; [exact Hok|].
  exact (proj1 (RetryFailed_resets_only_failures scenario.uuid_Parse scenario.uuid_String
                  scenario.request (scenario.app scenario.completed_store true)) Hok).
Defined.

(** ** Enqueue failure after the status change *)

(** C2, on the code.  With the queue down, start puts the campaign back to
    draft and a second start with the queue up is accepted.  Retry-failed
    does not: the campaign is left in processing with the failed recipients
    already reset to pending and the counters recomputed, and a second
    retry-failed is turned away with a 400 although nothing was queued. *)
Theorem RetryFailed_enqueue_failure_not_reverted :
  let started := scenario.handle handlers.Start (scenario.app scenario.draft_store false) in
  let retried := scenario.handle handlers.Retry (scenario.app scenario.completed_store false) in
  (snd started = handlers.SendErrorEnvelope 500 "Failed to queue recipients" /\
   scenario.counters (handlers.DB (fst started)) = [("draft", 0, 0)] /\
   handlers.status_code
     (snd (scenario.handle handlers.Start (scenario.app (handlers.DB (fst started)) true)))
     = 200) /\
  (snd retried = handlers.SendErrorEnvelope 500 "Failed to queue recipients" /\
   scenario.counters (handlers.DB (fst retried)) = [("processing", 0, 0)] /\
   scenario.statuses (handlers.DB (fst retried))
     = ["sent"; "pending"; "sent"; "pending"; "sent"] /\
   scenario.jobs (handlers.Queue (fst retried)) = [] /\
   snd (scenario.handle handlers.Retry (scenario.app (handlers.DB (fst retried)) true))
     = handlers.SendErrorEnvelope 400
         "Can only retry failed messages on completed, paused, or failed campaigns").
Proof. vm_compute. repeat split; reflexivity. Qed.

(** ** Counter updates of the worker *)

(** C5, on the code.  The worker writes the counters as values it computed
    from the row it read when the run began.  A failed-status callback that
    is counted (atomically, by the store) after that read and before the
    worker's next write is overwritten: the run ends with failed_count 0,
    while the same callback counted before the run leaves failed_count 1. *)
Theorem worker_counter_write_loses_increment :
  let interleaved :=
    scenario.db_after (scenario.run_worker scenario.gateway_up
                         (scenario.callback_before_first_send "failed")
                         scenario.resumed_store) in
  let sequential :=
    scenario.db_after (scenario.run_worker scenario.gateway_up scenario.alone
                         (scenario.callback "failed" scenario.resumed_store)) in
  scenario.counters (scenario.callback "failed" scenario.resumed_store)
    = [("processing", 1, 1)] /\
  scenario.counters interleaved = [("completed", 2, 0)] /\
  scenario.counters sequential = [("completed", 2, 1)] /\
  scenario.statuses interleaved = scenario.statuses sequential.
Proof. vm_compute. repeat split; reflexivity. Qed.

(** ** The store when no statement fails *)

Section HealthyStore.

Lemma tick_healthy (d : gorm.DB) : gorm.faults d = [] -> gorm.tick d = (false, d).
Proof. intros H. unfold gorm.tick. by rewrite H. Qed.

Lemma First_healthy {A : Type} (table : gorm.DB -> list A) (P : A -> bool) (d : gorm.DB) :
  gorm.faults d = [] ->
  gorm.First table P d =
    (d, match List.find P (table d) with
        | Some x => Ok x
        | None => Err gorm.ErrRecordNotFound
        end).
Proof.
  intros H. unfold gorm.First. rewrite (tick_healthy d H).
  destruct (List.find P (table d)); reflexivity.
Qed.

Lemma Find_healthy {A : Type} (table : gorm.DB -> list A) (P : A -> bool) (d : gorm.DB) :
  gorm.faults d = [] ->
  gorm.Find table P d = (d, Ok (List.filter P (table d))).
Proof. intros H. unfold gorm.Find. by rewrite (tick_healthy d H). Qed.

Lemma Updates_campaigns_healthy (P : BulkMessageCampaign -> bool) (a : gorm.assignments)
    (f : BulkMessageCampaign -> BulkMessageCampaign) (d : gorm.DB) :
  gorm.faults d = [] ->
  (forall c, P c = true -> gorm.update_campaign_row a c = Some (f c)) ->
  gorm.Updates_campaigns P a d =
    (gorm.with_campaigns d (map (fun c => if P c then f c else c) (gorm.campaigns d)), None).
Proof.
  intros H Hf. unfold gorm.Updates_campaigns. rewrite (tick_healthy d H).
  by rewrite (update_where_map _ f P _ Hf).
Qed.

Lemma Updates_recipients_healthy (P : BulkMessageRecipient -> bool) (a : gorm.assignments)
    (f : BulkMessageRecipient -> BulkMessageRecipient) (d : gorm.DB) :
  gorm.faults d = [] ->
  (forall r, P r = true -> gorm.update_recipient_row a r = Some (f r)) ->
  gorm.Updates_recipients P a d =
    (gorm.with_recipients d (map (fun r => if P r then f r else r) (gorm.recipients d)), None).
Proof.
  intros H Hf. unfold gorm.Updates_recipients. rewrite (tick_healthy d H).
  by rewrite (update_where_map _ f P _ Hf).
Qed.

Lemma Updates_messages_healthy (P : Message -> bool) (a : gorm.assignments)
    (f : Message -> Message) (d : gorm.DB) :
  gorm.faults d = [] ->
  (forall m, P m = true -> gorm.update_message_row a m = Some (f m)) ->
  gorm.Updates_messages P a d =
    (gorm.with_messages d (map (fun m => if P m then f m else m) (gorm.messages d)), None).
Proof.
  intros H Hf. unfold gorm.Updates_messages. rewrite (tick_healthy d H).
  by rewrite (update_where_map _ f P _ Hf).
Qed.

End HealthyStore.

(** ** The worker's send loop *)

Section SendLoop.

Variable gateway : whatsapp.Call -> result string.
Variable env : nat -> bool * gorm.DB -> bool * gorm.DB.

Abbreviation interfere := (worker.interfere env).
Abbreviation process_recipient := (worker.process_recipient gateway env).
Abbreviation send_loop := (worker.send_loop gateway env).
Abbreviation processCampaign := (worker.processCampaign gateway env).
Abbreviation phones := spec.phones.

Lemma interfere_outbox (i : nat) (l : queue.Local worker.State) :
  worker.outbox (queue.app (interfere i l)) = worker.outbox (queue.app l) /\
  worker.clock (queue.app (interfere i l)) = worker.clock (queue.app l).
Proof. unfold worker.interfere. destruct (env i _). done. Qed.

(** One turn of the loop sends to its own recipient or to nobody, and to
    nobody when it leaves the loop. *)
Lemma process_recipient_phones (campaignID : UUID) (campaign : BulkMessageCampaign)
    (template : option Template) (account : WhatsAppAccount) (i : nat)
    (l l' : queue.Local worker.State) (cnt cnt' : Z * Z)
    (recipient : BulkMessageRecipient) (x : option worker.loop_exit) :
  process_recipient campaignID campaign template account i l cnt recipient = (l', cnt', x) ->
  (x = None /\ phones (queue.app l') = phones (queue.app l) ++ [PhoneNumber recipient]) \/
  (x <> None /\ phones (queue.app l') = phones (queue.app l)).
Proof.
  unfold worker.process_recipient, spec.phones.
  destruct (interfere_outbox i l) as [Hout _]. revert Hout.
  generalize (interfere i l). intros l0 Hout.
  destruct (queue.ctx_done l0).
  { intros [= <- <- <-]. right. by rewrite Hout. }
  destruct (gorm.First _ _ _) as [d cur].
  destruct (_ || _).
  { intros [= <- <- <-]. right. cbn. by rewrite Hout. }
  unfold worker.sendTemplateMessage. destruct template as [t|].
  - destruct cnt as [sentCount failedCount].
    destruct (gateway _); intros [= <- <- <-]; left; cbn;
      rewrite Hout, map_app; done.
  - intros [= <- <- <-]. right. cbn. by rewrite Hout.
Qed.

Lemma send_loop_phones (campaignID : UUID) (campaign : BulkMessageCampaign)
    (template : option Template) (account : WhatsAppAccount)
    (recipients : list BulkMessageRecipient) (i : nat)
    (l : queue.Local worker.State) (cnt : Z * Z) :
  exists k,
    phones (queue.app (fst (fst (send_loop campaignID campaign template account i l cnt
                                   recipients))))
    = phones (queue.app l) ++ map PhoneNumber (take k recipients).
Proof.
  revert i l cnt. induction recipients as [|r rest IH]; intros i l cnt.
  - exists 0%nat. cbn. by rewrite app_nil_r.
  - cbn [worker.send_loop].
    destruct (process_recipient _ _ _ _ _ _ _ _) as [[l1 cnt1] x] eqn:Hstep.
    apply process_recipient_phones in Hstep as [[-> Hp]|[Hx Hp]].
    + destruct (IH (S i) l1 cnt1) as [k Hk]. exists (S k).
      rewrite Hk, Hp. cbn [take map]. by rewrite <- app_assoc.
    + destruct x as [x|]; [|done]. exists 0%nat. cbn. by rewrite Hp, app_nil_r.
Qed.

(** A turn never reports the end of the list. *)
Lemma process_recipient_exit (campaignID : UUID) (campaign : BulkMessageCampaign)
    (template : option Template) (account : WhatsAppAccount) (i : nat)
    (l l' : queue.Local worker.State) (cnt cnt' : Z * Z)
    (recipient : BulkMessageRecipient) (x : option worker.loop_exit) :
  process_recipient campaignID campaign template account i l cnt recipient = (l', cnt', x) ->
  x <> Some worker.Exhausted.
Proof.
  unfold worker.process_recipient.
  destruct (queue.ctx_done _); [by intros [= _ _ <-]|].
  destruct (gorm.First _ _ _) as [d cur].
  destruct (_ || _); [by intros [= _ _ <-]|].
  destruct (worker.sendTemplateMessage _ _ _ _ _) as [st [res|]]; [|by intros [= _ _ <-]].
  destruct cnt as [sentCount failedCount]. destruct res; by intros [= _ _ <-].
Qed.

(** The loop is left through its end only after a send to every recipient
    of its list. *)
Lemma send_loop_exhausted_phones (campaignID : UUID) (campaign : BulkMessageCampaign)
    (template : option Template) (account : WhatsAppAccount)
    (recipients : list BulkMessageRecipient) (i : nat)
    (l l' : queue.Local worker.State) (cnt cnt' : Z * Z) :
  send_loop campaignID campaign template account i l cnt recipients
    = (l', cnt', worker.Exhausted) ->
  phones (queue.app l') = phones (queue.app l) ++ map PhoneNumber recipients.
Proof.
  revert i l cnt. induction recipients as [|r rest IH]; intros i l cnt.
  - intros [= <- _]. cbn. by rewrite app_nil_r.
  - cbn [worker.send_loop].
    destruct (process_recipient _ _ _ _ _ _ _ _) as [[l1 cnt1] x] eqn:Hstep.
    pose proof (process_recipient_exit _ _ _ _ _ _ _ _ _ _ _ Hstep) as Hexit.
    apply process_recipient_phones in Hstep as [[-> Hp]|[Hx Hp]].
    + intros Hloop. apply IH in Hloop. rewrite Hloop, Hp. cbn [map].
      by rewrite <- app_assoc.
    + destruct x as [x|]; [|done]. intros [= _ _ ->]. done.
Qed.

Lemma Find_result {A : Type} (table : gorm.DB -> list A) (P : A -> bool)
    (d d' : gorm.DB) (rows : list A) :
  gorm.Find table P d = (d', Ok rows) ->
  spec.same_rows d d' /\ rows = List.filter P (table d').
Proof.
  intros H. split.
  - pose proof (Find_rows table P d) as Hr. by rewrite H in Hr.
  - revert H. unfold gorm.Find. destruct (gorm.tick d) as [[] d0]; [discriminate|].
    by intros [= <- <-].
Qed.

Lemma Preload_recipients (P : BulkMessageCampaign -> bool) (d d' : gorm.DB)
    (r : result (BulkMessageCampaign * option Template)) :
  gorm.First_campaign_Preload_Template P d = (d', r) ->
  gorm.recipients d' = gorm.recipients d.
Proof.
  unfold gorm.First_campaign_Preload_Template.
  destruct (gorm.First gorm.campaigns P d) as [d1 [c|e]] eqn:H1;
    apply First_recipients in H1; [|intros [= <- _]; done].
  destruct (gorm.Find _ _ d1) as [d2 [ts|e]] eqn:H2;
    apply Find_recipients in H2; intros [= <- _]; congruence.
Qed.

(** A run of [processCampaign] sends to a prefix of the recipients that
    were pending when it began, in their stored order, and to nobody
    else. *)
Lemma processCampaign_phones (campaignID : UUID) (l : queue.Local worker.State) :
  exists k,
    phones (queue.app (fst (processCampaign campaignID l)))
    = phones (queue.app l)
      ++ map PhoneNumber (take k (spec.pending_recipients campaignID (worker.db (queue.app l)))).
Proof.
  assert (exists k, phones (queue.app l) = phones (queue.app l)
            ++ map PhoneNumber (take k (spec.pending_recipients campaignID
                                          (worker.db (queue.app l))))) as Hnone.
  { exists 0%nat. cbn. by rewrite app_nil_r. }
  unfold worker.processCampaign.
  destruct (gorm.First_campaign_Preload_Template _ _) as [d1 [[campaign template]|e]] eqn:H1;
    apply Preload_recipients in H1; [|exact Hnone].
  destruct (_ && _); [exact Hnone|].
  cbn [worker.db worker.set_db].
  destruct (gorm.First gorm.accounts _ d1) as [d2 [account|e]] eqn:H2;
    apply First_recipients in H2; [|exact Hnone].
  cbn [worker.db worker.set_db].
  pose proof (Updates_campaigns_recipients (gorm.by_ID campaign)
                [("status", gorm.VString "processing")] d2) as H3.
  destruct (gorm.Find gorm.recipients _ _) as [d4 [recipients|e]] eqn:H4; [|exact Hnone].
  apply Find_result in H4 as [(_ & H4 & _) ->].
  set (l0 := worker.set_app l _).
  destruct (send_loop_phones campaignID campaign template account
              (List.filter (fun r => bool_decide (CampaignID r = campaignID)
                                     && bool_decide (Recipient_Status r = "pending"))
                           (gorm.recipients d4)) 0%nat l0
              (SentCount campaign, FailedCount campaign)) as [k Hk].
  assert (gorm.recipients d4 = gorm.recipients (worker.db (queue.app l))) as Hd4
    by congruence.
  exists k. unfold spec.pending_recipients. rewrite <- Hd4.
  destruct (send_loop _ _ _ _ _ _ _ _) as [[l1 [s f]] x].
  cbn [fst] in Hk. destruct x; cbn [fst]; exact Hk.
Qed.

End SendLoop.

(** ** Pause and resume *)

Section PauseResume.

Context {Q : Type} {QueueQ : queue.Queue Q}.
Variable uuid_Parse : string -> option UUID.
Variable gateway : whatsapp.Call -> result string.
Variable env : nat -> bool * gorm.DB -> bool * gorm.DB.

Lemma send_loop_stops (campaignID : UUID) (campaign : BulkMessageCampaign)
    (template : option Template) (account : WhatsAppAccount) (i : nat)
    (l : queue.Local worker.State) (cnt : Z * Z)
    (recipient : BulkMessageRecipient) (rest : list BulkMessageRecipient)
    (d : gorm.DB) (c : BulkMessageCampaign) :
  queue.ctx_done (worker.interfere env i l) = false ->
  gorm.First gorm.campaigns (fun c => bool_decide (ID c = campaignID))
    (worker.db (queue.app (worker.interfere env i l))) = (d, Ok c) ->
  Status c = "paused" \/ Status c = "cancelled" ->
  worker.send_loop gateway env campaignID campaign template account i l cnt
    (recipient :: rest)
  = (worker.set_app (worker.interfere env i l)
       (worker.set_db (queue.app (worker.interfere env i l)) d), cnt, worker.Stopped) /\
  spec.phones (worker.set_db (queue.app (worker.interfere env i l)) d)
    = spec.phones (queue.app l) /\
  gorm.recipients d = gorm.recipients (worker.db (queue.app (worker.interfere env i l))).
Proof.
  intros Hctx Hfirst Hstatus. split; [|split].
  - cbn [worker.send_loop]. unfold worker.process_recipient.
    rewrite Hctx, Hfirst.
    assert (String.eqb (Status c) "paused" || String.eqb (Status c) "cancelled" = true) as ->.
    { destruct Hstatus as [-> | ->]; reflexivity. }
    reflexivity.
  - unfold spec.phones. cbn [worker.outbox worker.set_db].
    by destruct (interfere_outbox env i l) as [-> _].
  - by eapply First_recipients.
Qed.

Lemma Updates_campaigns_rows (P : BulkMessageCampaign -> bool) (a : gorm.assignments)
    (d : gorm.DB) :
  gorm.recipients (fst (gorm.Updates_campaigns P a d)) = gorm.recipients d /\
  gorm.messages (fst (gorm.Updates_campaigns P a d)) = gorm.messages d.
Proof.
  unfold gorm.Updates_campaigns, gorm.tick.
  destruct (gorm.faults d) as [|[] fs];
    cbn [fst gorm.recipients gorm.messages gorm.with_faults];
    try done; destruct (gorm.update_where _ _ _); done.
Qed.

(** Pausing writes to the campaign table only. *)
Lemma PauseCampaign_recipients (r : handlers.Request) (a : handlers.App Q) :
  gorm.recipients (handlers.DB (fst (handlers.PauseCampaign uuid_Parse r a)))
  = gorm.recipients (handlers.DB a).
Proof.
  unfold handlers.PauseCampaign.
  destruct (handlers.organization_id r); [|done].
  destruct (uuid_Parse (handlers.id r)); [|done].
  destruct (gorm.First _ _ _) as [d1 [campaign|e]] eqn:H1;
    apply First_recipients in H1; [|done].
  cbn [handlers.DB handlers.set_DB].
  destruct (_ && _); [done|].
  pose proof (Updates_campaigns_recipients (gorm.by_ID campaign)
                [("status", gorm.VString "paused")] d1) as H2.
  destruct (gorm.Updates_campaigns _ _ d1) as [d2 [e|]]; cbn [fst] in *;
    cbn [handlers.DB handlers.set_DB]; congruence.
Qed.

(** A start that is accepted has enqueued one job per pending recipient of
    the campaign, and no other job; no start touches the recipient table. *)
Lemma StartCampaign_jobs (r : handlers.Request) (a : handlers.App Q) :
  gorm.recipients (handlers.DB (fst (handlers.StartCampaign uuid_Parse r a)))
    = gorm.recipients (handlers.DB a) /\
  (handlers.status_code (snd (handlers.StartCampaign uuid_Parse r a)) = handlers.StatusOK ->
   exists orgID id,
     handlers.organization_id r = Some orgID /\
     uuid_Parse (handlers.id r) = Some id /\
     handlers.Queue (fst (handlers.StartCampaign uuid_Parse r a))
       = fst (queue.EnqueueRecipients
                (handlers.make_jobs id orgID (spec.pending_recipients id (handlers.DB a)))
                (handlers.Queue a))).
Proof.
  unfold handlers.StartCampaign.
  destruct (handlers.organization_id r) as [orgID|]; [|split; [done|discriminate]].
  destruct (uuid_Parse (handlers.id r)) as [id|]; [|split; [done|discriminate]].
  destruct (gorm.First _ _ _) as [d1 [campaign|e]] eqn:H1;
    apply First_recipients in H1; [|split; [done|discriminate]].
  cbn [handlers.DB handlers.set_DB].
  destruct (_ && _); [split; [done|discriminate]|].
  destruct (gorm.Find _ _ d1) as [d2 [recipients|e]] eqn:H2;
    [|apply Find_recipients in H2; split; [cbn; congruence|discriminate]].
  apply Find_result in H2 as [(_ & H2 & _) ->].
  cbn [handlers.DB handlers.set_DB].
  destruct (_ =? 0); [split; [cbn; congruence|discriminate]|].
  pose proof (Updates_campaigns_recipients (gorm.by_ID campaign)
                [("status", gorm.VString "processing");
                 ("started_at", gorm.VTime (handlers.clock a))] d2) as H3.
  destruct (gorm.Updates_campaigns _ _ d2) as [d3 [e|]]; cbn [fst] in H3;
    [split; [cbn; congruence|discriminate]|].
  cbn [handlers.DB handlers.set_DB handlers.Queue handlers.clock].
  assert (List.filter (handlers.of_campaign_with_status id "pending") (gorm.recipients d2)
          = spec.pending_recipients id (handlers.DB a)) as Hpending.
  { unfold spec.pending_recipients. by rewrite <- H1, <- H2. }
  rewrite Hpending.
  destruct (queue.EnqueueRecipients _ _) as [q [e|]] eqn:Hq;
    cbn [fst snd handlers.DB handlers.set_DB handlers.set_Queue handlers.Queue].
  - split; [|discriminate].
    rewrite Updates_campaigns_recipients. cbn. congruence.
  - split; [congruence|]. intros _. exists orgID, id. by rewrite Hq.
Qed.


End PauseResume.


(** ** Who writes "completed" *)

Section Completion.

Lemma no_new_completed_refl (d : gorm.DB) : spec.no_new_completed d d.
Proof. intros c Hc Hs. by exists c. Qed.

Lemma no_new_completed_trans (d1 d2 d3 : gorm.DB) :
  spec.no_new_completed d1 d2 -> spec.no_new_completed d2 d3 ->
  spec.no_new_completed d1 d3.
Proof.
  intros H12 H23 c3 Hc3 Hs3.
  destruct (H23 c3 Hc3 Hs3) as (c2 & Hc2 & Hid2 & Hs2).
  destruct (H12 c2 Hc2 Hs2) as (c1 & Hc1 & Hid1 & Hs1).
  exists c1. repeat split; congruence.
Qed.

Lemma no_new_completed_same (d d' : gorm.DB) :
  gorm.campaigns d' = gorm.campaigns d -> spec.no_new_completed d d'.
Proof. intros H c Hc Hs. exists c. by rewrite <- H. Qed.

Lemma assign_campaign_status (old c c' : BulkMessageCampaign) (x : string * gorm.value) :
  gorm.assign_campaign old c x = Some c' ->
  ID c' = ID c /\ (Status c' = Status c \/ Status c' ∈ spec.status_writes [x]).
Proof.
  destruct x as [col v]. unfold gorm.assign_campaign, spec.status_writes.
  cbn [omap list_omap fst snd].
  destruct (String.eqb col "status").
  { destruct v; try discriminate. intros [= <-]. split; [reflexivity|].
    right. cbn. left. }
  repeat (destruct (String.eqb col _);
          [ first [ destruct v; try discriminate; intros [= <-]; split; [reflexivity|by left]
                  | destruct (gorm.eval_int old v); try discriminate;
                    intros [= <-]; split; [reflexivity|by left] ] | ]).
  discriminate.
Qed.

Lemma status_writes_cons (x : string * gorm.value) (a : gorm.assignments) :
  spec.status_writes (x :: a) = spec.status_writes [x] ++ spec.status_writes a.
Proof.
  unfold spec.status_writes. cbn [omap list_omap].
  destruct (if String.eqb (fst x) "status" then _ else _); reflexivity.
Qed.

Lemma assign_campaign_all_status (a : gorm.assignments) (old c c' : BulkMessageCampaign) :
  gorm.assign_campaign_all old c a = Some c' ->
  ID c' = ID c /\ (Status c' = Status c \/ Status c' ∈ spec.status_writes a).
Proof.
  revert c. induction a as [|x a IH]; intros c; cbn [gorm.assign_campaign_all].
  - intros [= <-]. split; [reflexivity|by left].
  - destruct (gorm.assign_campaign old c x) as [c1|] eqn:H1; [|discriminate].
    intros H2. apply assign_campaign_status in H1 as [Hid1 Hs1].
    apply IH in H2 as [Hid2 Hs2]. split; [congruence|].
    rewrite status_writes_cons.
    destruct Hs2 as [Hs2|Hs2].
    + destruct Hs1 as [Hs1|Hs1]; [left; congruence|].
      right. apply elem_of_app. left. by rewrite Hs2.
    + right. apply elem_of_app. by right.
Qed.

Lemma update_where_rows {A : Type} (upd : A -> option A) (P : A -> bool)
    (rows rows' : list A) :
  gorm.update_where upd P rows = Some rows' ->
  forall x', x' ∈ rows' -> x' ∈ rows \/ exists x, x ∈ rows /\ upd x = Some x'.
Proof.
  revert rows'. induction rows as [|x rows IH]; intros rows'; cbn [gorm.update_where].
  - intros [= <-] x' Hx'. by left.
  - destruct (gorm.update_where upd P rows) as [rest|]; [|discriminate].
    assert (forall y x', rows' = y :: rest -> (y = x \/ upd x = Some y) ->
              x' ∈ rows' -> x' ∈ x :: rows \/ exists x0, x0 ∈ x :: rows /\ upd x0 = Some x')
      as Hcase.
    { intros y x' -> Hy Hx'. apply elem_of_cons in Hx' as [->|Hx'].
      - destruct Hy as [->|Hy]; [left; left|right; exists x; split; [left|done]].
      - destruct (IH rest eq_refl x' Hx') as [Hin|(x0 & Hin & Hupd)].
        + left. by right.
        + right. exists x0. split; [by right|done]. }
    destruct (P x).
    + destruct (upd x) as [y|] eqn:Hy; [|discriminate].
      intros [= <-] x'. apply (Hcase y); [reflexivity|by right].
    + intros [= <-] x'. apply (Hcase x); [reflexivity|by left].
Qed.

(** An UPDATE of campaigns that does not assign the status "completed"
    completes no campaign. *)
Lemma Updates_campaigns_no_new_completed (P : BulkMessageCampaign -> bool)
    (a : gorm.assignments) (d0 d : gorm.DB) :
  "completed" ∉ spec.status_writes a ->
  spec.no_new_completed d0 d ->
  spec.no_new_completed d0 (fst (gorm.Updates_campaigns P a d)).
Proof.
  intros Ha H0. eapply no_new_completed_trans; [exact H0|].
  unfold gorm.Updates_campaigns, gorm.tick.
  destruct (gorm.faults d) as [|[] fs]; cbn [fst gorm.campaigns gorm.with_faults];
    try (by apply no_new_completed_same).
  all: destruct (gorm.update_where _ _ _) as [cs|] eqn:Hupd;
    [|by apply no_new_completed_same].
  all: intros c' Hc' Hs'; cbn [fst gorm.campaigns gorm.with_campaigns gorm.with_faults] in Hc'.
  all: destruct (update_where_rows _ _ _ _ Hupd c' Hc') as [Hin|(c & Hin & Hc)];
    [by exists c'|].
  all: apply assign_campaign_all_status in Hc as [Hid [Hs|Hs]];
    [exists c; repeat split; [done|congruence|congruence]|].
  all: rewrite Hs' in Hs; done.
Qed.

Lemma tick_campaigns (d : gorm.DB) : gorm.campaigns (snd (gorm.tick d)) = gorm.campaigns d.
Proof. unfold gorm.tick. destruct (gorm.faults d); reflexivity. Qed.

Lemma First_nnc {A : Type} (t : gorm.DB -> list A) (P : A -> bool) (d0 d d' : gorm.DB)
    (r : result A) :
  spec.no_new_completed d0 d -> gorm.First t P d = (d', r) -> spec.no_new_completed d0 d'.
Proof.
  intros H0 H. eapply no_new_completed_trans; [exact H0|].
  apply no_new_completed_same.
  pose proof (First_rows t P d) as (Hc & _). by rewrite H in Hc.
Qed.

Lemma Find_nnc {A : Type} (t : gorm.DB -> list A) (P : A -> bool) (d0 d d' : gorm.DB)
    (r : result (list A)) :
  spec.no_new_completed d0 d -> gorm.Find t P d = (d', r) -> spec.no_new_completed d0 d'.
Proof.
  intros H0 H. eapply no_new_completed_trans; [exact H0|].
  apply no_new_completed_same.
  pose proof (Find_rows t P d) as (Hc & _). by rewrite H in Hc.
Qed.

Lemma Count_nnc {A : Type} (t : gorm.DB -> list A) (P : A -> bool) (d0 d d' : gorm.DB)
    (r : result Z) :
  spec.no_new_completed d0 d -> gorm.Count t P d = (d', r) -> spec.no_new_completed d0 d'.
Proof.
  intros H0 H. eapply no_new_completed_trans; [exact H0|].
  apply no_new_completed_same. revert H. unfold gorm.Count.
  pose proof (tick_campaigns d) as Ht.
  destruct (gorm.tick d) as [[] d1]; intros [= <- _]; exact Ht.
Qed.

Lemma Updates_campaigns_nnc (P : BulkMessageCampaign -> bool) (a : gorm.assignments)
    (d0 d d' : gorm.DB) (e : option error) :
  "completed" ∉ spec.status_writes a ->
  spec.no_new_completed d0 d -> gorm.Updates_campaigns P a d = (d', e) ->
  spec.no_new_completed d0 d'.
Proof.
  intros Ha H0 H.
  pose proof (Updates_campaigns_no_new_completed P a d0 d Ha H0) as Hn.
  by rewrite H in Hn.
Qed.

Lemma Updates_recipients_nnc (P : BulkMessageRecipient -> bool) (a : gorm.assignments)
    (d0 d d' : gorm.DB) (e : option error) :
  spec.no_new_completed d0 d -> gorm.Updates_recipients P a d = (d', e) ->
  spec.no_new_completed d0 d'.
Proof.
  intros H0 H. eapply no_new_completed_trans; [exact H0|].
  apply no_new_completed_same. revert H. unfold gorm.Updates_recipients.
  pose proof (tick_campaigns d) as Ht.
  destruct (gorm.tick d) as [[] d1]; [intros [= <- _]; exact Ht|].
  destruct (gorm.update_where _ _ _); intros [= <- _]; exact Ht.
Qed.

Lemma Updates_messages_nnc (P : Message -> bool) (a : gorm.assignments)
    (d0 d d' : gorm.DB) (e : option error) :
  spec.no_new_completed d0 d -> gorm.Updates_messages P a d = (d', e) ->
  spec.no_new_completed d0 d'.
Proof.
  intros H0 H. eapply no_new_completed_trans; [exact H0|].
  apply no_new_completed_same. revert H. unfold gorm.Updates_messages.
  pose proof (tick_campaigns d) as Ht.
  destruct (gorm.tick d) as [[] d1]; [intros [= <- _]; exact Ht|].
  destruct (gorm.update_where _ _ _); intros [= <- _]; exact Ht.
Qed.

Lemma Create_recipients_nnc (rs : list BulkMessageRecipient) (d0 d d' : gorm.DB)
    (e : option error) :
  spec.no_new_completed d0 d -> gorm.Create_recipients rs d = (d', e) ->
  spec.no_new_completed d0 d'.
Proof.
  intros H0 H. eapply no_new_completed_trans; [exact H0|].
  apply no_new_completed_same. revert H. unfold gorm.Create_recipients.
  pose proof (tick_campaigns d) as Ht.
  destruct (gorm.tick d) as [[] d1]; [intros [= <- _]; exact Ht|].
  destruct rs as [|r rs]; [intros [= <- _]; exact Ht|].
  destruct (gorm.assign_ids _ _). intros [= <- _]. exact Ht.
Qed.

Lemma Delete_recipients_nnc (P : BulkMessageRecipient -> bool) (d0 d d' : gorm.DB)
    (e : option error) :
  spec.no_new_completed d0 d -> gorm.Delete_recipients P d = (d', e) ->
  spec.no_new_completed d0 d'.
Proof.
  intros H0 H. eapply no_new_completed_trans; [exact H0|].
  apply no_new_completed_same. revert H. unfold gorm.Delete_recipients.
  pose proof (tick_campaigns d) as Ht.
  destruct (gorm.tick d) as [[] d1]; intros [= <- _]; exact Ht.
Qed.

Lemma Delete_campaign_nnc (c : BulkMessageCampaign) (d0 d d' : gorm.DB) (e : option error) :
  spec.no_new_completed d0 d -> gorm.Delete_campaign c d = (d', e) ->
  spec.no_new_completed d0 d'.
Proof.
  intros H0 H. eapply no_new_completed_trans; [exact H0|].
  revert H. unfold gorm.Delete_campaign.
  pose proof (tick_campaigns d) as Ht.
  destruct (gorm.tick d) as [[] d1]; intros [= <- _];
    [by apply no_new_completed_same|].
  intros c' Hc' Hs'. exists c'. cbn [gorm.campaigns gorm.with_campaigns] in Hc'.
  apply list_elem_of_In, filter_In in Hc' as [Hc' _].
  split; [|done]. rewrite <- Ht. by apply list_elem_of_In.
Qed.

End Completion.

Ltac no_completed_write :=
  let Hin := fresh "Hin" in
  intros Hin; unfold spec.status_writes in Hin; cbn in Hin; elem_of_literals Hin.

(** Follow a handler statement by statement, carrying along that no
    campaign has been completed so far. *)
Ltac nnc_step :=
  first
  [ progress cbn [fst snd handlers.DB handlers.set_DB handlers.set_Queue
                  handlers.Queue handlers.clock]
  | match goal with
    | H : spec.no_new_completed ?d0 ?d |- context [gorm.First ?t ?P ?d] =>
        let E := fresh "E" in
        destruct (gorm.First t P d) as [? [?|?]] eqn:E;
        apply (First_nnc _ _ _ _ _ _ H) in E
    | H : spec.no_new_completed ?d0 ?d |- context [gorm.Find ?t ?P ?d] =>
        let E := fresh "E" in
        destruct (gorm.Find t P d) as [? [?|?]] eqn:E;
        apply (Find_nnc _ _ _ _ _ _ H) in E
    | H : spec.no_new_completed ?d0 ?d |- context [gorm.Count ?t ?P ?d] =>
        let E := fresh "E" in
        destruct (gorm.Count t P d) as [? [?|?]] eqn:E;
        apply (Count_nnc _ _ _ _ _ _ H) in E
    | H : spec.no_new_completed ?d0 ?d |- context [gorm.Updates_campaigns ?P ?a ?d] =>
        let E := fresh "E" in
        destruct (gorm.Updates_campaigns P a d) as [? [?|]] eqn:E;
        apply (Updates_campaigns_nnc P a _ _ _ _ ltac:(no_completed_write) H) in E
    | H : spec.no_new_completed ?d0 ?d |- context [gorm.Updates_recipients ?P ?a ?d] =>
        let E := fresh "E" in
        destruct (gorm.Updates_recipients P a d) as [? [?|]] eqn:E;
        apply (Updates_recipients_nnc _ _ _ _ _ _ H) in E
    | H : spec.no_new_completed ?d0 ?d |- context [gorm.Updates_messages ?P ?a ?d] =>
        let E := fresh "E" in
        destruct (gorm.Updates_messages P a d) as [? [?|]] eqn:E;
        apply (Updates_messages_nnc _ _ _ _ _ _ H) in E
    | H : spec.no_new_completed ?d0 ?d |- context [gorm.Create_recipients ?rs ?d] =>
        let E := fresh "E" in
        destruct (gorm.Create_recipients rs d) as [? [?|]] eqn:E;
        apply (Create_recipients_nnc _ _ _ _ _ H) in E
    | H : spec.no_new_completed ?d0 ?d |- context [gorm.Delete_recipients ?P ?d] =>
        let E := fresh "E" in
        destruct (gorm.Delete_recipients P d) as [? [?|]] eqn:E;
        apply (Delete_recipients_nnc _ _ _ _ _ H) in E
    | H : spec.no_new_completed ?d0 ?d |- context [gorm.Delete_campaign ?c ?d] =>
        let E := fresh "E" in
        destruct (gorm.Delete_campaign c d) as [? [?|]] eqn:E;
        apply (Delete_campaign_nnc _ _ _ _ _ H) in E
    end
  | match goal with
    | |- context [match ?x with _ => _ end] => destruct x
    | |- context [if ?x then _ else _] => destruct x
    end ].

Section ApiCompletion.

Context {Q : Type} {QueueQ : queue.Queue Q}.
Variable uuid_Parse : string -> option UUID.
Variable uuid_String : UUID -> string.

(** No API action completes a campaign. *)
Lemma invoke_no_new_completed (act : handlers.action) (r : handlers.Request)
    (a : handlers.App Q) :
  spec.no_new_completed (handlers.DB a)
    (handlers.DB (fst (handlers.invoke uuid_Parse uuid_String act r a))).
Proof.
  pose proof (no_new_completed_refl (handlers.DB a)) as H0.
  destruct act; cbn [handlers.invoke];
    unfold handlers.StartCampaign, handlers.PauseCampaign, handlers.CancelCampaign,
           handlers.RetryFailed, handlers.ImportRecipients, handlers.DeleteCampaign,
           handlers.recalculateCampaignStats;
    repeat nnc_step; assumption.
Qed.

End ApiCompletion.

(** ** A worker run that is left alone *)

Section UndisturbedRun.

Variable gateway : whatsapp.Call -> result string.
Variable env : nat -> bool * gorm.DB -> bool * gorm.DB.
Variable campaignID : UUID.
Hypothesis Henv : spec.undisturbed campaignID env.

Lemma observed_status_map (g : BulkMessageCampaign -> BulkMessageCampaign) (d : gorm.DB) :
  (forall c, ID (g c) = ID c /\ Status (g c) = Status c) ->
  spec.observed_status campaignID (gorm.with_campaigns d (map g (gorm.campaigns d)))
  = spec.observed_status campaignID d.
Proof.
  intros Hg. unfold spec.observed_status. cbn [gorm.campaigns gorm.with_campaigns].
  induction (gorm.campaigns d) as [|c cs IH]; [reflexivity|].
  cbn [map List.find]. destruct (Hg c) as [-> Hs].
  destruct (bool_decide (ID c = campaignID)); [exact Hs|exact IH].
Qed.

Lemma observed_status_set (s : string) (d : gorm.DB) :
  spec.observed_status campaignID
    (gorm.with_campaigns d
       (map (fun c => if bool_decide (ID c = campaignID) then gorm.set_Status c s else c)
            (gorm.campaigns d)))
  = s \/
  spec.observed_status campaignID
    (gorm.with_campaigns d
       (map (fun c => if bool_decide (ID c = campaignID) then gorm.set_Status c s else c)
            (gorm.campaigns d)))
  = "".
Proof.
  unfold spec.observed_status. cbn [gorm.campaigns gorm.with_campaigns].
  induction (gorm.campaigns d) as [|c cs IH]; [by right|].
  cbn [map List.find]. destruct (bool_decide (ID c = campaignID)) eqn:Hc.
  - cbn [gorm.set_Status ID]. rewrite Hc. by left.
  - rewrite Hc. exact IH.
Qed.

Lemma running_recipients (d : gorm.DB) (rs : list BulkMessageRecipient) :
  spec.running campaignID d -> spec.running campaignID (gorm.with_recipients d rs).
Proof. done. Qed.

Lemma present_map (g : BulkMessageCampaign -> BulkMessageCampaign) (d d' : gorm.DB) :
  (forall c, ID (g c) = ID c) ->
  gorm.campaigns d' = map g (gorm.campaigns d) ->
  spec.present campaignID d -> spec.present campaignID d'.
Proof.
  intros Hg Hd (c & Hc & Hid). exists (g c). rewrite Hd, Hg. split; [|done].
  apply list_elem_of_In, in_map. by apply list_elem_of_In.
Qed.

Lemma running_observed (d : gorm.DB) :
  spec.running campaignID d ->
  (String.eqb
     match
       match List.find (fun c => bool_decide (ID c = campaignID)) (gorm.campaigns d) with
       | Some x => Ok x
       | None => Err gorm.ErrRecordNotFound
       end
     with
     | Ok c => Status c
     | Err _ => ""
     end "paused"
   || String.eqb
        match
          match List.find (fun c => bool_decide (ID c = campaignID)) (gorm.campaigns d) with
          | Some x => Ok x
          | None => Err gorm.ErrRecordNotFound
          end
        with
        | Ok c => Status c
        | Err _ => ""
        end "cancelled") = false.
Proof.
  unfold spec.running, spec.observed_status. intros [Hp Hc].
  destruct (List.find _ _) as [c|]; [|reflexivity].
  apply orb_false_intro; by apply String.eqb_neq.
Qed.

(** With the run undisturbed and a template loaded, a turn of the loop
    always goes on to the next recipient. *)
Lemma process_recipient_undisturbed (campaign : BulkMessageCampaign) (t : Template)
    (account : WhatsAppAccount) (i : nat) (l : queue.Local worker.State) (cnt : Z * Z)
    (recipient : BulkMessageRecipient) :
  ID campaign = campaignID ->
  gorm.faults (worker.db (queue.app l)) = [] ->
  queue.ctx_done l = false ->
  spec.running campaignID (worker.db (queue.app l)) ->
  spec.present campaignID (worker.db (queue.app l)) ->
  exists l' cnt',
    worker.process_recipient gateway env campaignID campaign (Some t) account i l cnt recipient
      = (l', cnt', None) /\
    gorm.faults (worker.db (queue.app l')) = [] /\
    queue.ctx_done l' = false /\
    spec.running campaignID (worker.db (queue.app l')) /\
    spec.present campaignID (worker.db (queue.app l')).
Proof.
  intros Hid Hfaults Hctx Hrun Hpres.
  unfold worker.process_recipient, worker.interfere. rewrite Hctx.
  destruct (Henv i (worker.db (queue.app l)) Hfaults Hrun Hpres) as (Hdone & Hf & Hr & Hp).
  destruct (env i (false, worker.db (queue.app l))) as [done d].
  cbn [fst snd] in Hdone, Hf, Hr, Hp. subst done.
  cbn [queue.ctx_done queue.app worker.db worker.set_db].
  rewrite (First_healthy _ _ _ Hf), (running_observed d Hr).
  unfold worker.sendTemplateMessage. destruct cnt as [sentCount failedCount].
  cbn [worker.db worker.set_db worker.clock].
  destruct (gateway _) as [messageID|err].
  - erewrite Updates_recipients_healthy; [|exact Hf|intros r _; cbn; reflexivity].
    cbn [fst worker.db worker.set_db].
    erewrite Updates_campaigns_healthy; [|exact Hf|intros c _; cbn; reflexivity].
    eexists _, _. split; [reflexivity|].
    cbn [fst queue.app queue.ctx_done worker.set_app worker.db worker.set_db worker.Sleep].
    split; [exact Hf|]. split; [reflexivity|]. split.
    + unfold spec.running. rewrite observed_status_map; [exact Hr|].
      intros c. destruct (gorm.by_ID campaign c); done.
    + eapply present_map; [| |exact Hp]; [|reflexivity].
      intros c. cbn. destruct (gorm.by_ID campaign c); done.
  - erewrite Updates_recipients_healthy; [|exact Hf|intros r _; cbn; reflexivity].
    cbn [fst worker.db worker.set_db].
    erewrite Updates_campaigns_healthy; [|exact Hf|intros c _; cbn; reflexivity].
    eexists _, _. split; [reflexivity|].
    cbn [fst queue.app queue.ctx_done worker.set_app worker.db worker.set_db worker.Sleep].
    split; [exact Hf|]. split; [reflexivity|]. split.
    + unfold spec.running. rewrite observed_status_map; [exact Hr|].
      intros c. destruct (gorm.by_ID campaign c); done.
    + eapply present_map; [| |exact Hp]; [|reflexivity].
      intros c. cbn. destruct (gorm.by_ID campaign c); done.
Qed.

Lemma send_loop_undisturbed (campaign : BulkMessageCampaign) (t : Template)
    (account : WhatsAppAccount) (recipients : list BulkMessageRecipient) (i : nat)
    (l : queue.Local worker.State) (cnt : Z * Z) :
  ID campaign = campaignID ->
  gorm.faults (worker.db (queue.app l)) = [] ->
  queue.ctx_done l = false ->
  spec.running campaignID (worker.db (queue.app l)) ->
  spec.present campaignID (worker.db (queue.app l)) ->
  exists l' cnt',
    worker.send_loop gateway env campaignID campaign (Some t) account i l cnt recipients
      = (l', cnt', worker.Exhausted) /\
    gorm.faults (worker.db (queue.app l')) = [] /\
    spec.present campaignID (worker.db (queue.app l')).
Proof.
  intros Hid. revert i l cnt.
  induction recipients as [|r rest IH]; intros i l cnt Hfaults Hctx Hrun Hpres.
  - eexists _, _. split; [reflexivity|done].
  - cbn [worker.send_loop].
    destruct (process_recipient_undisturbed campaign t account i l cnt r Hid Hfaults Hctx
                Hrun Hpres)
      as (l1 & cnt1 & -> & Hf1 & Hc1 & Hr1 & Hp1).
    apply IH; done.
Qed.

Lemma find_ID (cs : list BulkMessageCampaign) (c : BulkMessageCampaign) :
  List.find (fun c => bool_decide (ID c = campaignID)) cs = Some c -> ID c = campaignID.
Proof.
  intros H. apply find_some in H as [_ H]. by apply bool_decide_eq_true_1 in H.
Qed.

Lemma processCampaign_undisturbed (l : queue.Local worker.State)
    (c : BulkMessageCampaign) (t : Template) (account : WhatsAppAccount) :
  gorm.faults (worker.db (queue.app l)) = [] ->
  queue.ctx_done l = false ->
  List.find (fun c => bool_decide (ID c = campaignID))
    (gorm.campaigns (worker.db (queue.app l))) = Some c ->
  Status c = "queued" \/ Status c = "processing" ->
  head (List.filter (fun t => bool_decide (Template_ID t = TemplateID c))
          (gorm.templates (worker.db (queue.app l)))) = Some t ->
  List.find (fun a => bool_decide (Account_Name a = WhatsAppAccount_ c)
                      && bool_decide (Account_OrganizationID a = OrganizationID c))
    (gorm.accounts (worker.db (queue.app l))) = Some account ->
  snd (worker.processCampaign gateway env campaignID l) = worker.Return None /\
  spec.phones (queue.app (fst (worker.processCampaign gateway env campaignID l)))
    = spec.phones (queue.app l)
      ++ map PhoneNumber (spec.pending_recipients campaignID (worker.db (queue.app l))) /\
  spec.present campaignID
    (worker.db (queue.app (fst (worker.processCampaign gateway env campaignID l)))) /\
  forall c',
    c' ∈ gorm.campaigns
           (worker.db (queue.app (fst (worker.processCampaign gateway env campaignID l)))) ->
    ID c' = campaignID ->
    Status c' = "completed" /\
    CompletedAt c'
      = Some (worker.clock (queue.app (fst (worker.processCampaign gateway env campaignID l)))).
Proof.
  intros Hfaults Hctx Hfind Hstatus Htemplate Haccount.
  pose proof (find_ID _ _ Hfind) as Hid.
  unfold worker.processCampaign, gorm.First_campaign_Preload_Template.
  rewrite (First_healthy _ _ _ Hfaults), Hfind, (Find_healthy _ _ _ Hfaults), Htemplate.
  assert (negb (String.eqb (Status c) "queued") && negb (String.eqb (Status c) "processing")
          = false) as ->.
  { destruct Hstatus as [-> | ->]; reflexivity. }
  cbn [worker.db worker.set_db].
  rewrite (First_healthy _ _ _ Hfaults), Haccount.
  cbn [worker.db worker.set_db].
  erewrite Updates_campaigns_healthy; [|exact Hfaults|intros c0 _; cbn; reflexivity].
  cbn [fst worker.db worker.set_db].
  rewrite Find_healthy by exact Hfaults.
  cbn [worker.db worker.set_db gorm.recipients gorm.with_campaigns].
  match goal with
  | |- context [worker.send_loop _ _ _ _ _ _ ?i ?l0 ?cnt ?rs] =>
      destruct (send_loop_undisturbed c t account rs i l0 cnt Hid)
        as (l1 & cnt1 & Hloop & Hf1 & Hp1)
  end.
  - exact Hfaults.
  - exact Hctx.
  - cbn [queue.app worker.set_app worker.db worker.set_db].
    unfold gorm.by_ID. rewrite Hid. unfold spec.running.
    destruct (observed_status_set "processing" (worker.db (queue.app l))) as [-> | ->]; done.
  - cbn [queue.app worker.set_app worker.db worker.set_db].
    eapply present_map with (d := worker.db (queue.app l)); [|reflexivity|].
    + intros c0. cbn. destruct (gorm.by_ID c c0); done.
    + exists c. split; [|exact Hid].
      apply find_some in Hfind as [Hin _]. by apply list_elem_of_In.
  - rewrite Hloop. apply send_loop_exhausted_phones in Hloop.
    destruct cnt1 as [sentCount failedCount].
    erewrite Updates_campaigns_healthy; [|exact Hf1|intros c0 _; cbn; reflexivity].
    cbn [fst snd queue.app worker.set_app worker.db worker.set_db worker.clock
         gorm.campaigns gorm.with_campaigns].
    split; [reflexivity|]. split.
    { exact Hloop. }
    split.
    { eapply present_map; [| |exact Hp1]; [|reflexivity].
      intros c0. cbn. destruct (gorm.by_ID c c0); done. }
    intros c' Hc' Hid'. apply list_elem_of_In, in_map_iff in Hc' as (c0 & <- & _).
    unfold gorm.by_ID in *. rewrite Hid in *.
    destruct (bool_decide (ID c0 = campaignID)) eqn:Hc0.
    + done.
    + apply bool_decide_eq_false_1 in Hc0. done.
Qed.

End UndisturbedRun.

(** ** A run completes a campaign only at the end of its list *)

Section Exhaustion.

Variable gateway : whatsapp.Call -> result string.
Variable env : nat -> bool * gorm.DB -> bool * gorm.DB.
Hypothesis Hquiet : behaviour.completes_nothing env.

(** A turn of the loop completes no campaign. *)
Lemma process_recipient_nnc (campaignID : UUID) (campaign : BulkMessageCampaign)
    (template : option Template) (account : WhatsAppAccount) (i : nat)
    (l l' : queue.Local worker.State) (cnt cnt' : Z * Z)
    (recipient : BulkMessageRecipient) (x : option worker.loop_exit) (d0 : gorm.DB) :
  spec.no_new_completed d0 (worker.db (queue.app l)) ->
  worker.process_recipient gateway env campaignID campaign template account i l cnt recipient
    = (l', cnt', x) ->
  spec.no_new_completed d0 (worker.db (queue.app l')).
Proof.
  intros H0. unfold worker.process_recipient.
  assert (spec.no_new_completed d0 (worker.db (queue.app (worker.interfere env i l)))) as H1.
  { unfold worker.interfere.
    pose proof (Hquiet i (queue.ctx_done l, worker.db (queue.app l))) as Hi.
    destruct (env i _) as [done d]. cbn [snd] in Hi. cbn.
    eapply no_new_completed_trans; [exact H0|exact Hi]. }
  revert H1. generalize (worker.interfere env i l). intros l0 H1.
  destruct (queue.ctx_done l0); [by intros [= <- _ _]|].
  destruct (gorm.First _ _ _) as [d cur] eqn:Hfirst.
  apply (First_nnc _ _ _ _ _ _ H1) in Hfirst.
  destruct (_ || _); [by intros [= <- _ _]|].
  unfold worker.sendTemplateMessage. destruct template as [t|]; [|by intros [= <- _ _]].
  destruct cnt as [sentCount failedCount].
  cbn [worker.db worker.set_db worker.clock].
  destruct (gateway _) as [messageID|err]; intros [= <- _ _];
    cbn [queue.app worker.set_app worker.Sleep worker.db worker.set_db].
  - apply Updates_campaigns_no_new_completed; [no_completed_write|].
    destruct (gorm.Updates_recipients _ _ _) as [d1 e1] eqn:Hupd.
    by apply (Updates_recipients_nnc _ _ _ _ _ _ Hfirst) in Hupd.
  - apply Updates_campaigns_no_new_completed; [no_completed_write|].
    destruct (gorm.Updates_recipients _ _ _) as [d1 e1] eqn:Hupd.
    by apply (Updates_recipients_nnc _ _ _ _ _ _ Hfirst) in Hupd.
Qed.

(** However the loop is left, it has completed no campaign. *)
Lemma send_loop_nnc (campaignID : UUID) (campaign : BulkMessageCampaign)
    (template : option Template) (account : WhatsAppAccount)
    (recipients : list BulkMessageRecipient) (i : nat)
    (l l' : queue.Local worker.State) (cnt cnt' : Z * Z) (x : worker.loop_exit)
    (d0 : gorm.DB) :
  spec.no_new_completed d0 (worker.db (queue.app l)) ->
  worker.send_loop gateway env campaignID campaign template account i l cnt recipients
    = (l', cnt', x) ->
  spec.no_new_completed d0 (worker.db (queue.app l')).
Proof.
  revert i l cnt. induction recipients as [|r rest IH]; intros i l cnt H0.
  - by intros [= <- _ _].
  - cbn [worker.send_loop].
    destruct (worker.process_recipient _ _ _ _ _ _ _ _ _ _) as [[l1 cnt1] x1] eqn:Hstep.
    apply (process_recipient_nnc _ _ _ _ _ _ _ _ _ _ _ _ H0) in Hstep.
    destruct x1 as [x1|]; [by intros [= <- _ _]|]. by apply IH.
Qed.

(** A run completes a campaign only at the end of its recipient list: a
    run that was stopped (by the context, by a pause or a cancel, by a
    panic or by a load error) has completed nothing, and a run that has
    completed a campaign has returned nil after a send to every recipient
    that was pending when it began. *)
Lemma processCampaign_completes_on_exhaustion (campaignID : UUID)
    (l : queue.Local worker.State) :
  spec.no_new_completed (worker.db (queue.app l))
    (worker.db (queue.app (fst (worker.processCampaign gateway env campaignID l)))) \/
  (snd (worker.processCampaign gateway env campaignID l) = worker.Return None /\
   spec.phones (queue.app (fst (worker.processCampaign gateway env campaignID l)))
   = spec.phones (queue.app l)
     ++ map PhoneNumber (spec.pending_recipients campaignID (worker.db (queue.app l)))).
Proof.
  pose proof (no_new_completed_refl (worker.db (queue.app l))) as H0.
  unfold worker.processCampaign.
  destruct (gorm.First_campaign_Preload_Template _ _) as [d1 [[campaign template]|e]] eqn:H1.
  2: { left. cbn. revert H1. unfold gorm.First_campaign_Preload_Template.
       destruct (gorm.First gorm.campaigns _ _) as [d [c|e0]] eqn:Hc;
         apply (First_nnc _ _ _ _ _ _ H0) in Hc; [|by intros [= <- _]].
       destruct (gorm.Find _ _ d) as [d2 [ts|e0]] eqn:Ht;
         apply (Find_nnc _ _ _ _ _ _ Hc) in Ht; by intros [= <- _]. }
  assert (spec.no_new_completed (worker.db (queue.app l)) d1) as Hd1.
  { revert H1. unfold gorm.First_campaign_Preload_Template.
    destruct (gorm.First gorm.campaigns _ _) as [d [c|e0]] eqn:Hc;
      apply (First_nnc _ _ _ _ _ _ H0) in Hc; [|discriminate].
    destruct (gorm.Find _ _ d) as [d2 [ts|e0]] eqn:Ht;
      apply (Find_nnc _ _ _ _ _ _ Hc) in Ht; by intros [= <- _]. }
  apply Preload_recipients in H1.
  destruct (_ && _); [by left|].
  cbn [worker.db worker.set_db].
  destruct (gorm.First gorm.accounts _ d1) as [d2 [account|e]] eqn:H2;
    pose proof (First_nnc _ _ _ _ _ _ Hd1 H2) as Hd2; apply First_recipients in H2.
  2: { left. cbn. apply Updates_campaigns_no_new_completed; [no_completed_write|done]. }
  cbn [worker.db worker.set_db].
  pose proof (Updates_campaigns_recipients (gorm.by_ID campaign)
                [("status", gorm.VString "processing")] d2) as H3.
  assert (spec.no_new_completed (worker.db (queue.app l))
            (fst (gorm.Updates_campaigns (gorm.by_ID campaign)
                    [("status", gorm.VString "processing")] d2))) as Hd3.
  { apply Updates_campaigns_no_new_completed; [no_completed_write|done]. }
  destruct (gorm.Find gorm.recipients _ _) as [d4 [recipients|e]] eqn:H4;
    pose proof (Find_nnc _ _ _ _ _ _ Hd3 H4) as Hd4.
  2: { left. cbn. apply Updates_campaigns_no_new_completed; [no_completed_write|done]. }
  apply Find_result in H4 as [(_ & H4 & _) ->].
  assert (gorm.recipients d4 = gorm.recipients (worker.db (queue.app l))) as Hrows
    by congruence.
  destruct (worker.send_loop _ _ _ _ _ _ _ _ _ _) as [[l1 [s f]] x] eqn:Hloop.
  destruct x.
  - right. split; [reflexivity|].
    apply send_loop_exhausted_phones in Hloop.
    cbn [fst queue.app worker.set_app worker.set_db] in *.
    unfold spec.phones in *. cbn [worker.outbox worker.set_db] in *.
    rewrite Hloop. unfold spec.pending_recipients. by rewrite Hrows.
  - left. cbn [fst]. eapply send_loop_nnc; [|exact Hloop]. exact Hd4.
  - left. cbn [fst]. eapply send_loop_nnc; [|exact Hloop]. exact Hd4.
  - left. cbn [fst]. eapply send_loop_nnc; [|exact Hloop]. exact Hd4.
Qed.

End Exhaustion.

(** An operator's pause completes nothing. *)
Lemma pause_before_completes_nothing (k : nat) :
  behaviour.completes_nothing (scenario.pause_before k).
Proof.
  intros i x. unfold scenario.pause_before. destruct (Nat.eqb i k).
  - cbn [snd]. unfold scenario.handle.
    apply (invoke_no_new_completed scenario.uuid_Parse scenario.uuid_String handlers.Pause).
  - apply no_new_completed_refl.
Qed.

Section Completed.

Context {Q : Type} {QueueQ : queue.Queue Q}.
Variable uuid_Parse : string -> option UUID.
Variable uuid_String : UUID -> string.

(** C7.  Completion is decided by the recipient list and written by the
    worker alone.
    - A worker run that finds its campaign queued or processing, with its
      account and template in place, and that is left undisturbed (the
      context is not cancelled and the campaign is not observed paused or
      cancelled, the row not deleted) sends to every recipient that was
      pending when it began and then sets the campaign to completed, with
      completed_at stamped with the time of that write, whatever the
      gateway answered to the sends.
    - Only then: while nobody else completes a campaign, a run either
      leaves no campaign completed that was not completed before, or it
      has returned nil after a send to every recipient that was pending
      when it began.  A run that stopped short of the end of its list,
      because the context was cancelled or the campaign was observed
      paused or cancelled, has therefore completed nothing.
    - The decision is taken on the recipient list alone: [processCampaign]
      has no access to the job log.
    - No API action writes the status completed: a campaign that is
      completed after a handler ran was completed before. *)
Theorem completion_is_the_workers :
  (forall (gateway : whatsapp.Call -> result string)
          (env : nat -> bool * gorm.DB -> bool * gorm.DB)
          (campaignID : UUID) (l : queue.Local worker.State)
          (c : BulkMessageCampaign) (t : Template) (account : WhatsAppAccount),
      spec.undisturbed campaignID env ->
      gorm.faults (worker.db (queue.app l)) = [] ->
      queue.ctx_done l = false ->
      List.find (fun c => bool_decide (ID c = campaignID))
        (gorm.campaigns (worker.db (queue.app l))) = Some c ->
      Status c = "queued" \/ Status c = "processing" ->
      head (List.filter (fun t => bool_decide (Template_ID t = TemplateID c))
              (gorm.templates (worker.db (queue.app l)))) = Some t ->
      List.find (fun a => bool_decide (Account_Name a = WhatsAppAccount_ c)
                          && bool_decide (Account_OrganizationID a = OrganizationID c))
        (gorm.accounts (worker.db (queue.app l))) = Some account ->
      snd (worker.processCampaign gateway env campaignID l) = worker.Return None /\
      spec.phones (queue.app (fst (worker.processCampaign gateway env campaignID l)))
        = spec.phones (queue.app l)
          ++ map PhoneNumber
               (spec.pending_recipients campaignID (worker.db (queue.app l))) /\
      spec.present campaignID
        (worker.db (queue.app (fst (worker.processCampaign gateway env campaignID l)))) /\
      forall c',
        c' ∈ gorm.campaigns
               (worker.db (queue.app (fst (worker.processCampaign gateway env campaignID l)))) ->
        ID c' = campaignID ->
        Status c' = "completed" /\
        CompletedAt c'
          = Some (worker.clock
                    (queue.app (fst (worker.processCampaign gateway env campaignID l))))) /\
  (forall (gateway : whatsapp.Call -> result string)
          (env : nat -> bool * gorm.DB -> bool * gorm.DB)
          (campaignID : UUID) (l : queue.Local worker.State),
      behaviour.completes_nothing env ->
      spec.no_new_completed (worker.db (queue.app l))
        (worker.db (queue.app (fst (worker.processCampaign gateway env campaignID l)))) \/
      (snd (worker.processCampaign gateway env campaignID l) = worker.Return None /\
       spec.phones (queue.app (fst (worker.processCampaign gateway env campaignID l)))
         = spec.phones (queue.app l)
           ++ map PhoneNumber
                (spec.pending_recipients campaignID (worker.db (queue.app l))))) /\
  (forall (act : handlers.action) (r : handlers.Request) (a : handlers.App Q),
      spec.no_new_completed (handlers.DB a)
        (handlers.DB (fst (handlers.invoke uuid_Parse uuid_String act r a)))).
Proof.
  split; [|split].
  - intros. by eapply processCampaign_undisturbed.
  - intros. by apply processCampaign_completes_on_exhaustion.
  - apply invoke_no_new_completed.
Qed.

End Completed.

(** The undisturbed run of the sample campaign sends to its five
    recipients and completes it; the run that is paused before its third
    send has sent to two and completes nothing. *)
Lemma completion_is_the_workers_witness :
  (snd (scenario.run_worker scenario.gateway scenario.alone scenario.processing_store)
     = worker.Return None /\
   spec.phones
     (queue.app (fst (scenario.run_worker scenario.gateway scenario.alone
                        scenario.processing_store)))
     = ["+1"; "+2"; "+3"; "+4"; "+5"] /\
   spec.present scenario.cid
     (scenario.db_after
        (scenario.run_worker scenario.gateway scenario.alone scenario.processing_store)) /\
   forall c',
     c' ∈ gorm.campaigns
            (scenario.db_after
               (scenario.run_worker scenario.gateway scenario.alone
                  scenario.processing_store)) ->
     ID c' = scenario.cid ->
     Status c' = "completed" /\
     CompletedAt c'
       = Some (worker.clock (queue.app (fst
                 (scenario.run_worker scenario.gateway scenario.alone
                    scenario.processing_store))))) /\
  (spec.phones (queue.app (fst samples.paused_run)) = ["+1"; "+2"] /\
   scenario.counters (scenario.db_after samples.paused_run) = [("paused", 1, 1)] /\
   spec.no_new_completed scenario.processing_store (scenario.db_after samples.paused_run)).
Proof.
  split.
  - apply (proj1 (completion_is_the_workers (Q := scenario.MemQueue)
                    scenario.uuid_Parse scenario.uuid_String)
             scenario.gateway scenario.alone scenario.cid
             (scenario.worker_on scenario.processing_store)
             (scenario.campaign "processing" 0 0) scenario.template scenario.account).
    + intros i d Hf Hr Hp. repeat split; first [exact Hf | apply Hr | exact Hp].
    + reflexivity.
    + reflexivity.
    + vm_compute. reflexivity.
    + right. reflexivity.
    + vm_compute. reflexivity.
    + vm_compute. reflexivity.
  - split; [vm_compute; reflexivity|]. split; [vm_compute; reflexivity|].
    destruct (proj1 (proj2 (completion_is_the_workers (Q := scenario.MemQueue)
                              scenario.uuid_Parse scenario.uuid_String))
                scenario.gateway (scenario.pause_before 2) scenario.cid
                (scenario.worker_on scenario.processing_store)
                (pause_before_completes_nothing 2)) as [H|[_ H]].
    + exact H.
    + vm_compute in H. discriminate H.
Defined.

(** ** Counter consistency *)

Section Counters.

Variable id : UUID.

Abbreviation count := (spec.count_recipients id).

Lemma count_cons (s : string) (r : BulkMessageRecipient) (rows : list BulkMessageRecipient) :
  count s (r :: rows) = (if spec.counts_as id s r then 1 else 0) + count s rows.
Proof.
  unfold spec.count_recipients, spec.counts_as. cbn [List.filter].
  destruct (_ && _); cbn [length]; lia.
Qed.

Lemma count_bounds (s : string) (rows : list BulkMessageRecipient) :
  0 <= count s rows <= Z.of_nat (length rows).
Proof.
  induction rows as [|r rows IH]; [done|].
  rewrite count_cons. cbn [length]. destruct (spec.counts_as id s r); lia.
Qed.

Lemma map_untouched (key : UUID) (f : BulkMessageRecipient -> BulkMessageRecipient)
    (rows : list BulkMessageRecipient) :
  key ∉ map Recipient_ID rows ->
  map (fun x => if bool_decide (Recipient_ID x = key) then f x else x) rows = rows.
Proof.
  induction rows as [|x rows IH]; [done|]. cbn [map]. intros Hnot.
  apply not_elem_of_cons in Hnot as [Hx Hrows].
  rewrite bool_decide_eq_false_2 by done. by rewrite IH.
Qed.

(** Rewriting the one row with the primary key of [r] moves [r] from the
    counts it was in to the counts its new value is in. *)
Lemma count_update (s : string) (f : BulkMessageRecipient -> BulkMessageRecipient)
    (r : BulkMessageRecipient) (rows : list BulkMessageRecipient) :
  NoDup (map Recipient_ID rows) ->
  r ∈ rows ->
  count s (map (fun x => if bool_decide (Recipient_ID x = Recipient_ID r) then f x else x) rows)
  = count s rows - (if spec.counts_as id s r then 1 else 0)
    + (if spec.counts_as id s (f r) then 1 else 0).
Proof.
  induction rows as [|x rows IH]; intros Hnodup Hin; [by apply elem_of_nil in Hin|].
  cbn [map] in *. apply NoDup_cons in Hnodup as [Hx Hnodup].
  rewrite !count_cons.
  apply elem_of_cons in Hin as [<-|Hin].
  - rewrite bool_decide_eq_true_2 by done. rewrite map_untouched by done. lia.
  - assert (Recipient_ID x <> Recipient_ID r) as Hne.
    { intros Heq. apply Hx. rewrite Heq. apply list_elem_of_In, in_map.
      by apply list_elem_of_In. }
    rewrite bool_decide_eq_false_2 by done. rewrite IH by done. lia.
Qed.

Lemma wrap_int_small (z : Z) : int_min <= z <= int_max -> wrap_int z = z.
Proof.
  unfold wrap_int, int_min, int_max. intros H.
  rewrite Z.mod_small by lia. lia.
Qed.

Lemma interfere_alone (i : nat) (l : queue.Local worker.State) :
  worker.interfere scenario.alone i l = l.
Proof. destruct l as [done [d c o]]. reflexivity. Qed.

Lemma loop_invariant_done (d : gorm.DB) (cnt : Z * Z)
    (remaining : list BulkMessageRecipient) :
  spec.loop_invariant id d cnt remaining -> spec.loop_invariant id d cnt [].
Proof.
  intros (H1 & H2 & H3 & _ & _ & H6 & H7).
  repeat split; try done; constructor.
Qed.

Lemma loop_invariant_consistent (d : gorm.DB) (cnt : Z * Z)
    (remaining : list BulkMessageRecipient) :
  spec.loop_invariant id d cnt remaining -> spec.counters_consistent id d.
Proof.
  intros (_ & _ & _ & _ & _ & -> & H7). exact H7.
Qed.

(** The invariant after the worker has written the outcome of one send:
    [g] is what it did to the row of [r], [sent'] and [failed'] are the new
    locals, written to the campaign rows. *)
Lemma loop_invariant_step (d : gorm.DB) (sent failed sent' failed' : Z)
    (r : BulkMessageRecipient) (rest : list BulkMessageRecipient)
    (g : BulkMessageRecipient -> BulkMessageRecipient) (campaign : BulkMessageCampaign) :
  ID campaign = id ->
  spec.loop_invariant id d (sent, failed) (r :: rest) ->
  (forall x, Recipient_ID (g x) = Recipient_ID x) ->
  sent' = sent + (if spec.counts_as id "sent" (g r) then 1 else 0) ->
  failed' = failed + (if spec.counts_as id "failed" (g r) then 1 else 0) ->
  spec.loop_invariant id
    (gorm.with_campaigns
       (gorm.with_recipients d
          (map (fun x => if gorm.by_Recipient_ID r x then g x else x) (gorm.recipients d)))
       (map (fun c => if gorm.by_ID campaign c
                      then gorm.set_counters c (TotalRecipients c) sent'
                             (DeliveredCount c) (ReadCount c) failed'
                      else c) (gorm.campaigns d)))
    (sent', failed') rest.
Proof.
  intros Hid (Hf & Hnodup & Hlen & Hrem & Hall & Hcnt & Hcs) Hg Hsent Hfailed.
  apply Forall_cons in Hall as [[Hr Hpending] Hall].
  cbn [map] in Hrem. apply NoDup_cons in Hrem as [Hr_rest Hrem].
  unfold spec.counts_as in Hpending. apply andb_true_iff in Hpending as [Hc Hs].
  apply bool_decide_eq_true_1 in Hc. apply bool_decide_eq_true_1 in Hs.
  assert (spec.counts_as id "sent" r = false) as Hns.
  { unfold spec.counts_as. rewrite Hs. by rewrite andb_false_r. }
  assert (spec.counts_as id "failed" r = false) as Hnf.
  { unfold spec.counts_as. rewrite Hs. by rewrite andb_false_r. }
  injection Hcnt as -> ->.
  unfold spec.loop_invariant, gorm.by_Recipient_ID.
  cbn [gorm.faults gorm.recipients gorm.campaigns gorm.with_campaigns gorm.with_recipients
       fst snd].
  split; [exact Hf|].
  split.
  { rewrite map_map. erewrite map_ext; [exact Hnodup|].
    intros x. cbn. destruct (bool_decide _); [apply Hg|reflexivity]. }
  split; [by rewrite length_map|].
  split; [exact Hrem|].
  split.
  { apply Forall_forall. intros r' Hr'.
    rewrite Forall_forall in Hall. destruct (Hall r' Hr') as [Hin' Hp'].
    split; [|exact Hp'].
    assert (Recipient_ID r' <> Recipient_ID r) as Hne.
    { intros Heq. apply Hr_rest. rewrite <- Heq. apply list_elem_of_In, in_map.
      by apply list_elem_of_In. }
    apply list_elem_of_In, in_map_iff. exists r'.
    rewrite bool_decide_eq_false_2 by done. split; [reflexivity|by apply list_elem_of_In]. }
  split.
  { rewrite !(count_update _ g r) by done. rewrite Hns, Hnf. f_equal; lia. }
  apply Forall_forall. intros c' Hc'.
  apply list_elem_of_In, in_map_iff in Hc' as (c & <- & Hin). unfold gorm.by_ID.
  rewrite Hid. destruct (bool_decide (ID c = id)) eqn:Hcid.
  - intros _. done.
  - apply bool_decide_eq_false_1 in Hcid. done.
Qed.

(** A recipient still to go is not counted yet, and counting it keeps the
    locals within the range of [int]. *)
Lemma pending_room (d : gorm.DB) (cnt : Z * Z) (r : BulkMessageRecipient)
    (rest : list BulkMessageRecipient) (s : string)
    (g : BulkMessageRecipient -> BulkMessageRecipient) :
  spec.loop_invariant id d cnt (r :: rest) ->
  spec.counts_as id s (g r) = true ->
  s <> "pending" ->
  int_add (count s (gorm.recipients d)) 1 = count s (gorm.recipients d) + 1.
Proof.
  intros (Hf & Hnodup & Hlen & Hrem & Hall & Hcnt & Hcs) Hg Hs.
  apply Forall_cons in Hall as [[Hr Hpending] _].
  assert (spec.counts_as id s r = false) as Hn.
  { unfold spec.counts_as in *. apply andb_true_iff in Hpending as [_ Hp].
    apply bool_decide_eq_true_1 in Hp. rewrite Hp.
    rewrite (bool_decide_eq_false_2 ("pending" = s)) by congruence.
    apply andb_false_r. }
  pose proof (count_update s g r (gorm.recipients d) Hnodup Hr) as Hupd.
  rewrite Hn, Hg in Hupd.
  pose proof (count_bounds s
                (map (fun x => if bool_decide (Recipient_ID x = Recipient_ID r)
                               then g x else x) (gorm.recipients d))) as Hb.
  rewrite length_map in Hb. pose proof (count_bounds s (gorm.recipients d)) as Hb0.
  unfold int_add. apply wrap_int_small. unfold int_min. lia.
Qed.

Lemma process_recipient_invariant (gateway : whatsapp.Call -> result string)
    (campaign : BulkMessageCampaign) (template : option Template)
    (account : WhatsAppAccount) (i : nat) (l l' : queue.Local worker.State)
    (cnt cnt' : Z * Z) (r : BulkMessageRecipient) (rest : list BulkMessageRecipient)
    (x : option worker.loop_exit) :
  ID campaign = id ->
  spec.loop_invariant id (worker.db (queue.app l)) cnt (r :: rest) ->
  worker.process_recipient gateway scenario.alone id campaign template account i l cnt r
    = (l', cnt', x) ->
  spec.loop_invariant id (worker.db (queue.app l')) cnt'
    (match x with None => rest | Some _ => [] end).
Proof.
  intros Hid Hinv. pose proof Hinv as (Hf & _ & _ & _ & Hall & _ & _).
  apply Forall_cons in Hall as [[_ Hpending] _].
  unfold worker.process_recipient. rewrite interfere_alone.
  destruct (queue.ctx_done l).
  { intros [= <- <- <-]. by eapply loop_invariant_done. }
  rewrite (First_healthy _ _ _ Hf).
  destruct (_ || _).
  { intros [= <- <- <-]. by eapply loop_invariant_done. }
  unfold worker.sendTemplateMessage. destruct template as [t|]; cycle 1.
  { intros [= <- <- <-]. by eapply loop_invariant_done. }
  destruct cnt as [sentCount failedCount].
  pose proof Hinv as (_ & _ & _ & _ & _ & [= -> ->] & _).
  cbn [worker.db worker.set_db worker.clock].
  assert (CampaignID r = id) as Hc.
  { unfold spec.counts_as in Hpending. apply andb_true_iff in Hpending as [Hc _].
    by apply bool_decide_eq_true_1 in Hc. }
  destruct (gateway _) as [messageID|err].
  - erewrite (Updates_recipients_healthy _ _
                (spec.mark_sent messageID (worker.clock (queue.app l))));
      [|exact Hf|intros r0 _; reflexivity].
    cbn [fst worker.db worker.set_db].
    erewrite (Updates_campaigns_healthy _ _
                (fun c => gorm.set_counters c (TotalRecipients c) _
                            (DeliveredCount c) (ReadCount c) _));
      [|exact Hf|intros c _; reflexivity].
    intros [= <- <- <-].
    cbn [fst queue.app worker.set_app worker.db worker.set_db worker.Sleep].
    assert (spec.counts_as id "sent"
              (spec.mark_sent messageID (worker.clock (queue.app l)) r) = true) as Hs.
    { unfold spec.counts_as. cbn. rewrite Hc. by rewrite !bool_decide_eq_true_2. }
    apply (loop_invariant_step _ _ _ _ _ r rest
             (spec.mark_sent messageID (worker.clock (queue.app l))) campaign Hid Hinv).
    + reflexivity.
    + rewrite Hs. by eapply pending_room.
    + unfold spec.counts_as. cbn. rewrite andb_false_r. lia.
  - erewrite (Updates_recipients_healthy _ _ (spec.mark_failed err));
      [|exact Hf|intros r0 _; reflexivity].
    cbn [fst worker.db worker.set_db].
    erewrite (Updates_campaigns_healthy _ _
                (fun c => gorm.set_counters c (TotalRecipients c) _
                            (DeliveredCount c) (ReadCount c) _));
      [|exact Hf|intros c _; reflexivity].
    intros [= <- <- <-].
    cbn [fst queue.app worker.set_app worker.db worker.set_db worker.Sleep].
    assert (spec.counts_as id "failed" (spec.mark_failed err r) = true) as Hs.
    { unfold spec.counts_as. cbn. rewrite Hc. by rewrite !bool_decide_eq_true_2. }
    apply (loop_invariant_step _ _ _ _ _ r rest (spec.mark_failed err) campaign Hid Hinv).
    + reflexivity.
    + unfold spec.counts_as. cbn. rewrite andb_false_r. lia.
    + rewrite Hs. by eapply pending_room.
Qed.

Lemma send_loop_invariant (gateway : whatsapp.Call -> result string)
    (campaign : BulkMessageCampaign) (template : option Template)
    (account : WhatsAppAccount) (recipients : list BulkMessageRecipient) (i : nat)
    (l : queue.Local worker.State) (cnt : Z * Z) :
  ID campaign = id ->
  spec.loop_invariant id (worker.db (queue.app l)) cnt recipients ->
  spec.loop_invariant id
    (worker.db (queue.app (fst (fst (worker.send_loop gateway scenario.alone id campaign
                                       template account i l cnt recipients)))))
    (snd (fst (worker.send_loop gateway scenario.alone id campaign template account i l
                 cnt recipients))) [].
Proof.
  intros Hid. revert i l cnt.
  induction recipients as [|r rest IH]; intros i l cnt Hinv; [exact Hinv|].
  cbn [worker.send_loop].
  destruct (worker.process_recipient _ _ _ _ _ _ _ _ _ _) as [[l1 cnt1] x] eqn:Hstep.
  apply (process_recipient_invariant _ _ _ _ _ _ _ _ _ _ rest _ Hid Hinv) in Hstep.
  destruct x as [x|]; [exact Hstep|]. by apply IH.
Qed.

Lemma consistent_campaigns_map (g : BulkMessageCampaign -> BulkMessageCampaign)
    (d : gorm.DB) :
  (forall c, ID (g c) = ID c /\ SentCount (g c) = SentCount c /\
             FailedCount (g c) = FailedCount c) ->
  spec.counters_consistent id d ->
  spec.counters_consistent id (gorm.with_campaigns d (map g (gorm.campaigns d))).
Proof.
  intros Hg Hcons. unfold spec.counters_consistent in *.
  cbn [gorm.campaigns gorm.recipients gorm.with_campaigns].
  apply Forall_forall. intros c' Hc'.
  apply list_elem_of_In, in_map_iff in Hc' as (c & <- & Hin).
  rewrite Forall_forall in Hcons. destruct (Hg c) as (-> & -> & ->).
  apply Hcons. by apply list_elem_of_In.
Qed.

Lemma NoDup_map_filter {A B : Type} (f : A -> B) (P : A -> bool) (l : list A) :
  NoDup (map f l) -> NoDup (map f (List.filter P l)).
Proof.
  induction l as [|x l IH]; [done|]. cbn [map List.filter]. intros Hnd.
  apply NoDup_cons in Hnd as [Hx Hnd]. destruct (P x); [|by apply IH].
  cbn [map]. apply NoDup_cons. split; [|by apply IH].
  intros Hin. apply Hx. apply list_elem_of_In, in_map_iff in Hin as (y & Hy & Hin).
  apply filter_In in Hin as [Hin _]. rewrite <- Hy. apply list_elem_of_In, in_map. done.
Qed.

(** A worker run on a healthy store that nobody else writes to keeps the
    counters of its campaign equal to the recipient counts. *)
Lemma processCampaign_consistent (gateway : whatsapp.Call -> result string)
    (l : queue.Local worker.State) :
  gorm.faults (worker.db (queue.app l)) = [] ->
  NoDup (map Recipient_ID (gorm.recipients (worker.db (queue.app l)))) ->
  Z.of_nat (length (gorm.recipients (worker.db (queue.app l)))) <= int_max ->
  spec.counters_consistent id (worker.db (queue.app l)) ->
  spec.counters_consistent id
    (worker.db (queue.app (fst (worker.processCampaign gateway scenario.alone id l)))).
Proof.
  intros Hf Hnodup Hlen Hcons.
  unfold worker.processCampaign, gorm.First_campaign_Preload_Template.
  rewrite (First_healthy _ _ _ Hf).
  destruct (List.find _ (gorm.campaigns _)) as [c|] eqn:Hfind; [|exact Hcons].
  rewrite (Find_healthy _ _ _ Hf).
  pose proof Hfind as Hc. apply find_some in Hc as [Hin Hid].
  apply bool_decide_eq_true_1 in Hid.
  destruct (_ && _); [exact Hcons|].
  cbn [worker.db worker.set_db].
  rewrite (First_healthy _ _ _ Hf).
  destruct (List.find _ (gorm.accounts _)) as [account|].
  - cbn [worker.db worker.set_db].
    erewrite (Updates_campaigns_healthy _ _ (fun c => gorm.set_Status c "processing"));
      [|exact Hf|intros c0 _; reflexivity].
    cbn [fst worker.db worker.set_db].
    rewrite Find_healthy by exact Hf.
    cbn [worker.db worker.set_db gorm.recipients gorm.with_campaigns].
    match goal with
    | |- context [worker.send_loop _ _ _ _ ?t _ ?i ?l0 ?cnt ?rs] =>
        pose proof (send_loop_invariant gateway c t account rs i l0 cnt Hid) as Hloop;
        destruct (worker.send_loop gateway scenario.alone id c t account i l0 cnt rs)
          as [[l1 [sentCount failedCount]] x]
    end.
    cbn [fst snd] in Hloop.
    assert (spec.loop_invariant id (worker.db (queue.app l1)) (sentCount, failedCount) [])
      as Hinv.
    { apply Hloop. unfold spec.loop_invariant.
      cbn [queue.app worker.set_app worker.db worker.set_db gorm.faults gorm.recipients
           gorm.campaigns gorm.with_campaigns fst snd].
      split; [exact Hf|]. split; [exact Hnodup|]. split; [exact Hlen|].
      split; [by apply NoDup_map_filter|].
      split.
      { apply Forall_forall. intros r Hr. apply list_elem_of_In, filter_In in Hr as [Hr HP].
        split; [by apply list_elem_of_In|exact HP]. }
      unfold spec.counters_consistent in Hcons. rewrite Forall_forall in Hcons.
      destruct (Hcons c (proj2 (list_elem_of_In _ _) Hin) Hid) as [Hs Hfl].
      split; [by rewrite Hs, Hfl|].
      apply Forall_forall. intros c' Hc'.
      apply list_elem_of_In, in_map_iff in Hc' as (c0 & <- & Hin0).
      rewrite Hs, Hfl. destruct (gorm.by_ID c c0); cbn; intros Hid0;
        apply (Hcons c0 (proj2 (list_elem_of_In _ _) Hin0) Hid0). }
    destruct x; cbn [fst]; try (by eapply loop_invariant_consistent).
    destruct Hinv as (Hf1 & _ & _ & _ & _ & [= -> ->] & Hcs).
    erewrite (Updates_campaigns_healthy _ _
                (fun c0 => gorm.set_times
                             (gorm.set_counters (gorm.set_Status c0 "completed")
                                (TotalRecipients c0) _ (DeliveredCount c0) (ReadCount c0) _)
                             (StartedAt c0) (Some (worker.clock (queue.app l1)))));
      [|exact Hf1|intros c0 _; reflexivity].
    cbn [fst queue.app worker.set_app worker.db worker.set_db].
    unfold spec.counters_consistent.
    cbn [gorm.campaigns gorm.recipients gorm.with_campaigns].
    apply Forall_forall. intros c' Hc'.
    apply list_elem_of_In, in_map_iff in Hc' as (c0 & <- & Hin0).
    rewrite Forall_forall in Hcs.
    destruct (gorm.by_ID c c0); [intros _; done|].
    apply (Hcs c0 (proj2 (list_elem_of_In _ _) Hin0)).
  - cbn [worker.db worker.set_db].
    erewrite (Updates_campaigns_healthy _ _ (fun c => gorm.set_Status c "failed"));
      [|exact Hf|intros c0 _; reflexivity].
    cbn [fst queue.app worker.set_app worker.db worker.set_db].
    apply consistent_campaigns_map; [|exact Hcons].
    intros c0. destruct (gorm.by_ID c c0); done.
Qed.

End Counters.

Section Recompute.

Context {Q : Type} {QueueQ : queue.Queue Q}.
Variable uuid_String : UUID -> string.

(** The recompute reads the messages table, not the recipient table. *)
Lemma recalculateCampaignStats_counts (id : UUID) (a : handlers.App Q)
    (c : BulkMessageCampaign) :
  gorm.faults (handlers.DB a) = [] ->
  c ∈ gorm.campaigns (handlers.DB (handlers.recalculateCampaignStats uuid_String id a)) ->
  ID c = id ->
  SentCount c = handlers.count_status ["sent"; "delivered"; "read"]
                  (spec.campaign_messages (uuid_String id) (handlers.DB a)) /\
  DeliveredCount c = handlers.count_status ["delivered"; "read"]
                       (spec.campaign_messages (uuid_String id) (handlers.DB a)) /\
  ReadCount c = handlers.count_status ["read"]
                  (spec.campaign_messages (uuid_String id) (handlers.DB a)) /\
  FailedCount c = handlers.count_status ["failed"]
                    (spec.campaign_messages (uuid_String id) (handlers.DB a)).
Proof.
  intros Hf. unfold handlers.recalculateCampaignStats.
  rewrite (Find_healthy _ _ _ Hf). cbn [handlers.DB handlers.set_DB].
  erewrite (Updates_campaigns_healthy _ _
              (fun c0 => gorm.set_counters c0 (TotalRecipients c0) _ _ _ _));
    [|exact Hf|intros c0 _; reflexivity].
  cbn [fst handlers.DB handlers.set_DB gorm.campaigns gorm.with_campaigns].
  intros Hc Hid. apply list_elem_of_In, in_map_iff in Hc as (c0 & <- & Hin0).
  destruct (bool_decide (ID c0 = id)) eqn:Hc0.
  - done.
  - apply bool_decide_eq_false_1 in Hc0. done.
Qed.

End Recompute.

(** X28.  The worker keeps its own books.  A run that starts where the
    stored sent_count and failed_count of its campaign equal the numbers of
    its sent and failed recipients, on a healthy store with unique
    recipient keys, with no other writer in between and with no more
    recipients than a Go int counts, ends where they are equal again,
    however the run ends. *)
Theorem processCampaign_keeps_counters_consistent
    (gateway : whatsapp.Call -> result string) (id : UUID)
    (l : queue.Local worker.State) :
  gorm.faults (worker.db (queue.app l)) = [] ->
  NoDup (map Recipient_ID (gorm.recipients (worker.db (queue.app l)))) ->
  Z.of_nat (length (gorm.recipients (worker.db (queue.app l)))) <= int_max ->
  spec.counters_consistent id (worker.db (queue.app l)) ->
  spec.counters_consistent id
    (worker.db (queue.app (fst (worker.processCampaign gateway scenario.alone id l)))).
Proof. apply processCampaign_consistent. Qed.

Lemma processCampaign_keeps_counters_consistent_witness :
  spec.counters_consistent scenario.cid
    (scenario.db_after
       (scenario.run_worker scenario.gateway scenario.alone scenario.processing_store)).
Proof.
  apply (processCampaign_keeps_counters_consistent scenario.gateway scenario.cid
           (scenario.worker_on scenario.processing_store)).
  { reflexivity. }
  { apply (bool_decide_unpack
             (NoDup (map Recipient_ID
                       (gorm.recipients
                          (worker.db (queue.app (scenario.worker_on
                                                   scenario.processing_store))))))).
    vm_compute. exact I. }
  { vm_compute. discriminate. }
  { apply Forall_cons. split; [|constructor].
    intros _. vm_compute. split; reflexivity. }
Defined.

(** C3.  The counters do not follow the recipient ledger through a retry.
    A campaign of five recipients is started and processed while the
    gateway refuses two of them; the counters are right (3 sent, 2
    failed).  Retry-failed resets the two failed recipients and then
    recomputes all counters from the messages table, which holds no
    message of the campaign (nothing in the pipeline writes one):
    sent_count drops from 3 to 0 while three recipients are sent.  The
    next worker run counts on from there, and when it has finished and
    nothing is in flight all five recipients are sent and the stored
    sent_count is 2. *)
Theorem retry_recompute_forgets_sent_recipients :
  let d1 := handlers.DB (fst (scenario.handle handlers.Start
                                (scenario.app scenario.draft_store true))) in
  let d2 := scenario.db_after (scenario.run_worker scenario.gateway scenario.alone d1) in
  let d3 := handlers.DB (fst (scenario.handle handlers.Retry (scenario.app d2 true))) in
  let d4 := scenario.db_after (scenario.run_worker scenario.gateway_up scenario.alone d3) in
  (scenario.counters d2 = [("completed", 3, 2)] /\
   spec.counters_consistentb scenario.cid d2 = true) /\
  (scenario.counters d3 = [("processing", 0, 0)] /\
   scenario.statuses d3 = ["sent"; "pending"; "sent"; "pending"; "sent"] /\
   spec.count_recipients scenario.cid "sent" (gorm.recipients d3) = 3 /\
   spec.counters_consistentb scenario.cid d3 = false) /\
  (scenario.counters d4 = [("completed", 2, 0)] /\
   scenario.statuses d4 = ["sent"; "sent"; "sent"; "sent"; "sent"] /\
   spec.count_recipients scenario.cid "sent" (gorm.recipients d4) = 5 /\
   spec.counters_consistentb scenario.cid d4 = false).
Proof. vm_compute. repeat split; reflexivity. Qed.

(** * Further properties of the pipeline *)

(** ** The consumer: how it ends, what it reclaims, and the round trip of a job *)

Lemma First_healthy_or {A : Type} (table : gorm.DB -> list A) (P : A -> bool)
    (d d' : gorm.DB) (r : result A) :
  gorm.First table P d = (d', r) ->
  gorm.faults d = [] -> d' = d /\ r = match List.find P (table d) with
                                      | Some x => Ok x
                                      | None => Err gorm.ErrRecordNotFound
                                      end.
Proof. intros H Hf. rewrite (First_healthy _ _ _ Hf) in H. by injection H as <- <-. Qed.

Section ConsumerLifecycle.

Variable json_Unmarshal : string -> result queue.CampaignJob.
Variable St : Type.
Variable consumerID : string.
Variable handler : queue.CampaignJob -> queue.Local St -> queue.Local St * option error.
Variable env : nat -> queue.World St -> queue.World St.

Lemma Consume_iter_returns (i : nat) (w w' : queue.World St) (e : error) :
  queue.Consume_iter json_Unmarshal St consumerID handler env i w = (w', Some e) ->
  e = queue.ctx_Err /\ queue.ctx_done (queue.local w') = true.
Proof.
  unfold queue.Consume_iter.
  destruct (queue.ctx_done (queue.local w)) eqn:Hdone.
  { intros [= <- <-]. done. }
  destruct (redis.XReadGroup _ _ _ _ _) as [sv [streams|err]]; [discriminate|].
  destruct (String.eqb err redis.Nil); [discriminate|].
  cbn [queue.local queue.set_server].
  destruct (queue.ctx_done (queue.local (env i w))) eqn:Hdone'; [|discriminate].
  intros [= <- <-]. done.
Qed.

Lemma Consume_loop_returns (fuel i : nat) (w w' : queue.World St) (e : error) :
  queue.Consume_loop json_Unmarshal St consumerID handler env fuel i w = Some (w', e) ->
  e = queue.ctx_Err /\ queue.ctx_done (queue.local w') = true.
Proof.
  revert i w. induction fuel as [|fuel IH]; intros i w; [discriminate|].
  cbn [queue.Consume_loop].
  destruct (queue.Consume_iter _ _ _ _ _ _ _) as [w1 [e1|]] eqn:Hiter.
  - intros [= <- <-]. by eapply Consume_iter_returns.
  - apply IH.
Qed.

(** X1.  The consumer loop has one way out: whenever [Consume] returns,
    its context is done and the error it returns is that of the context.
    No read error, handler error or empty read makes it return. *)
Theorem Consume_returns_only_when_cancelled (fuel : nat) (w w' : queue.World St)
    (e : error) :
  queue.Consume json_Unmarshal St consumerID handler env fuel w = Some (w', e) ->
  e = queue.ctx_Err /\ queue.ctx_done (queue.local w') = true.
Proof. unfold queue.Consume. apply Consume_loop_returns. Qed.

(** X2.  A consumer whose context is already done when [Consume] is called
    returns the error of the context at once: the reclaim phase and the
    first iteration leave the server and the state of the handler as they
    were. *)
Theorem Consume_cancelled_returns_at_once (fuel : nat) (w : queue.World St) :
  queue.ctx_done (queue.local w) = true ->
  queue.Consume json_Unmarshal St consumerID handler env (S fuel) w
    = Some (w, queue.ctx_Err).
Proof.
  destruct w as [sv l]. cbn [queue.local]. intros Hdone.
  unfold queue.Consume, queue.claimPendingMessages, redis.XPendingExt_, redis.command.
  cbn [queue.local queue.server]. rewrite Hdone.
  cbn [fst queue.Consume_loop queue.Consume_iter queue.set_server queue.local queue.server].
  unfold queue.Consume_iter, queue.set_server. cbn [queue.local queue.server]. by rewrite Hdone.
Qed.

End ConsumerLifecycle.

Section ReclaimThreshold.

Variable json_Unmarshal : string -> result queue.CampaignJob.
Variable St : Type.
Variable consumerID : string.
Variable handler : queue.CampaignJob -> queue.Local St -> queue.Local St * option error.

Lemma tick_spared (p : redis.pending) (now0 : Z) (sv : redis.Server) :
  behaviour.spared p now0 sv -> behaviour.spared p now0 (snd (redis.tick sv)).
Proof. unfold redis.tick. by destruct (redis.faults sv). Qed.

Lemma XAck_spared (p : redis.pending) (now0 : Z) (ctx_done : bool) (id : string)
    (sv : redis.Server) :
  id <> redis.pending_ID p ->
  behaviour.spared p now0 sv -> behaviour.spared p now0 (fst (redis.XAck ctx_done id sv)).
Proof.
  intros Hid Hsp. unfold redis.XAck, redis.command.
  destruct ctx_done; [exact Hsp|].
  apply tick_spared in Hsp. destruct (redis.tick sv) as [f sv1]. cbn [snd] in Hsp.
  destruct f; [exact Hsp|]. cbn [fst]. destruct Hsp as (Hnow & Hp & Hyoung).
  unfold behaviour.spared, redis.idle in *. cbn [redis.now redis.pel redis.with_pel].
  split; [exact Hnow|]. split.
  - apply list_elem_of_In, filter_In. split; [by apply list_elem_of_In|].
    apply negb_true_iff, String.eqb_neq. congruence.
  - intros q Hq. apply list_elem_of_In, filter_In in Hq as [Hq _].
    apply Hyoung. by apply list_elem_of_In.
Qed.

Lemma XClaim_spared (p : redis.pending) (now0 : Z) (ctx_done : bool) (ids : list string)
    (sv : redis.Server) :
  behaviour.spared p now0 sv ->
  behaviour.spared p now0 (fst (redis.XClaim ctx_done consumerID queue.ClaimMinIdleTime ids sv)) /\
  forall messages,
    snd (redis.XClaim ctx_done consumerID queue.ClaimMinIdleTime ids sv) = Ok messages ->
    Forall (fun m => redis.ID m <> redis.pending_ID p) messages.
Proof.
  intros Hsp. unfold redis.XClaim, redis.command.
  destruct ctx_done; [by split|].
  apply tick_spared in Hsp. destruct (redis.tick sv) as [f sv1]. cbn [snd] in Hsp.
  destruct f; [by split|]. cbn [fst snd]. destruct Hsp as (Hnow & Hp & Hyoung).
  assert (redis.claims sv1 queue.ClaimMinIdleTime ids p = false) as Hnot.
  { unfold redis.claims. apply andb_false_iff. right. apply Z.leb_gt. by apply Hyoung. }
  split.
  - unfold behaviour.spared, redis.idle in *. cbn [redis.now redis.pel redis.with_pel].
    split; [exact Hnow|]. split.
    + apply list_elem_of_In, in_map_iff. exists p. rewrite Hnot.
      split; [reflexivity|by apply list_elem_of_In].
    + intros q' Hq'. apply list_elem_of_In, in_map_iff in Hq' as (q & <- & Hq).
      destruct (redis.claims sv1 queue.ClaimMinIdleTime ids q) eqn:Hc.
      * cbn. intros _. unfold queue.ClaimMinIdleTime. lia.
      * apply Hyoung. by apply list_elem_of_In.
  - intros messages [= <-]. apply Forall_forall. intros m Hm Heq.
    apply list_elem_of_In, filter_In in Hm as [_ Hm].
    apply existsb_exists in Hm as (q & Hq & Hqm).
    apply filter_In in Hq as [Hq Hc]. apply String.eqb_eq in Hqm.
    unfold redis.claims in Hc. apply andb_true_iff in Hc as [_ Hc]. apply Z.leb_le in Hc.
    assert (redis.idle sv1 q < queue.ClaimMinIdleTime); [|lia].
    apply Hyoung; [by apply list_elem_of_In|congruence].
Qed.

Lemma process_and_ack_spared (p : redis.pending) (now0 : Z) (w : queue.World St)
    (msg : redis.XMessage) :
  redis.ID msg <> redis.pending_ID p ->
  behaviour.spared p now0 (queue.server w) ->
  behaviour.spared p now0
    (queue.server (queue.process_and_ack json_Unmarshal St handler w msg)).
Proof.
  intros Hid Hsp. unfold queue.process_and_ack.
  destruct (queue.processMessage _ _ _ _ _) as [l [e|]]; [exact Hsp|].
  cbn [queue.server queue.set_server queue.set_local]. by apply XAck_spared.
Qed.

Lemma process_messages_spared (p : redis.pending) (now0 : Z)
    (msgs : list redis.XMessage) (w : queue.World St) :
  Forall (fun m => redis.ID m <> redis.pending_ID p) msgs ->
  behaviour.spared p now0 (queue.server w) ->
  behaviour.spared p now0
    (queue.server (queue.process_messages json_Unmarshal St handler w msgs)).
Proof.
  unfold queue.process_messages. revert w.
  induction msgs as [|m msgs IH]; intros w Hall Hsp; [exact Hsp|].
  apply Forall_cons in Hall as [Hm Hall]. cbn [foldl].
  apply IH; [exact Hall|]. by apply process_and_ack_spared.
Qed.

(** X3.  The reclaim phase takes over stale entries only: a pending entry
    stays in the pending list, whatever else is reclaimed, handled and
    acknowledged, when every pending entry under its id has been idle for
    less than [ClaimMinIdleTime] (five minutes). *)
Theorem claimPendingMessages_spares_young_entries (w : queue.World St) (p : redis.pending) :
  p ∈ redis.pel (queue.server w) ->
  (forall q, q ∈ redis.pel (queue.server w) ->
             redis.pending_ID q = redis.pending_ID p ->
             redis.idle (queue.server w) q < queue.ClaimMinIdleTime) ->
  p ∈ redis.pel (queue.server
                   (fst (queue.claimPendingMessages json_Unmarshal St consumerID handler w))).
Proof.
  intros Hp Hyoung.
  assert (behaviour.spared p (redis.now (queue.server w)) (queue.server w)) as Hsp by done.
  revert Hsp. generalize (redis.now (queue.server w)) as now0. intros now0 Hsp.
  enough (behaviour.spared p now0
            (queue.server
               (fst (queue.claimPendingMessages json_Unmarshal St consumerID handler w))))
    as (_ & H & _) by exact H.
  unfold queue.claimPendingMessages, redis.XPendingExt_, redis.command.
  destruct (queue.ctx_done (queue.local w)) eqn:Hdone; [exact Hsp|].
  pose proof (tick_spared _ _ _ Hsp) as Hsp1.
  destruct (redis.tick (queue.server w)) as [f sv1]. cbn [snd] in Hsp1.
  destruct f; [exact Hsp1|].
  destruct (Z.of_nat _ =? 0); [exact Hsp1|]. cbn [fst].
  match goal with
  | |- context [foldl ?step (queue.set_server w sv1) ?pending] =>
      generalize pending as ps;
      assert (behaviour.spared p now0 (queue.server (queue.set_server w sv1))) as Hw by exact Hsp1;
      revert Hw; generalize (queue.set_server w sv1) as w1
  end.
  intros w1 Hw ps. revert w1 Hw.
  induction ps as [|x ps IH]; intros w1 Hw; [exact Hw|].
  cbn [foldl]. apply IH.
  destruct (XClaim_spared p now0 (queue.ctx_done (queue.local w1))
              [redis.XPendingExt_ID x] (queue.server w1) Hw) as [Hsv Hmsgs].
  destruct (redis.XClaim _ _ _ _ _) as [sv2 [messages|e]]; cbn [fst snd] in *.
  - apply process_messages_spared; [by apply Hmsgs|exact Hsv].
  - exact Hsv.
Qed.

End ReclaimThreshold.

Section RoundTrip.

Variable json_Marshal : queue.CampaignJob -> result string.
Variable json_Unmarshal : string -> result queue.CampaignJob.
Variable St : Type.
Variable consumerID : string.
Variable handler : queue.CampaignJob -> queue.Local St -> queue.Local St * option error.
Variable env : nat -> queue.World St -> queue.World St.

Lemma command_healthy {A : Type} (run : redis.Server -> redis.Server * result A)
    (s : redis.Server) :
  redis.faults s = [] -> redis.command false run s = run s.
Proof. intros Hf. unfold redis.command, redis.tick. by rewrite Hf. Qed.

(** X4.  Round trip of a campaign job.  On a healthy server with nothing
    undelivered, the job [EnqueueCampaign] appends is the one the next
    iteration of [Consume] reads: the handler is called with the campaign
    id that was enqueued, and when it succeeds the entry is acknowledged,
    so that the pending list is what it was before the enqueue and
    nothing is left undelivered. *)
Theorem enqueued_campaign_is_consumed_and_acknowledged (i : nat) (campaignID : UUID)
    (w : queue.World St) (payload : string) (l' : queue.Local St) :
  redis.faults (queue.server w) = [] ->
  queue.ctx_done (queue.local w) = false ->
  redis.delivered (queue.server w) = length (redis.stream (queue.server w)) ->
  (Sprintf_d (redis.now (queue.server w)) ++ "-"
     ++ Sprintf_d (redis.next_seq (queue.server w)))%string
    ∉ spec.pending_ids (queue.server w) ->
  json_Marshal {| queue.CampaignID := campaignID;
                  queue.EnqueuedAt := redis.now (queue.server w) |} = Ok payload ->
  json_Unmarshal payload = Ok {| queue.CampaignID := campaignID;
                                 queue.EnqueuedAt := redis.now (queue.server w) |} ->
  handler {| queue.CampaignID := campaignID;
             queue.EnqueuedAt := redis.now (queue.server w) |} (queue.local w) = (l', None) ->
  queue.ctx_done l' = false ->
  (forall w0, env i w0 = w0) ->
  exists sv sv',
    queue.EnqueueCampaign json_Marshal false campaignID (queue.server w) = (sv, None) /\
    queue.Consume_iter json_Unmarshal St consumerID handler env i (queue.set_server w sv)
      = ({| queue.server := sv'; queue.local := l' |}, None) /\
    redis.pel sv' = redis.pel (queue.server w) /\
    redis.delivered sv' = length (redis.stream sv') /\
    length (redis.stream sv') = S (length (redis.stream (queue.server w))).
Proof.
  destruct w as [s l]. cbn [queue.server queue.local].
  intros Hf Hdone Hdel Hfresh Hm Hu Hh Hdone' Henv.
  unfold queue.EnqueueCampaign. rewrite Hm.
  unfold redis.XAdd. rewrite (command_healthy _ _ Hf).
  eexists _, _. split; [reflexivity|].
  unfold queue.Consume_iter, queue.set_server. cbn [queue.local queue.server].
  rewrite Hdone, Henv. cbn [queue.local queue.server]. rewrite Hdone.
  unfold redis.XReadGroup. rewrite command_healthy by exact Hf.
  cbn [redis.stream redis.delivered redis.now redis.pel].
  rewrite Hdel, drop_app_length.
  change (Z.to_nat 1) with 1%nat. cbn [take map length foldl redis.Messages].
  unfold queue.process_messages. cbn [foldl].
  unfold queue.process_and_ack, queue.processMessage.
  cbn [redis.Values redis.ID queue.local queue.server queue.set_local queue.set_server].
  rewrite lookup_insert_eq.
  change (String.eqb queue.JobTypeCampaign queue.JobTypeCampaign) with true. cbn [negb].
  rewrite lookup_insert_ne by done. rewrite lookup_insert_eq.
  rewrite Hu, Hh. cbn [queue.local queue.server queue.set_local queue.set_server].
  rewrite Hdone'. unfold redis.XAck. rewrite command_healthy by exact Hf.
  cbn [fst redis.with_pel redis.pel redis.delivered redis.stream redis.faults redis.now
       redis.next_seq].
  split; [reflexivity|].
  cbn [redis.with_pel redis.pel redis.delivered redis.stream].
  split; [|split].
  - rewrite List.filter_app. cbn [List.filter redis.pending_ID].
    rewrite String.eqb_refl. cbn [negb]. rewrite app_nil_r.
    apply forallb_filter_id, forallb_forall. intros p Hp.
    apply negb_true_iff, String.eqb_neq. intros Heq. apply Hfresh.
    unfold spec.pending_ids. rewrite <- Heq. apply list_elem_of_In, in_map. exact Hp.
  - rewrite length_app. cbn [length]. lia.
  - rewrite length_app. cbn [length]. lia.
Qed.

End RoundTrip.

(** Runs of the theorems above on the sample deployment. *)

Lemma Consume_returns_only_when_cancelled_witness :
  exists w',
    queue.Consume scenario.json_Unmarshal nat "worker-host-1" scenario.counting_handler
      (samples.shutdown_at 2) 5 samples.idle_world = Some (w', queue.ctx_Err) /\
    queue.ctx_done (queue.local w') = true.
Proof.
  eexists. split; [vm_compute; reflexivity|].
  refine (proj2 (Consume_returns_only_when_cancelled scenario.json_Unmarshal nat
                   "worker-host-1" scenario.counting_handler (samples.shutdown_at 2) 5
                   samples.idle_world _ queue.ctx_Err _)).
  vm_compute. reflexivity.
Defined.

Lemma Consume_cancelled_returns_at_once_witness :
  queue.Consume scenario.json_Unmarshal nat "worker-host-1" scenario.counting_handler
    scenario.quiet 1 samples.cancelled_world
  = Some (samples.cancelled_world, queue.ctx_Err).
Proof.
  apply (Consume_cancelled_returns_at_once scenario.json_Unmarshal nat "worker-host-1"
           scenario.counting_handler scenario.quiet 0 samples.cancelled_world).
  reflexivity.
Defined.

Lemma claimPendingMessages_spares_young_entries_witness :
  samples.young_entry ∈
    redis.pel (queue.server
                 (fst (queue.claimPendingMessages scenario.json_Unmarshal nat "worker-host-1"
                         scenario.counting_handler samples.mixed_world))) /\
  spec.pending_ids (queue.server
                      (fst (queue.claimPendingMessages scenario.json_Unmarshal nat
                              "worker-host-1" scenario.counting_handler samples.mixed_world)))
    = ["1699999940000-0"].
Proof.
  split; [|vm_compute; reflexivity].
  apply (claimPendingMessages_spares_young_entries scenario.json_Unmarshal nat
           "worker-host-1" scenario.counting_handler samples.mixed_world samples.young_entry).
  - right. left.
  - intros q Hq Hid. apply elem_of_cons in Hq as [-> | Hq].
    + vm_compute in Hid. discriminate.
    + apply elem_of_cons in Hq as [-> | Hq]; [vm_compute; reflexivity|].
      by apply elem_of_nil in Hq.
Defined.

Lemma enqueued_campaign_is_consumed_and_acknowledged_witness :
  exists sv sv',
    queue.EnqueueCampaign scenario.json_Marshal false scenario.cid
      (queue.server samples.idle_world) = (sv, None) /\
    queue.Consume_iter scenario.json_Unmarshal nat "worker-host-1" scenario.counting_handler
      scenario.quiet 0 (queue.set_server samples.idle_world sv)
      = ({| queue.server := sv';
            queue.local := {| queue.ctx_done := false; queue.app := 1%nat |} |},
         None) /\
    redis.pel sv' = redis.pel (queue.server samples.idle_world) /\
    redis.delivered sv' = length (redis.stream sv') /\
    length (redis.stream sv') = S (length (redis.stream (queue.server samples.idle_world))).
Proof.
  apply (enqueued_campaign_is_consumed_and_acknowledged scenario.json_Marshal
           scenario.json_Unmarshal nat "worker-host-1" scenario.counting_handler
           scenario.quiet 0 scenario.cid samples.idle_world
           (scenario.json_text scenario.campaign_job)
           {| queue.ctx_done := false; queue.app := 1%nat |}).
  - reflexivity.
  - reflexivity.
  - reflexivity.
  - apply not_elem_of_nil.
  - reflexivity.
  - vm_compute. reflexivity.
  - reflexivity.
  - reflexivity.
  - intros w0. reflexivity.
Defined.

(** ** The worker: runs that do not send *)

Section WorkerGuards.

Variable gateway : whatsapp.Call -> result string.
Variable env : nat -> bool * gorm.DB -> bool * gorm.DB.

Lemma set_app_same (l : queue.Local worker.State) :
  worker.set_app l (worker.set_db (queue.app l) (worker.db (queue.app l))) = l.
Proof. by destruct l as [done [d c o]]. Qed.

Lemma Preload_rows (P : BulkMessageCampaign -> bool) (d : gorm.DB) :
  spec.same_rows d (fst (gorm.First_campaign_Preload_Template P d)).
Proof.
  unfold gorm.First_campaign_Preload_Template.
  pose proof (First_rows gorm.campaigns P d) as H1.
  destruct (gorm.First gorm.campaigns P d) as [d1 [c|e]]; [|exact H1].
  cbn [fst] in H1.
  pose proof (Find_rows gorm.templates
                (fun t => bool_decide (Template_ID t = TemplateID c)) d1) as H2.
  destruct (gorm.Find _ _ d1) as [d2 [ts|e]]; cbn [fst] in *;
    by eapply same_rows_trans.
Qed.

Lemma Preload_result (P : BulkMessageCampaign -> bool) (d d' : gorm.DB)
    (c : BulkMessageCampaign) (t : option Template) :
  gorm.First_campaign_Preload_Template P d = (d', Ok (c, t)) ->
  List.find P (gorm.campaigns d) = Some c.
Proof.
  unfold gorm.First_campaign_Preload_Template, gorm.First.
  destruct (gorm.tick d) as [f d1] eqn:Htick.
  pose proof (tick_campaigns d) as Hc. rewrite Htick in Hc. cbn [snd] in Hc.
  destruct f; [discriminate|]. rewrite Hc.
  destruct (List.find P (gorm.campaigns d)) as [c0|]; [|discriminate].
  destruct (gorm.Find _ _ _) as [d2 [ts|e]]; [|discriminate].
  by intros [= _ -> _].
Qed.

(** X5.  A job for a campaign that is neither queued nor processing is
    skipped: nothing is sent and no row changes, and on a healthy store
    the run returns nil with the state as it was. *)
Theorem processCampaign_skips_other_states (campaignID : UUID)
    (l : queue.Local worker.State) (c : BulkMessageCampaign) :
  List.find (fun c => bool_decide (ID c = campaignID))
    (gorm.campaigns (worker.db (queue.app l))) = Some c ->
  Status c <> "queued" ->
  Status c <> "processing" ->
  spec.same_rows (worker.db (queue.app l))
    (worker.db (queue.app (fst (worker.processCampaign gateway env campaignID l)))) /\
  worker.outbox (queue.app (fst (worker.processCampaign gateway env campaignID l)))
    = worker.outbox (queue.app l) /\
  (snd (worker.processCampaign gateway env campaignID l) = worker.Return None \/
   snd (worker.processCampaign gateway env campaignID l)
     = worker.Return (Some "failed to load campaign: statement failed")) /\
  (gorm.faults (worker.db (queue.app l)) = [] ->
   worker.processCampaign gateway env campaignID l = (l, worker.Return None)).
Proof.
  intros Hfind Hq Hp. unfold worker.processCampaign.
  pose proof (Preload_rows (fun c => bool_decide (ID c = campaignID))
                (worker.db (queue.app l))) as Hrows.
  destruct (gorm.First_campaign_Preload_Template _ _) as [d [[c0 t]|e]] eqn:Hload;
    cbn [fst] in Hrows.
  - apply Preload_result in Hload as Hc0. rewrite Hfind in Hc0. injection Hc0 as <-.
    apply String.eqb_neq in Hq, Hp. rewrite Hq, Hp. cbn [negb andb fst snd].
    cbn [queue.app worker.set_app worker.db worker.set_db worker.outbox].
    repeat split; try apply Hrows; [by left|].
    intros Hf. revert Hload. unfold gorm.First_campaign_Preload_Template.
    rewrite (First_healthy _ _ _ Hf), Hfind, (Find_healthy _ _ _ Hf).
    intros [= <- _]. by rewrite set_app_same.
  - cbn [fst snd queue.app worker.set_app worker.db worker.set_db worker.outbox].
    repeat split; try apply Hrows.
    + right. revert Hload. unfold gorm.First_campaign_Preload_Template, gorm.First.
      destruct (gorm.tick _) as [f d1] eqn:Htick.
      pose proof (tick_campaigns (worker.db (queue.app l))) as Hc.
      rewrite Htick in Hc. cbn [snd] in Hc.
      destruct f; [by intros [= _ <-]|]. rewrite Hc, Hfind.
      unfold gorm.Find. destruct (gorm.tick d1) as [[] d2]; [by intros [= _ <-]|discriminate].
    + intros Hf. revert Hload. unfold gorm.First_campaign_Preload_Template.
      by rewrite (First_healthy _ _ _ Hf), Hfind, (Find_healthy _ _ _ Hf).
Qed.

(** X6.  A job for a campaign that is not in the store fails with the load
    error (record not found on a healthy store); nothing is sent or
    written. *)
Theorem processCampaign_unknown_campaign (campaignID : UUID)
    (l : queue.Local worker.State) :
  List.find (fun c => bool_decide (ID c = campaignID))
    (gorm.campaigns (worker.db (queue.app l))) = None ->
  spec.same_rows (worker.db (queue.app l))
    (worker.db (queue.app (fst (worker.processCampaign gateway env campaignID l)))) /\
  worker.outbox (queue.app (fst (worker.processCampaign gateway env campaignID l)))
    = worker.outbox (queue.app l) /\
  (snd (worker.processCampaign gateway env campaignID l)
     = worker.Return (Some "failed to load campaign: record not found") \/
   snd (worker.processCampaign gateway env campaignID l)
     = worker.Return (Some "failed to load campaign: statement failed")) /\
  (gorm.faults (worker.db (queue.app l)) = [] ->
   worker.processCampaign gateway env campaignID l
     = (l, worker.Return (Some "failed to load campaign: record not found"))).
Proof.
  intros Hfind. unfold worker.processCampaign.
  pose proof (Preload_rows (fun c => bool_decide (ID c = campaignID))
                (worker.db (queue.app l))) as Hrows.
  destruct (gorm.First_campaign_Preload_Template _ _) as [d [[c0 t]|e]] eqn:Hload;
    cbn [fst] in Hrows.
  - apply Preload_result in Hload. congruence.
  - cbn [fst snd queue.app worker.set_app worker.db worker.set_db worker.outbox].
    repeat split; try apply Hrows.
    + revert Hload. unfold gorm.First_campaign_Preload_Template, gorm.First.
      destruct (gorm.tick _) as [f d1] eqn:Htick.
      pose proof (tick_campaigns (worker.db (queue.app l))) as Hc.
      rewrite Htick in Hc. cbn [snd] in Hc.
      destruct f; [by intros [= _ <-]; right|]. rewrite Hc, Hfind.
      intros [= _ <-]. by left.
    + intros Hf. revert Hload. unfold gorm.First_campaign_Preload_Template.
      rewrite (First_healthy _ _ _ Hf), Hfind. intros [= <- <-]. by rewrite set_app_same.
Qed.

End WorkerGuards.

Section WorkerRuns.

Variable gateway : whatsapp.Call -> result string.
Variable env : nat -> bool * gorm.DB -> bool * gorm.DB.

Lemma find_map_preserving {A : Type} (P : A -> bool) (g : A -> A) (rows : list A) :
  (forall x, P (g x) = P x) ->
  List.find P (map g rows) = option_map g (List.find P rows).
Proof.
  intros Hg. induction rows as [|x rows IH]; [done|].
  cbn [map List.find]. rewrite Hg. by destruct (P x).
Qed.

Lemma by_ID_refl (c : BulkMessageCampaign) : gorm.by_ID c c = true.
Proof. unfold gorm.by_ID. by apply bool_decide_eq_true_2. Qed.

(** [processCampaign] on a healthy store, up to the send loop. *)
Lemma processCampaign_loaded (campaignID : UUID) (l : queue.Local worker.State)
    (c : BulkMessageCampaign) (account : WhatsAppAccount) :
  gorm.faults (worker.db (queue.app l)) = [] ->
  List.find (fun c => bool_decide (ID c = campaignID))
    (gorm.campaigns (worker.db (queue.app l))) = Some c ->
  Status c = "queued" \/ Status c = "processing" ->
  List.find (fun a => bool_decide (Account_Name a = WhatsAppAccount_ c)
                      && bool_decide (Account_OrganizationID a = OrganizationID c))
    (gorm.accounts (worker.db (queue.app l))) = Some account ->
  worker.processCampaign gateway env campaignID l =
    match worker.send_loop gateway env campaignID c
            (head (List.filter (fun t => bool_decide (Template_ID t = TemplateID c))
                     (gorm.templates (worker.db (queue.app l)))))
            account 0%nat
            (worker.set_app l (worker.set_db (queue.app l)
                                 (behaviour.entered c (worker.db (queue.app l)))))
            (SentCount c, FailedCount c)
            (spec.pending_recipients campaignID (worker.db (queue.app l))) with
    | (l, _, worker.Cancelled) => (l, worker.Return (Some queue.ctx_Err))
    | (l, _, worker.Stopped) => (l, worker.Return None)
    | (l, _, worker.Panicked) =>
        (l, worker.Panic "runtime error: invalid memory address or nil pointer dereference")
    | (l, (sentCount, failedCount), worker.Exhausted) =>
        (worker.set_app l
           (worker.set_db (queue.app l)
              (fst (gorm.Updates_campaigns (gorm.by_ID c)
                      [("status", gorm.VString "completed");
                       ("completed_at", gorm.VTime (worker.clock (queue.app l)));
                       ("sent_count", gorm.VInt sentCount);
                       ("failed_count", gorm.VInt failedCount)]
                      (worker.db (queue.app l))))),
         worker.Return None)
    end.
Proof.
  intros Hf Hfind Hstatus Hacc.
  unfold worker.processCampaign, gorm.First_campaign_Preload_Template.
  rewrite (First_healthy _ _ _ Hf), Hfind, (Find_healthy _ _ _ Hf).
  assert (negb (String.eqb (Status c) "queued") && negb (String.eqb (Status c) "processing")
          = false) as ->.
  { destruct Hstatus as [-> | ->]; reflexivity. }
  cbn [worker.db worker.set_db].
  rewrite (First_healthy _ _ _ Hf), Hacc. cbn [worker.db worker.set_db].
  erewrite (Updates_campaigns_healthy _ _ (fun row => gorm.set_Status row "processing"));
    [|exact Hf|intros c0 _; reflexivity].
  cbn [fst worker.db worker.set_db].
  rewrite Find_healthy by exact Hf.
  cbn [worker.db worker.set_db gorm.recipients gorm.with_campaigns].
  reflexivity.
Qed.

(** X7.  When the WhatsApp account of a campaign that is due cannot be
    found in its organization, the campaign is set to failed and the load
    error is returned; nothing is sent and no recipient is touched, the
    processing status never being written. *)
Theorem processCampaign_without_account (campaignID : UUID)
    (l : queue.Local worker.State) (c : BulkMessageCampaign) :
  gorm.faults (worker.db (queue.app l)) = [] ->
  List.find (fun c => bool_decide (ID c = campaignID))
    (gorm.campaigns (worker.db (queue.app l))) = Some c ->
  Status c = "queued" \/ Status c = "processing" ->
  List.find (fun a => bool_decide (Account_Name a = WhatsAppAccount_ c)
                      && bool_decide (Account_OrganizationID a = OrganizationID c))
    (gorm.accounts (worker.db (queue.app l))) = None ->
  worker.processCampaign gateway env campaignID l =
    (worker.set_app l
       (worker.set_db (queue.app l)
          (gorm.with_campaigns (worker.db (queue.app l))
             (map (fun row => if gorm.by_ID c row
                              then gorm.set_Status row "failed" else row)
                  (gorm.campaigns (worker.db (queue.app l)))))),
     worker.Return (Some "failed to load WhatsApp account: record not found")).
Proof.
  intros Hf Hfind Hstatus Hacc.
  unfold worker.processCampaign, gorm.First_campaign_Preload_Template.
  rewrite (First_healthy _ _ _ Hf), Hfind, (Find_healthy _ _ _ Hf).
  assert (negb (String.eqb (Status c) "queued") && negb (String.eqb (Status c) "processing")
          = false) as ->.
  { destruct Hstatus as [-> | ->]; reflexivity. }
  cbn [worker.db worker.set_db].
  rewrite (First_healthy _ _ _ Hf), Hacc. cbn [worker.db worker.set_db].
  erewrite (Updates_campaigns_healthy _ _ (fun row => gorm.set_Status row "failed"));
    [|exact Hf|intros c0 _; reflexivity].
  reflexivity.
Qed.

(** X8.  A run that finds no pending recipient completes the campaign at
    once with the counters it was loaded with, sends nothing and writes no
    recipient, even when the context is already done or the template is
    missing: the context and the template are looked at only inside the
    loop. *)
Theorem processCampaign_nothing_pending (campaignID : UUID)
    (l : queue.Local worker.State) (c : BulkMessageCampaign) (account : WhatsAppAccount) :
  gorm.faults (worker.db (queue.app l)) = [] ->
  List.find (fun c => bool_decide (ID c = campaignID))
    (gorm.campaigns (worker.db (queue.app l))) = Some c ->
  Status c = "queued" \/ Status c = "processing" ->
  List.find (fun a => bool_decide (Account_Name a = WhatsAppAccount_ c)
                      && bool_decide (Account_OrganizationID a = OrganizationID c))
    (gorm.accounts (worker.db (queue.app l))) = Some account ->
  spec.pending_recipients campaignID (worker.db (queue.app l)) = [] ->
  snd (worker.processCampaign gateway env campaignID l) = worker.Return None /\
  worker.outbox (queue.app (fst (worker.processCampaign gateway env campaignID l)))
    = worker.outbox (queue.app l) /\
  gorm.recipients (worker.db (queue.app (fst (worker.processCampaign gateway env campaignID l))))
    = gorm.recipients (worker.db (queue.app l)) /\
  Forall2 (fun row row' =>
             if gorm.by_ID c row
             then ID row' = campaignID /\ Status row' = "completed" /\
                  CompletedAt row' = Some (worker.clock (queue.app l)) /\
                  SentCount row' = SentCount c /\ FailedCount row' = FailedCount c /\
                  DeliveredCount row' = DeliveredCount row /\ ReadCount row' = ReadCount row
             else row' = row)
    (gorm.campaigns (worker.db (queue.app l)))
    (gorm.campaigns
       (worker.db (queue.app (fst (worker.processCampaign gateway env campaignID l))))).
Proof.
  intros Hf Hfind Hstatus Hacc Hnone.
  rewrite (processCampaign_loaded campaignID l c account Hf Hfind Hstatus Hacc).
  rewrite Hnone. cbn [worker.send_loop].
  cbn [fst snd queue.app worker.set_app worker.db worker.set_db worker.outbox worker.clock].
  erewrite (Updates_campaigns_healthy _ _
              (fun c0 => gorm.set_times
                           (gorm.set_counters (gorm.set_Status c0 "completed")
                              (TotalRecipients c0) _ (DeliveredCount c0) (ReadCount c0) _)
                           (StartedAt c0) (Some (worker.clock (queue.app l)))));
    [|exact Hf|intros c0 _; reflexivity].
  cbn [fst]. unfold behaviour.entered.
  cbn [gorm.campaigns gorm.recipients gorm.with_campaigns].
  repeat split; try reflexivity.
  apply find_some in Hfind as [_ Hid]. apply bool_decide_eq_true_1 in Hid.
  rewrite map_map. apply Forall2_fmap_r, Forall_Forall2_diag, Forall_forall.
  intros row _. unfold compose. destruct (gorm.by_ID c row) eqn:Hrow.
  - change (gorm.by_ID c (gorm.set_Status row "processing")) with (gorm.by_ID c row).
    rewrite Hrow. apply bool_decide_eq_true_1 in Hrow. cbn. by rewrite Hrow.
  - by rewrite Hrow.
Qed.

(** X9.  A missing template is no error of the load: the preload leaves
    [campaign.Template] nil.  When the template of the campaign is not in
    the store and a recipient is pending, the first send evaluates
    [template.Name] on the nil pointer and the run panics with the
    runtime error of a nil pointer dereference.  Nothing is sent, no
    recipient is touched, and the campaign is left in processing. *)
Theorem processCampaign_without_template_panics (campaignID : UUID)
    (l : queue.Local worker.State) (c : BulkMessageCampaign) (account : WhatsAppAccount)
    (r : BulkMessageRecipient) (rest : list BulkMessageRecipient) :
  gorm.faults (worker.db (queue.app l)) = [] ->
  queue.ctx_done l = false ->
  (forall x, env 0%nat x = x) ->
  List.find (fun c => bool_decide (ID c = campaignID))
    (gorm.campaigns (worker.db (queue.app l))) = Some c ->
  Status c = "queued" \/ Status c = "processing" ->
  List.find (fun a => bool_decide (Account_Name a = WhatsAppAccount_ c)
                      && bool_decide (Account_OrganizationID a = OrganizationID c))
    (gorm.accounts (worker.db (queue.app l))) = Some account ->
  List.filter (fun t => bool_decide (Template_ID t = TemplateID c))
    (gorm.templates (worker.db (queue.app l))) = [] ->
  spec.pending_recipients campaignID (worker.db (queue.app l)) = r :: rest ->
  worker.processCampaign gateway env campaignID l =
    (worker.set_app l
       (worker.set_db (queue.app l)
          (gorm.with_campaigns (worker.db (queue.app l))
             (map (fun row => if gorm.by_ID c row
                              then gorm.set_Status row "processing" else row)
                  (gorm.campaigns (worker.db (queue.app l)))))),
     worker.Panic "runtime error: invalid memory address or nil pointer dereference").
Proof.
  destruct l as [done [d clk out]]. cbn [queue.ctx_done queue.app worker.db].
  intros Hf -> Henv Hfind Hstatus Hacc Htpl Hpending.
  rewrite (processCampaign_loaded campaignID
             {| queue.ctx_done := false;
                queue.app := {| worker.db := d; worker.clock := clk; worker.outbox := out |} |}
             c account Hf Hfind Hstatus Hacc).
  cbn [queue.ctx_done queue.app worker.db].
  rewrite Htpl, Hpending. cbn [head worker.send_loop].
  unfold worker.process_recipient, worker.interfere. rewrite Henv.
  cbn [queue.ctx_done queue.app worker.set_app worker.db worker.set_db fst snd].
  pose proof Hfind as Hc. apply find_some in Hc as [_ Hid].
  apply bool_decide_eq_true_1 in Hid.
  rewrite First_healthy by exact Hf. unfold behaviour.entered at 1 2.
  cbn [gorm.campaigns gorm.with_campaigns].
  rewrite find_map_preserving, Hfind by (intros x; by destruct (gorm.by_ID c x)).
  cbn [option_map]. rewrite by_ID_refl.
  cbn [Status gorm.set_Status]. cbn [String.eqb Ascii.eqb Bool.eqb orb].
  unfold worker.sendTemplateMessage.
  cbn [worker.set_app worker.set_db worker.db queue.app queue.ctx_done].
  reflexivity.
Qed.

End WorkerRuns.

(** ** The worker: what a run sends and writes *)

Section WorkerSends.

Variable gateway : whatsapp.Call -> result string.
Variable env : nat -> bool * gorm.DB -> bool * gorm.DB.

(** One turn that goes on to the next recipient has made the gateway call
    of its recipient and written the answer to the rows with the
    recipient's key. *)
Lemma process_recipient_sends (campaignID : UUID) (campaign : BulkMessageCampaign)
    (t : Template) (account : WhatsAppAccount) (i : nat)
    (l l' : queue.Local worker.State) (cnt cnt' : Z * Z) (r : BulkMessageRecipient)
    (x : option worker.loop_exit) :
  worker.process_recipient gateway env campaignID campaign (Some t) account i l cnt r
    = (l', cnt', x) ->
  x <> Some worker.Exhausted /\
  (x <> None -> worker.outbox (queue.app l') = worker.outbox (queue.app l)) /\
  (x = None ->
   worker.outbox (queue.app l')
     = worker.outbox (queue.app l) ++ [behaviour.template_call account t r] /\
   (gorm.faults (worker.db (queue.app (worker.interfere env i l))) = [] ->
    gorm.recipients (worker.db (queue.app l'))
    = map (fun row =>
             if gorm.by_Recipient_ID r row then
               match gateway (behaviour.template_call account t r) with
               | Ok messageID => spec.mark_sent messageID (worker.clock (queue.app l)) row
               | Err err => spec.mark_failed err row
               end
             else row)
          (gorm.recipients (worker.db (queue.app (worker.interfere env i l)))))).
Proof.
  unfold worker.process_recipient.
  destruct (interfere_outbox env i l) as [Hout Hclock]. revert Hout Hclock.
  generalize (worker.interfere env i l). intros l0 Hout Hclock.
  destruct (queue.ctx_done l0).
  { intros [= <- <- <-]. repeat split; try done. }
  destruct (gorm.First _ _ _) as [d cur] eqn:Hfirst.
  destruct (_ || _).
  { intros [= <- <- <-]. repeat split; try done. }
  unfold worker.sendTemplateMessage.
  fold (behaviour.template_call account t r).
  destruct cnt as [sentCount failedCount].
  cbn [worker.db worker.set_db worker.clock worker.outbox].
  pose proof (First_healthy_or _ _ _ _ _ Hfirst) as Hd.
  destruct (gateway (behaviour.template_call account t r)) as [messageID|err];
    intros [= <- <- <-]; (split; [done|]); (split; [done|]); intros _;
    cbn [queue.app worker.set_app worker.Sleep worker.outbox worker.db worker.set_db];
    (split; [by rewrite Hout|]); intros Hf;
    rewrite Updates_campaigns_recipients; cbn [worker.db worker.set_db];
    destruct (Hd Hf) as [-> _].
  - erewrite (Updates_recipients_healthy _ _
                (spec.mark_sent messageID (worker.clock (queue.app l0))));
      [|exact Hf|intros r0 _; reflexivity].
    cbn [fst gorm.recipients gorm.with_recipients]. by rewrite Hclock.
  - erewrite (Updates_recipients_healthy _ _ (spec.mark_failed err));
      [|exact Hf|intros r0 _; reflexivity].
    reflexivity.
Qed.

End WorkerSends.

Section WorkerSettles.

Variable gateway : whatsapp.Call -> result string.
Variable env : nat -> bool * gorm.DB -> bool * gorm.DB.
Variable campaignID : UUID.
Hypothesis Henv : spec.undisturbed campaignID env.

Lemma send_loop_exhausted_outbox (campaign : BulkMessageCampaign) (t : Template)
    (account : WhatsAppAccount) (recipients : list BulkMessageRecipient) (i : nat)
    (l l' : queue.Local worker.State) (cnt cnt' : Z * Z) :
  worker.send_loop gateway env campaignID campaign (Some t) account i l cnt recipients
    = (l', cnt', worker.Exhausted) ->
  worker.outbox (queue.app l')
    = worker.outbox (queue.app l) ++ map (behaviour.template_call account t) recipients.
Proof.
  revert i l cnt. induction recipients as [|r rest IH]; intros i l cnt.
  - intros [= <- _]. cbn. by rewrite app_nil_r.
  - cbn [worker.send_loop].
    destruct (worker.process_recipient _ _ _ _ _ _ _ _ _ _) as [[l1 cnt1] x] eqn:Hstep.
    apply process_recipient_sends in Hstep as (Hx & _ & Hnone).
    destruct x as [x|].
    + intros [= _ _ ->]. done.
    + intros Hloop. apply IH in Hloop. destruct (Hnone eq_refl) as [Hout _].
      rewrite Hloop, Hout. cbn [map]. by rewrite <- app_assoc.
Qed.

Lemma processCampaign_undisturbed_outbox (l : queue.Local worker.State)
    (c : BulkMessageCampaign) (t : Template) (account : WhatsAppAccount) :
  gorm.faults (worker.db (queue.app l)) = [] ->
  queue.ctx_done l = false ->
  List.find (fun c => bool_decide (ID c = campaignID))
    (gorm.campaigns (worker.db (queue.app l))) = Some c ->
  Status c = "queued" \/ Status c = "processing" ->
  head (List.filter (fun t => bool_decide (Template_ID t = TemplateID c))
          (gorm.templates (worker.db (queue.app l)))) = Some t ->
  List.find (fun a => bool_decide (Account_Name a = WhatsAppAccount_ c)
                      && bool_decide (Account_OrganizationID a = OrganizationID c))
    (gorm.accounts (worker.db (queue.app l))) = Some account ->
  worker.outbox (queue.app (fst (worker.processCampaign gateway env campaignID l)))
  = worker.outbox (queue.app l)
    ++ map (behaviour.template_call account t)
         (spec.pending_recipients campaignID (worker.db (queue.app l))).
Proof.
  intros Hf Hctx Hfind Hstatus Htemplate Haccount.
  pose proof (find_ID _ _ _ Hfind) as Hid.
  rewrite (processCampaign_loaded gateway env campaignID l c account Hf Hfind Hstatus Haccount).
  rewrite Htemplate.
  match goal with
  | |- context [worker.send_loop _ _ _ _ _ _ ?i ?l0 ?cnt ?rs] =>
      destruct (send_loop_undisturbed gateway env campaignID Henv c t account rs i l0 cnt Hid)
        as (l1 & cnt1 & Hloop & Hf1 & Hp1)
  end.
  - exact Hf.
  - exact Hctx.
  - cbn [queue.app worker.set_app worker.db worker.set_db]. unfold behaviour.entered.
    unfold gorm.by_ID. rewrite Hid. unfold spec.running.
    destruct (observed_status_set campaignID "processing" (worker.db (queue.app l)))
      as [-> | ->]; done.
  - cbn [queue.app worker.set_app worker.db worker.set_db].
    eapply present_map with (d := worker.db (queue.app l)); [|reflexivity|].
    + intros c0. cbn. destruct (gorm.by_ID c c0); done.
    + exists c. split; [|exact Hid].
      apply find_some in Hfind as [Hin _]. by apply list_elem_of_In.
  - rewrite Hloop. apply send_loop_exhausted_outbox in Hloop.
    destruct cnt1 as [sentCount failedCount].
    cbn [fst queue.app worker.set_app worker.db worker.set_db worker.outbox].
    rewrite Hloop. reflexivity.
Qed.

(** X10.  An undisturbed run on a healthy store makes exactly one gateway
    call for every recipient of the campaign that was pending when it
    began, in the order of the table, each with the credentials of the
    account, the name and language of the template and the parameters of
    that recipient. *)
Theorem processCampaign_sends_to_every_pending_once (l : queue.Local worker.State)
    (c : BulkMessageCampaign) (t : Template) (account : WhatsAppAccount) :
  gorm.faults (worker.db (queue.app l)) = [] ->
  queue.ctx_done l = false ->
  List.find (fun c => bool_decide (ID c = campaignID))
    (gorm.campaigns (worker.db (queue.app l))) = Some c ->
  Status c = "queued" \/ Status c = "processing" ->
  head (List.filter (fun t => bool_decide (Template_ID t = TemplateID c))
          (gorm.templates (worker.db (queue.app l)))) = Some t ->
  List.find (fun a => bool_decide (Account_Name a = WhatsAppAccount_ c)
                      && bool_decide (Account_OrganizationID a = OrganizationID c))
    (gorm.accounts (worker.db (queue.app l))) = Some account ->
  worker.outbox (queue.app (fst (worker.processCampaign gateway env campaignID l)))
  = worker.outbox (queue.app l)
    ++ map (behaviour.template_call account t)
         (spec.pending_recipients campaignID (worker.db (queue.app l))).
Proof. apply processCampaign_undisturbed_outbox. Qed.

Hypothesis Hrec : behaviour.leaves_recipients env.

Lemma interfere_recipients (i : nat) (l : queue.Local worker.State) :
  gorm.recipients (worker.db (queue.app (worker.interfere env i l)))
  = gorm.recipients (worker.db (queue.app l)).
Proof.
  unfold worker.interfere.
  pose proof (Hrec i (queue.ctx_done l, worker.db (queue.app l))) as H.
  destruct (env i _) as [done d]. exact H.
Qed.

Lemma interfere_undisturbed (i : nat) (l : queue.Local worker.State) :
  gorm.faults (worker.db (queue.app l)) = [] ->
  queue.ctx_done l = false ->
  spec.running campaignID (worker.db (queue.app l)) ->
  spec.present campaignID (worker.db (queue.app l)) ->
  gorm.faults (worker.db (queue.app (worker.interfere env i l))) = [].
Proof.
  intros Hf Hctx Hrun Hp. unfold worker.interfere. rewrite Hctx.
  destruct (Henv i _ Hf Hrun Hp) as (_ & H & _).
  destruct (env i _) as [done d]. exact H.
Qed.

Lemma settled_ID (account : WhatsAppAccount) (t : Template) (r r' : BulkMessageRecipient) :
  behaviour.settled gateway campaignID account t r r' -> Recipient_ID r' = Recipient_ID r.
Proof.
  unfold behaviour.settled. destruct (spec.counts_as _ _ _); [|by intros ->].
  destruct (gateway _); [by intros [now ->]|by intros ->].
Qed.

Lemma in_progress_ID (account : WhatsAppAccount) (t : Template)
    (remaining : list BulkMessageRecipient) (r r' : BulkMessageRecipient) :
  behaviour.in_progress gateway campaignID account t remaining r r' ->
  Recipient_ID r' = Recipient_ID r.
Proof.
  unfold behaviour.in_progress. destruct (bool_decide _); [by intros ->|apply settled_ID].
Qed.

Lemma Forall2_impl_elem {A B : Type} (P Q : A -> B -> Prop) (xs : list A) (ys : list B) :
  Forall2 P xs ys ->
  (forall x y, x ∈ xs -> P x y -> Q x y) ->
  Forall2 Q xs ys.
Proof.
  induction 1 as [|x y xs ys Hxy Hrest IH]; intros Himp; constructor.
  - apply Himp; [by left|exact Hxy].
  - apply IH. intros x0 y0 Hx0. apply Himp. by right.
Qed.

Lemma NoDup_ID_eq (rows : list BulkMessageRecipient) (r1 r2 : BulkMessageRecipient) :
  NoDup (map Recipient_ID rows) -> r1 ∈ rows -> r2 ∈ rows ->
  Recipient_ID r1 = Recipient_ID r2 -> r1 = r2.
Proof.
  induction rows as [|x rows IH]; intros Hnd H1 H2 Heq; [by apply elem_of_nil in H1|].
  cbn [map] in Hnd. apply NoDup_cons in Hnd as [Hx Hnd].
  assert (forall r, r ∈ rows -> Recipient_ID r <> Recipient_ID x) as Hne.
  { intros r Hr Hrx. apply Hx. rewrite <- Hrx. apply list_elem_of_In, in_map.
    by apply list_elem_of_In. }
  apply elem_of_cons in H1 as [->|H1]; apply elem_of_cons in H2 as [->|H2].
  - reflexivity.
  - exfalso. by apply (Hne r2).
  - exfalso. by apply (Hne r1).
  - by apply IH.
Qed.

(** One turn of the loop moves its recipient from the rows still to go to
    the rows that carry the answer of the gateway. *)
Lemma in_progress_step (account : WhatsAppAccount) (t : Template) (clock : Time)
    (initial : list BulkMessageRecipient) (r0 : BulkMessageRecipient)
    (rest : list BulkMessageRecipient) (rows : list BulkMessageRecipient) :
  NoDup (map Recipient_ID initial) ->
  NoDup (map Recipient_ID (r0 :: rest)) ->
  r0 ∈ initial ->
  spec.counts_as campaignID "pending" r0 = true ->
  Forall2 (behaviour.in_progress gateway campaignID account t (r0 :: rest)) initial rows ->
  Forall2 (behaviour.in_progress gateway campaignID account t rest) initial
    (map (fun row =>
            if gorm.by_Recipient_ID r0 row then
              match gateway (behaviour.template_call account t r0) with
              | Ok messageID => spec.mark_sent messageID clock row
              | Err err => spec.mark_failed err row
              end
            else row) rows).
Proof.
  intros Hnd Hrem Hr0 Hpending Hall.
  cbn [map] in Hrem. apply NoDup_cons in Hrem as [Hr0_rest _].
  apply Forall2_fmap_r. eapply Forall2_impl_elem; [exact Hall|].
  intros r r' Hr Hprog. unfold compose.
  pose proof (in_progress_ID _ _ _ _ _ Hprog) as HID.
  unfold gorm.by_Recipient_ID. rewrite HID.
  destruct (decide (Recipient_ID r = Recipient_ID r0)) as [Heq|Hne].
  - rewrite bool_decide_eq_true_2 by exact Heq.
    assert (r = r0) as -> by (by eapply NoDup_ID_eq).
    unfold behaviour.in_progress in Hprog.
    rewrite bool_decide_eq_true_2 in Hprog by (cbn [map]; by left).
    subst r'. unfold behaviour.in_progress.
    rewrite bool_decide_eq_false_2 by exact Hr0_rest.
    unfold behaviour.settled. rewrite Hpending.
    destruct (gateway _); [by eexists|reflexivity].
  - rewrite bool_decide_eq_false_2 by exact Hne.
    unfold behaviour.in_progress in *. cbn [map] in Hprog.
    destruct (decide (Recipient_ID r ∈ map Recipient_ID rest)) as [Hin|Hnin].
    + rewrite bool_decide_eq_true_2 by exact Hin.
      rewrite bool_decide_eq_true_2 in Hprog by (by right). exact Hprog.
    + rewrite bool_decide_eq_false_2 by exact Hnin.
      rewrite bool_decide_eq_false_2 in Hprog; [exact Hprog|].
      intros [Heq|Hin]%elem_of_cons; done.
Qed.

Lemma send_loop_settles (campaign : BulkMessageCampaign) (t : Template)
    (account : WhatsAppAccount) (initial recipients : list BulkMessageRecipient) (i : nat)
    (l : queue.Local worker.State) (cnt : Z * Z) :
  ID campaign = campaignID ->
  gorm.faults (worker.db (queue.app l)) = [] ->
  queue.ctx_done l = false ->
  spec.running campaignID (worker.db (queue.app l)) ->
  spec.present campaignID (worker.db (queue.app l)) ->
  NoDup (map Recipient_ID initial) ->
  NoDup (map Recipient_ID recipients) ->
  Forall (fun r => r ∈ initial /\ spec.counts_as campaignID "pending" r = true) recipients ->
  Forall2 (behaviour.in_progress gateway campaignID account t recipients) initial
    (gorm.recipients (worker.db (queue.app l))) ->
  exists l' cnt',
    worker.send_loop gateway env campaignID campaign (Some t) account i l cnt recipients
      = (l', cnt', worker.Exhausted) /\
    gorm.faults (worker.db (queue.app l')) = [] /\
    Forall2 (behaviour.settled gateway campaignID account t) initial
      (gorm.recipients (worker.db (queue.app l'))).
Proof.
  intros Hid. revert i l cnt.
  induction recipients as [|r rest IH]; intros i l cnt Hf Hctx Hrun Hp Hnd Hrem Hall Hprog.
  - exists l, cnt. split; [reflexivity|]. split; [exact Hf|].
    eapply Forall2_impl; [exact Hprog|]. intros x y. unfold behaviour.in_progress.
    cbn [map]. rewrite bool_decide_eq_false_2; [done|]. apply not_elem_of_nil.
  - cbn [worker.send_loop].
    destruct (process_recipient_undisturbed gateway env campaignID Henv campaign t account
                i l cnt r Hid Hf Hctx Hrun Hp) as (l1 & cnt1 & Hstep & Hf1 & Hctx1 & Hrun1 & Hp1).
    rewrite Hstep.
    apply process_recipient_sends in Hstep as (_ & _ & Hnone).
    destruct (Hnone eq_refl) as [_ Hrows].
    rewrite interfere_recipients in Hrows.
    specialize (Hrows (interfere_undisturbed i l Hf Hctx Hrun Hp)).
    apply Forall_cons in Hall as [[Hr Hpending] Hall].
    apply (IH (S i) l1 cnt1 Hf1 Hctx1 Hrun1 Hp1 Hnd).
    + cbn [map] in Hrem. by apply NoDup_cons in Hrem as [_ Hrem].
    + exact Hall.
    + rewrite Hrows. by apply in_progress_step.
Qed.

(** X11.  An undisturbed run on a healthy store with unique recipient
    keys settles every recipient of the campaign that was pending when it
    began: its row is sent with the message id the gateway gave, or failed
    with the error the gateway gave.  All other rows of the recipient
    table are as they were. *)
Theorem processCampaign_settles_every_pending (l : queue.Local worker.State)
    (c : BulkMessageCampaign) (t : Template) (account : WhatsAppAccount) :
  gorm.faults (worker.db (queue.app l)) = [] ->
  queue.ctx_done l = false ->
  NoDup (map Recipient_ID (gorm.recipients (worker.db (queue.app l)))) ->
  List.find (fun c => bool_decide (ID c = campaignID))
    (gorm.campaigns (worker.db (queue.app l))) = Some c ->
  Status c = "queued" \/ Status c = "processing" ->
  head (List.filter (fun t => bool_decide (Template_ID t = TemplateID c))
          (gorm.templates (worker.db (queue.app l)))) = Some t ->
  List.find (fun a => bool_decide (Account_Name a = WhatsAppAccount_ c)
                      && bool_decide (Account_OrganizationID a = OrganizationID c))
    (gorm.accounts (worker.db (queue.app l))) = Some account ->
  Forall2 (behaviour.settled gateway campaignID account t)
    (gorm.recipients (worker.db (queue.app l)))
    (gorm.recipients
       (worker.db (queue.app (fst (worker.processCampaign gateway env campaignID l))))).
Proof.
  intros Hf Hctx Hnd Hfind Hstatus Htemplate Haccount.
  pose proof (find_ID _ _ _ Hfind) as Hid.
  rewrite (processCampaign_loaded gateway env campaignID l c account Hf Hfind Hstatus Haccount).
  rewrite Htemplate.
  match goal with
  | |- context [worker.send_loop _ _ _ _ _ _ ?i ?l0 ?cnt ?rs] =>
      destruct (send_loop_settles c t account
                  (gorm.recipients (worker.db (queue.app l))) rs i l0 cnt Hid)
        as (l1 & cnt1 & Hloop & Hf1 & Hdone)
  end.
  - exact Hf.
  - exact Hctx.
  - cbn [queue.app worker.set_app worker.db worker.set_db]. unfold behaviour.entered.
    unfold gorm.by_ID. rewrite Hid. unfold spec.running.
    destruct (observed_status_set campaignID "processing" (worker.db (queue.app l)))
      as [-> | ->]; done.
  - cbn [queue.app worker.set_app worker.db worker.set_db].
    eapply present_map with (d := worker.db (queue.app l)); [|reflexivity|].
    + intros c0. cbn. destruct (gorm.by_ID c c0); done.
    + exists c. split; [|exact Hid].
      apply find_some in Hfind as [Hin _]. by apply list_elem_of_In.
  - exact Hnd.
  - by apply NoDup_map_filter.
  - apply Forall_forall. intros r Hr.
    apply list_elem_of_In, filter_In in Hr as [Hr HP].
    split; [by apply list_elem_of_In|exact HP].
  - cbn [queue.app worker.set_app worker.db worker.set_db].
    unfold behaviour.entered. cbn [gorm.recipients gorm.with_campaigns].
    apply Forall_Forall2_diag, Forall_forall. intros r Hr.
    unfold behaviour.in_progress.
    destruct (bool_decide _) eqn:Hin; [reflexivity|].
    apply bool_decide_eq_false_1 in Hin.
    unfold behaviour.settled.
    destruct (spec.counts_as campaignID "pending" r) eqn:HP; [|reflexivity].
    exfalso. apply Hin. apply list_elem_of_In, in_map, filter_In.
    split; [by apply list_elem_of_In|exact HP].
  - rewrite Hloop. destruct cnt1 as [sentCount failedCount].
    cbn [fst queue.app worker.set_app worker.db worker.set_db].
    rewrite Updates_campaigns_recipients. exact Hdone.
Qed.

End WorkerSettles.

Section WorkerResumes.

Variable gateway : whatsapp.Call -> result string.
Variable campaignID : UUID.

Lemma Updates_campaigns_faults (P : BulkMessageCampaign -> bool) (a : gorm.assignments)
    (d : gorm.DB) :
  gorm.faults d = [] -> gorm.faults (fst (gorm.Updates_campaigns P a d)) = [].
Proof.
  intros Hf. unfold gorm.Updates_campaigns. rewrite (tick_healthy _ Hf).
  by destruct (gorm.update_where _ _ _).
Qed.

Section FirstRun.

Variable env : nat -> bool * gorm.DB -> bool * gorm.DB.
Hypothesis Hkeep : behaviour.keeps_healthy env.
Hypothesis Hrec : behaviour.leaves_recipients env.

Lemma interfere_keeps (i : nat) (l : queue.Local worker.State) :
  gorm.faults (worker.db (queue.app l)) = [] ->
  gorm.faults (worker.db (queue.app (worker.interfere env i l))) = [] /\
  gorm.recipients (worker.db (queue.app (worker.interfere env i l)))
    = gorm.recipients (worker.db (queue.app l)).
Proof.
  intros Hf. unfold worker.interfere.
  pose proof (Hkeep i (queue.ctx_done l, worker.db (queue.app l)) Hf) as H1.
  pose proof (Hrec i (queue.ctx_done l, worker.db (queue.app l))) as H2.
  destruct (env i _) as [done d]. by split.
Qed.

(** One turn of the loop on a healthy store. *)
Lemma process_recipient_turn (campaign : BulkMessageCampaign) (t : Template)
    (account : WhatsAppAccount) (i : nat) (l l' : queue.Local worker.State)
    (cnt cnt' : Z * Z) (r : BulkMessageRecipient) (x : option worker.loop_exit) :
  gorm.faults (worker.db (queue.app l)) = [] ->
  worker.process_recipient gateway env campaignID campaign (Some t) account i l cnt r
    = (l', cnt', x) ->
  gorm.faults (worker.db (queue.app l')) = [] /\
  match x with
  | None =>
      worker.outbox (queue.app l')
        = worker.outbox (queue.app l) ++ [behaviour.template_call account t r] /\
      gorm.recipients (worker.db (queue.app l'))
        = map (fun row =>
                 if gorm.by_Recipient_ID r row then
                   match gateway (behaviour.template_call account t r) with
                   | Ok messageID => spec.mark_sent messageID (worker.clock (queue.app l)) row
                   | Err err => spec.mark_failed err row
                   end
                 else row)
              (gorm.recipients (worker.db (queue.app l)))
  | Some _ =>
      worker.outbox (queue.app l') = worker.outbox (queue.app l) /\
      gorm.recipients (worker.db (queue.app l')) = gorm.recipients (worker.db (queue.app l))
  end.
Proof.
  intros Hf Hstep.
  destruct (interfere_keeps i l Hf) as [Hf0 Hrows0].
  pose proof (process_recipient_sends gateway env campaignID campaign t account i l l'
                cnt cnt' r x Hstep) as (_ & _ & Hnone).
  destruct x as [x|].
  - clear Hnone. revert Hstep. unfold worker.process_recipient.
    destruct (interfere_outbox env i l) as [Hout _]. revert Hout Hf0 Hrows0.
    generalize (worker.interfere env i l). intros l0 Hout Hf0 Hrows0.
    destruct (queue.ctx_done l0).
    { intros [= <- _ _]. done. }
    rewrite (First_healthy _ _ _ Hf0).
    destruct (_ || _).
    { intros [= <- _ _]. done. }
    unfold worker.sendTemplateMessage. destruct cnt as [sentCount failedCount].
    destruct (gateway _); discriminate.
  - destruct (Hnone eq_refl) as [Hout Hrows]. specialize (Hrows Hf0).
    rewrite Hrows0 in Hrows. split; [|by split].
    revert Hstep. unfold worker.process_recipient.
    revert Hf0. generalize (worker.interfere env i l). intros l0 Hf0.
    destruct (queue.ctx_done l0); [discriminate|].
    rewrite (First_healthy _ _ _ Hf0).
    destruct (_ || _); [discriminate|].
    unfold worker.sendTemplateMessage. destruct cnt as [sentCount failedCount].
    cbn [worker.db worker.set_db].
    destruct (gateway _); intros [= <- _];
      cbn [queue.app worker.set_app worker.Sleep worker.db worker.set_db];
      apply Updates_campaigns_faults;
      unfold gorm.Updates_recipients; rewrite (tick_healthy _ Hf0);
      by destruct (gorm.update_where _ _ _).
Qed.

(** The send loop has sent to the first [k] of its recipients and settled
    them; the others are as they were. *)
Lemma send_loop_progress (campaign : BulkMessageCampaign) (t : Template)
    (account : WhatsAppAccount) (initial recipients : list BulkMessageRecipient) (i : nat)
    (l : queue.Local worker.State) (cnt : Z * Z) :
  gorm.faults (worker.db (queue.app l)) = [] ->
  NoDup (map Recipient_ID initial) ->
  NoDup (map Recipient_ID recipients) ->
  Forall (fun r => r ∈ initial /\ spec.counts_as campaignID "pending" r = true) recipients ->
  Forall2 (behaviour.in_progress gateway campaignID account t recipients) initial
    (gorm.recipients (worker.db (queue.app l))) ->
  exists k,
    worker.outbox (queue.app (fst (fst (worker.send_loop gateway env campaignID campaign
                                         (Some t) account i l cnt recipients))))
      = worker.outbox (queue.app l)
        ++ map (behaviour.template_call account t) (take k recipients) /\
    Forall2 (behaviour.in_progress gateway campaignID account t (drop k recipients)) initial
      (gorm.recipients
         (worker.db (queue.app (fst (fst (worker.send_loop gateway env campaignID campaign
                                            (Some t) account i l cnt recipients)))))) /\
    gorm.faults (worker.db (queue.app (fst (fst (worker.send_loop gateway env campaignID
                                                  campaign (Some t) account i l cnt
                                                  recipients))))) = [].
Proof.
  revert i l cnt.
  induction recipients as [|r rest IH]; intros i l cnt Hf Hnd Hrem Hall Hprog.
  - exists 0%nat. cbn [worker.send_loop fst take drop map]. by rewrite app_nil_r.
  - cbn [worker.send_loop].
    destruct (worker.process_recipient _ _ _ _ _ _ _ _ _ _) as [[l1 cnt1] x] eqn:Hstep.
    apply process_recipient_turn in Hstep as [Hf1 Hturn]; [|exact Hf].
    destruct x as [x|].
    + destruct Hturn as [Hout Hrows]. exists 0%nat.
      cbn [fst take drop map]. rewrite Hout, Hrows, app_nil_r. done.
    + destruct Hturn as [Hout Hrows].
      apply Forall_cons in Hall as [[Hr Hpending] Hall].
      destruct (IH (S i) l1 cnt1 Hf1 Hnd) as (k & Hk1 & Hk2 & Hk3).
      * cbn [map] in Hrem. by apply NoDup_cons in Hrem as [_ Hrem].
      * exact Hall.
      * rewrite Hrows. by apply in_progress_step.
      * exists (S k). cbn [take drop map]. rewrite Hk1, Hout, <- app_assoc. done.
Qed.

(** The same for a whole run of [processCampaign]. *)
Lemma processCampaign_progress (l : queue.Local worker.State) (c : BulkMessageCampaign)
    (t : Template) (account : WhatsAppAccount) :
  gorm.faults (worker.db (queue.app l)) = [] ->
  NoDup (map Recipient_ID (gorm.recipients (worker.db (queue.app l)))) ->
  List.find (fun c => bool_decide (ID c = campaignID))
    (gorm.campaigns (worker.db (queue.app l))) = Some c ->
  Status c = "queued" \/ Status c = "processing" ->
  head (List.filter (fun t => bool_decide (Template_ID t = TemplateID c))
          (gorm.templates (worker.db (queue.app l)))) = Some t ->
  List.find (fun a => bool_decide (Account_Name a = WhatsAppAccount_ c)
                      && bool_decide (Account_OrganizationID a = OrganizationID c))
    (gorm.accounts (worker.db (queue.app l))) = Some account ->
  exists k,
    worker.outbox (queue.app (fst (worker.processCampaign gateway env campaignID l)))
      = worker.outbox (queue.app l)
        ++ map (behaviour.template_call account t)
             (take k (spec.pending_recipients campaignID (worker.db (queue.app l)))) /\
    Forall2 (behaviour.in_progress gateway campaignID account t
               (drop k (spec.pending_recipients campaignID (worker.db (queue.app l)))))
      (gorm.recipients (worker.db (queue.app l)))
      (gorm.recipients
         (worker.db (queue.app (fst (worker.processCampaign gateway env campaignID l))))) /\
    gorm.faults
      (worker.db (queue.app (fst (worker.processCampaign gateway env campaignID l)))) = [].
Proof.
  intros Hf Hnd Hfind Hstatus Htemplate Haccount.
  rewrite (processCampaign_loaded gateway env campaignID l c account Hf Hfind Hstatus Haccount).
  rewrite Htemplate.
  match goal with
  | |- context [worker.send_loop _ _ _ _ _ _ ?i ?l0 ?cnt ?rs] =>
      destruct (send_loop_progress c t account
                  (gorm.recipients (worker.db (queue.app l))) rs i l0 cnt)
        as (k & Hout & Hprog & Hf1)
  end.
  - exact Hf.
  - exact Hnd.
  - by apply NoDup_map_filter.
  - apply Forall_forall. intros r Hr.
    apply list_elem_of_In, filter_In in Hr as [Hr HP].
    split; [by apply list_elem_of_In|exact HP].
  - cbn [queue.app worker.set_app worker.db worker.set_db].
    unfold behaviour.entered. cbn [gorm.recipients gorm.with_campaigns].
    apply Forall_Forall2_diag, Forall_forall. intros r Hr.
    unfold behaviour.in_progress.
    destruct (bool_decide _) eqn:Hin; [reflexivity|].
    apply bool_decide_eq_false_1 in Hin.
    unfold behaviour.settled.
    destruct (spec.counts_as campaignID "pending" r) eqn:HP; [|reflexivity].
    exfalso. apply Hin. apply list_elem_of_In, in_map, filter_In.
    split; [by apply list_elem_of_In|exact HP].
  - exists k. revert Hout Hprog Hf1.
    destruct (worker.send_loop _ _ _ _ _ _ _ _ _ _) as [[l1 [sentCount failedCount]] x].
    cbn [fst queue.app worker.set_app worker.db worker.set_db worker.outbox].
    intros Hout Hprog Hf1.
    destruct x; cbn [fst queue.app worker.set_app worker.db worker.set_db worker.outbox];
      try done.
    rewrite Updates_campaigns_recipients. split; [exact Hout|]. split; [exact Hprog|].
    by apply Updates_campaigns_faults.
Qed.

End FirstRun.

Lemma settled_not_pending (account : WhatsAppAccount) (t : Template)
    (r r' : BulkMessageRecipient) :
  spec.counts_as campaignID "pending" r = true ->
  behaviour.settled gateway campaignID account t r r' ->
  spec.counts_as campaignID "pending" r' = false.
Proof.
  intros HP. unfold behaviour.settled. rewrite HP.
  destruct (gateway _); [intros [now ->]|intros ->];
    unfold spec.counts_as; cbn; apply andb_false_r.
Qed.

Lemma filter_filter_sub {A : Type} (P Q0 : A -> bool) (l : list A) :
  (forall x, In x l -> Q0 x = true -> P x = true) ->
  List.filter Q0 (List.filter P l) = List.filter Q0 l.
Proof.
  induction l as [|x l IH]; intros Hsub; [done|]. cbn [List.filter].
  destruct (P x) eqn:HP.
  - cbn [List.filter]. destruct (Q0 x); rewrite IH; try done;
      intros y Hy; apply Hsub; by right.
  - destruct (Q0 x) eqn:HQ.
    + rewrite (Hsub x) in HP; [discriminate|by left|exact HQ].
    + apply IH. intros y Hy. apply Hsub. by right.
Qed.

Lemma filter_none {A : Type} (P : A -> bool) (l : list A) :
  (forall x, In x l -> P x = false) -> List.filter P l = [].
Proof.
  induction l as [|x l IH]; intros H; [done|]. cbn [List.filter].
  rewrite (H x) by (by left). apply IH. intros y Hy. apply H. by right.
Qed.

Lemma filter_all {A : Type} (P : A -> bool) (l : list A) :
  (forall x, In x l -> P x = true) -> List.filter P l = l.
Proof.
  induction l as [|x l IH]; intros H; [done|]. cbn [List.filter].
  rewrite (H x) by (by left). f_equal. apply IH. intros y Hy. apply H. by right.
Qed.

Lemma filter_in_progress (account : WhatsAppAccount) (t : Template)
    (remaining initial rows : list BulkMessageRecipient) :
  (forall r, r ∈ initial ->
             Recipient_ID r ∈ map Recipient_ID remaining ->
             spec.counts_as campaignID "pending" r = true) ->
  Forall2 (behaviour.in_progress gateway campaignID account t remaining) initial rows ->
  List.filter (spec.counts_as campaignID "pending") rows
  = List.filter (fun r => bool_decide (Recipient_ID r ∈ map Recipient_ID remaining)) initial.
Proof.
  intros Hsub Hprog. induction Hprog as [|r r' initial rows Hr Hrest IH]; [done|].
  cbn [List.filter]. rewrite IH by (intros r0 Hr0; apply Hsub; by right).
  unfold behaviour.in_progress in Hr.
  destruct (bool_decide (Recipient_ID r ∈ map Recipient_ID remaining)) eqn:Hq.
  - subst r'. rewrite (Hsub r); [reflexivity|by left|by apply bool_decide_eq_true_1 in Hq].
  - destruct (spec.counts_as campaignID "pending" r) eqn:HP.
    + by rewrite (settled_not_pending account t r r' HP Hr).
    + unfold behaviour.settled in Hr. rewrite HP in Hr. subst r'. by rewrite HP.
Qed.

(** The recipients a run has not reached are the pending recipients of
    the store it leaves. *)
Lemma pending_after_progress (account : WhatsAppAccount) (t : Template) (k : nat)
    (initial rows : list BulkMessageRecipient) :
  NoDup (map Recipient_ID initial) ->
  Forall2 (behaviour.in_progress gateway campaignID account t
             (drop k (List.filter (spec.counts_as campaignID "pending") initial)))
    initial rows ->
  List.filter (spec.counts_as campaignID "pending") rows
  = drop k (List.filter (spec.counts_as campaignID "pending") initial).
Proof.
  intros Hnd Hprog.
  assert (forall r,
             r ∈ List.filter (spec.counts_as campaignID "pending") initial ->
             r ∈ initial /\ spec.counts_as campaignID "pending" r = true) as HF.
  { intros r Hr. apply list_elem_of_In, filter_In in Hr as [Hr HP].
    split; [by apply list_elem_of_In|exact HP]. }
  assert (NoDup (map Recipient_ID
                   (List.filter (spec.counts_as campaignID "pending") initial)))
    as HndF by (by apply NoDup_map_filter).
  rewrite <- (take_drop k (List.filter (spec.counts_as campaignID "pending") initial))
    in HndF.
  rewrite map_app in HndF.
  apply NoDup_app in HndF as (_ & Hdisj & _).
  assert (forall r,
             r ∈ drop k (List.filter (spec.counts_as campaignID "pending") initial) ->
             r ∈ List.filter (spec.counts_as campaignID "pending") initial) as Hrem_F.
  { intros r Hr.
    rewrite <- (take_drop k (List.filter (spec.counts_as campaignID "pending") initial)).
    apply elem_of_app. by right. }
  assert (forall r,
             r ∈ initial ->
             Recipient_ID r
               ∈ map Recipient_ID
                   (drop k (List.filter (spec.counts_as campaignID "pending") initial)) ->
             r ∈ drop k (List.filter (spec.counts_as campaignID "pending") initial)) as HQ.
  { intros r Hr HQ. apply list_elem_of_In, in_map_iff in HQ as (r0 & Hid & Hr0).
    apply list_elem_of_In in Hr0.
    assert (r0 = r) as <-; [|exact Hr0].
    eapply NoDup_ID_eq; [exact Hnd| |exact Hr|exact Hid].
    by apply HF, Hrem_F. }
  rewrite (filter_in_progress account t
             (drop k (List.filter (spec.counts_as campaignID "pending") initial))
             initial rows);
    [|intros r Hr Hq; by apply HF, Hrem_F, HQ|exact Hprog].
  rewrite <- (filter_filter_sub (spec.counts_as campaignID "pending")); cycle 1.
  { intros r Hr Hq. apply bool_decide_eq_true_1 in Hq.
    by apply HF, Hrem_F, HQ; [apply list_elem_of_In|]. }
  rewrite <- (take_drop k (List.filter (spec.counts_as campaignID "pending") initial))
    at 1.
  rewrite List.filter_app, filter_none, filter_all; [reflexivity| |].
  - intros r Hr. apply bool_decide_eq_true_2, list_elem_of_In, in_map. exact Hr.
  - intros r Hr. apply bool_decide_eq_false_2. intros Hin.
    apply (Hdisj (Recipient_ID r)); [|exact Hin].
    apply list_elem_of_In, in_map. exact Hr.
Qed.

(** X12.  A run that was interrupted and a later run that goes through
    never send to the same recipient twice.  The first run may end in any
    way: by the context, or because an operator paused the campaign.  What
    happens before the second run (a start that lifts the pause, for one)
    may change the campaign but leaves the recipient table as the first
    run left it.  Then the first run has sent to the first [k] of the
    recipients that were pending when it began, and the second sends to
    the others, each in the order of the table. *)
Theorem interrupted_run_is_resumed_without_repeats
    (env1 env2 : nat -> bool * gorm.DB -> bool * gorm.DB)
    (l l2 : queue.Local worker.State) (c c2 : BulkMessageCampaign)
    (t : Template) (account : WhatsAppAccount) :
  behaviour.keeps_healthy env1 ->
  behaviour.leaves_recipients env1 ->
  spec.undisturbed campaignID env2 ->
  gorm.faults (worker.db (queue.app l)) = [] ->
  NoDup (map Recipient_ID (gorm.recipients (worker.db (queue.app l)))) ->
  List.find (fun c => bool_decide (ID c = campaignID))
    (gorm.campaigns (worker.db (queue.app l))) = Some c ->
  Status c = "queued" \/ Status c = "processing" ->
  head (List.filter (fun t => bool_decide (Template_ID t = TemplateID c))
          (gorm.templates (worker.db (queue.app l)))) = Some t ->
  List.find (fun a => bool_decide (Account_Name a = WhatsAppAccount_ c)
                      && bool_decide (Account_OrganizationID a = OrganizationID c))
    (gorm.accounts (worker.db (queue.app l))) = Some account ->
  gorm.recipients (worker.db (queue.app l2))
    = gorm.recipients
        (worker.db (queue.app (fst (worker.processCampaign gateway env1 campaignID l)))) ->
  gorm.faults (worker.db (queue.app l2)) = [] ->
  queue.ctx_done l2 = false ->
  List.find (fun c => bool_decide (ID c = campaignID))
    (gorm.campaigns (worker.db (queue.app l2))) = Some c2 ->
  Status c2 = "queued" \/ Status c2 = "processing" ->
  head (List.filter (fun t => bool_decide (Template_ID t = TemplateID c2))
          (gorm.templates (worker.db (queue.app l2)))) = Some t ->
  List.find (fun a => bool_decide (Account_Name a = WhatsAppAccount_ c2)
                      && bool_decide (Account_OrganizationID a = OrganizationID c2))
    (gorm.accounts (worker.db (queue.app l2))) = Some account ->
  exists k,
    worker.outbox (queue.app (fst (worker.processCampaign gateway env1 campaignID l)))
      = worker.outbox (queue.app l)
        ++ map (behaviour.template_call account t)
             (take k (spec.pending_recipients campaignID (worker.db (queue.app l)))) /\
    worker.outbox (queue.app (fst (worker.processCampaign gateway env2 campaignID l2)))
      = worker.outbox (queue.app l2)
        ++ map (behaviour.template_call account t)
             (drop k (spec.pending_recipients campaignID (worker.db (queue.app l)))).
Proof.
  intros Hkeep Hrec Henv2 Hf Hnd Hfind Hstatus Htemplate Haccount
         Hrows Hf2 Hctx2 Hfind2 Hstatus2 Htemplate2 Haccount2.
  destruct (processCampaign_progress env1 Hkeep Hrec l c t account
              Hf Hnd Hfind Hstatus Htemplate Haccount) as (k & Hout1 & Hprog & _).
  exists k. split; [exact Hout1|].
  rewrite (processCampaign_undisturbed_outbox gateway env2 campaignID Henv2 l2 c2 t account);
    try done.
  f_equal. f_equal. unfold spec.pending_recipients. rewrite Hrows.
  apply (pending_after_progress account t k _ _ Hnd Hprog).
Qed.

End WorkerResumes.

(** An operator's pause keeps a healthy store healthy and writes to no
    recipient. *)
Lemma PauseCampaign_faults {Q : Type} (uuid_Parse : string -> option UUID)
    (r : handlers.Request) (a : handlers.App Q) :
  gorm.faults (handlers.DB a) = [] ->
  gorm.faults (handlers.DB (fst (handlers.PauseCampaign uuid_Parse r a))) = [].
Proof.
  intros Hf. unfold handlers.PauseCampaign.
  destruct (handlers.organization_id r); [|done].
  destruct (uuid_Parse (handlers.id r)); [|done].
  rewrite (First_healthy _ _ _ Hf).
  destruct (List.find _ _) as [campaign|]; [|done].
  cbn [handlers.DB handlers.set_DB].
  destruct (_ && _); [done|].
  pose proof (Updates_campaigns_faults (gorm.by_ID campaign)
                [("status", gorm.VString "paused")] _ Hf) as H2.
  destruct (gorm.Updates_campaigns _ _ _) as [d2 [e|]]; done.
Qed.

Lemma pause_before_keeps_healthy (k : nat) :
  behaviour.keeps_healthy (scenario.pause_before k).
Proof.
  intros i x Hf. unfold scenario.pause_before. destruct (Nat.eqb i k); [|exact Hf].
  cbn [snd]. by apply PauseCampaign_faults.
Qed.

Lemma pause_before_leaves_recipients (k : nat) :
  behaviour.leaves_recipients (scenario.pause_before k).
Proof.
  intros i x. unfold scenario.pause_before. destruct (Nat.eqb i k); [|reflexivity].
  cbn [snd]. apply PauseCampaign_recipients.
Qed.

(** Runs of the theorems above on the sample deployment. *)

Lemma processCampaign_skips_other_states_witness :
  worker.processCampaign scenario.gateway scenario.alone scenario.cid
    (scenario.worker_on scenario.completed_store)
  = (scenario.worker_on scenario.completed_store, worker.Return None).
Proof.
  apply (processCampaign_skips_other_states scenario.gateway scenario.alone scenario.cid
           (scenario.worker_on scenario.completed_store)
           (scenario.campaign "completed" 3 2)).
  - reflexivity.
  - discriminate.
  - discriminate.
  - reflexivity.
Defined.

Lemma processCampaign_unknown_campaign_witness :
  worker.processCampaign scenario.gateway scenario.alone scenario.cid
    (scenario.worker_on samples.no_campaign_store)
  = (scenario.worker_on samples.no_campaign_store,
     worker.Return (Some "failed to load campaign: record not found")).
Proof.
  apply (processCampaign_unknown_campaign scenario.gateway scenario.alone scenario.cid
           (scenario.worker_on samples.no_campaign_store)).
  - reflexivity.
  - reflexivity.
Defined.

Lemma processCampaign_without_account_witness :
  snd (worker.processCampaign scenario.gateway scenario.alone scenario.cid
         (scenario.worker_on (samples.without_account scenario.processing_store)))
    = worker.Return (Some "failed to load WhatsApp account: record not found") /\
  scenario.counters
    (scenario.db_after
       (worker.processCampaign scenario.gateway scenario.alone scenario.cid
          (scenario.worker_on (samples.without_account scenario.processing_store))))
    = [("failed", 0, 0)].
Proof.
  rewrite (processCampaign_without_account scenario.gateway scenario.alone scenario.cid
             (scenario.worker_on (samples.without_account scenario.processing_store))
             (scenario.campaign "processing" 0 0)).
  - split; reflexivity.
  - reflexivity.
  - reflexivity.
  - by right.
  - reflexivity.
Defined.

Lemma processCampaign_nothing_pending_witness :
  snd (worker.processCampaign scenario.gateway scenario.alone scenario.cid
         (scenario.worker_on samples.settled_store)) = worker.Return None /\
  worker.outbox (queue.app (fst (worker.processCampaign scenario.gateway scenario.alone
                                   scenario.cid (scenario.worker_on samples.settled_store))))
    = [].
Proof.
  pose proof (processCampaign_nothing_pending scenario.gateway scenario.alone scenario.cid
                (scenario.worker_on samples.settled_store)
                (scenario.campaign "processing" 3 2) scenario.account) as H.
  destruct H as (H1 & H2 & _).
  - reflexivity.
  - reflexivity.
  - by right.
  - reflexivity.
  - reflexivity.
  - split; [exact H1|exact H2].
Defined.

Lemma processCampaign_without_template_panics_witness :
  snd (worker.processCampaign scenario.gateway scenario.alone scenario.cid
         (scenario.worker_on (samples.without_template scenario.processing_store)))
    = worker.Panic "runtime error: invalid memory address or nil pointer dereference" /\
  worker.outbox
    (queue.app (fst (worker.processCampaign scenario.gateway scenario.alone scenario.cid
                       (scenario.worker_on
                          (samples.without_template scenario.processing_store))))) = [].
Proof.
  rewrite (processCampaign_without_template_panics scenario.gateway scenario.alone
             scenario.cid
             (scenario.worker_on (samples.without_template scenario.processing_store))
             (scenario.campaign "processing" 0 0) scenario.account
             (scenario.recipient 101 "+1" "pending" "" "")
             [ scenario.recipient 102 "+2" "pending" "" "";
               scenario.recipient 103 "+3" "pending" "" "";
               scenario.recipient 104 "+4" "pending" "" "";
               scenario.recipient 105 "+5" "pending" "" "" ]).
  - split; reflexivity.
  - reflexivity.
  - reflexivity.
  - intros x. reflexivity.
  - reflexivity.
  - by right.
  - reflexivity.
  - reflexivity.
  - reflexivity.
Defined.

Lemma processCampaign_sends_to_every_pending_once_witness :
  map whatsapp.call_phoneNumber
    (worker.outbox
       (queue.app (fst (worker.processCampaign scenario.gateway scenario.alone scenario.cid
                          (scenario.worker_on scenario.processing_store)))))
  = ["+1"; "+2"; "+3"; "+4"; "+5"].
Proof.
  rewrite (processCampaign_sends_to_every_pending_once scenario.gateway scenario.alone
             scenario.cid
             ltac:(intros i d Hf Hr Hp; repeat split; first [exact Hf | apply Hr | exact Hp])
             (scenario.worker_on scenario.processing_store)
             (scenario.campaign "processing" 0 0) scenario.template scenario.account).
  - reflexivity.
  - reflexivity.
  - reflexivity.
  - reflexivity.
  - by right.
  - reflexivity.
  - reflexivity.
Defined.

Lemma processCampaign_settles_every_pending_witness :
  Forall2 (behaviour.settled scenario.gateway scenario.cid scenario.account scenario.template)
    (gorm.recipients scenario.processing_store)
    (gorm.recipients
       (scenario.db_after (scenario.run_worker scenario.gateway scenario.alone
                             scenario.processing_store))).
Proof.
  apply (processCampaign_settles_every_pending scenario.gateway scenario.alone scenario.cid
           ltac:(intros i d Hf Hr Hp; repeat split; first [exact Hf | apply Hr | exact Hp])
           ltac:(intros i x; reflexivity)
           (scenario.worker_on scenario.processing_store)
           (scenario.campaign "processing" 0 0) scenario.template scenario.account).
  - reflexivity.
  - reflexivity.
  - apply (bool_decide_unpack
             (NoDup (map Recipient_ID
                       (gorm.recipients
                          (worker.db (queue.app (scenario.worker_on
                                                   scenario.processing_store))))))).
    vm_compute. exact I.
  - reflexivity.
  - by right.
  - reflexivity.
  - reflexivity.
Defined.

(** The sample campaign is paused before the third send and started
    again by the operator: the paused run has sent to the first two
    recipients, the run after the start sends to the other three. *)
Lemma interrupted_run_is_resumed_without_repeats_witness :
  exists k,
    worker.outbox (queue.app (fst samples.paused_run))
      = map (behaviour.template_call scenario.account scenario.template)
          (take k scenario.five_pending) /\
    worker.outbox
      (queue.app (fst (scenario.run_worker scenario.gateway scenario.alone
                         samples.resumed_by_start)))
      = map (behaviour.template_call scenario.account scenario.template)
          (drop k scenario.five_pending) /\
    scenario.statuses (scenario.db_after samples.paused_run)
      = ["sent"; "failed"; "pending"; "pending"; "pending"] /\
    scenario.counters (scenario.db_after samples.paused_run) = [("paused", 1, 1)] /\
    scenario.counters samples.resumed_by_start = [("processing", 1, 1)].
Proof.
  edestruct (interrupted_run_is_resumed_without_repeats scenario.gateway scenario.cid
               (scenario.pause_before 2) scenario.alone
               (scenario.worker_on scenario.processing_store)
               (scenario.worker_on samples.resumed_by_start)
               (scenario.campaign "processing" 0 0)
               (gorm.set_times (scenario.campaign "processing" 1 1)
                  (Some 1700000000000) None)
               scenario.template scenario.account) as (k & H1 & H2).
  - apply pause_before_keeps_healthy.
  - apply pause_before_leaves_recipients.
  - intros i d Hf Hr Hp. repeat split; first [exact Hf | apply Hr | exact Hp].
  - reflexivity.
  - apply (bool_decide_unpack
             (NoDup (map Recipient_ID
                       (gorm.recipients
                          (worker.db (queue.app (scenario.worker_on
                                                   scenario.processing_store))))))).
    vm_compute. exact I.
  - reflexivity.
  - by right.
  - reflexivity.
  - reflexivity.
  - vm_compute. reflexivity.
  - reflexivity.
  - reflexivity.
  - vm_compute. reflexivity.
  - right. reflexivity.
  - vm_compute. reflexivity.
  - vm_compute. reflexivity.
  - exists k. split; [exact H1|]. split; [exact H2|].
    repeat split; vm_compute; reflexivity.
Defined.

(** ** The handlers: outcomes of start, import, delete, retry *)

Section HandlerOutcomes.

Context {Q : Type} {QueueQ : queue.Queue Q}.
Variable uuid_Parse : string -> option UUID.
Variable uuid_String : UUID -> string.

Lemma set_DB_same (a : handlers.App Q) : handlers.set_DB a (handlers.DB a) = a.
Proof. by destruct a. Qed.

Lemma First_not_found {A : Type} (table : gorm.DB -> list A) (P : A -> bool)
    (d d' : gorm.DB) (x : A) :
  (forall d0, table (snd (gorm.tick d0)) = table d0) ->
  List.find P (table d) = None ->
  gorm.First table P d = (d', Ok x) -> False.
Proof.
  intros Htick Hnone. unfold gorm.First.
  specialize (Htick d). destruct (gorm.tick d) as [f d1]. cbn [snd] in Htick.
  destruct f; [discriminate|]. by rewrite Htick, Hnone.
Qed.

(** X13.  A campaign that is not a campaign of the caller's organization
    does not exist for the caller: every action answers 404 and leaves the
    store and the queue as they were. *)
Theorem foreign_campaign_is_not_found (act : handlers.action) (r : handlers.Request)
    (a : handlers.App Q) (orgID id : UUID) :
  handlers.organization_id r = Some orgID ->
  uuid_Parse (handlers.id r) = Some id ->
  List.find (handlers.owned id orgID) (gorm.campaigns (handlers.DB a)) = None ->
  snd (handlers.invoke uuid_Parse uuid_String act r a)
    = handlers.SendErrorEnvelope handlers.StatusNotFound "Campaign not found" /\
  spec.same_rows (handlers.DB a)
    (handlers.DB (fst (handlers.invoke uuid_Parse uuid_String act r a))) /\
  handlers.Queue (fst (handlers.invoke uuid_Parse uuid_String act r a)) = handlers.Queue a.
Proof.
  intros Horg Hid Hnone.
  pose proof (First_rows gorm.campaigns (handlers.owned id orgID) (handlers.DB a)) as Hrows.
  destruct (gorm.First gorm.campaigns (handlers.owned id orgID) (handlers.DB a))
    as [d [c|e]] eqn:HF.
  { exfalso. eapply (First_not_found gorm.campaigns); [apply tick_campaigns|exact Hnone|exact HF]. }
  cbn [fst] in Hrows.
  destruct act; cbn [handlers.invoke];
    cbv beta delta [handlers.StartCampaign handlers.PauseCampaign handlers.CancelCampaign
                    handlers.RetryFailed handlers.ImportRecipients handlers.DeleteCampaign];
    rewrite Horg, Hid, HF; cbn [fst snd handlers.DB handlers.Queue handlers.set_DB]; done.
Qed.

Lemma permitted_Start_true (s : string) :
  spec.permitted handlers.Start s = true ->
  negb (String.eqb s "draft") && negb (String.eqb s "scheduled")
  && negb (String.eqb s "paused") = false.
Proof. intros H. rewrite permitted_Start in H. by apply negb_true_iff in H. Qed.

Lemma length_zero_false {A : Type} (l : list A) :
  l <> [] -> (Z.of_nat (length l) =? 0) = false.
Proof. intros H. destruct l; [done|]. apply Z.eqb_neq. cbn [length]. lia. Qed.

(** [StartCampaign] on a healthy store, for a campaign that may be
    started and has pending recipients, up to the enqueue. *)
Lemma StartCampaign_accepted (r : handlers.Request) (a : handlers.App Q)
    (orgID id : UUID) (c : BulkMessageCampaign) :
  gorm.faults (handlers.DB a) = [] ->
  handlers.organization_id r = Some orgID ->
  uuid_Parse (handlers.id r) = Some id ->
  List.find (handlers.owned id orgID) (gorm.campaigns (handlers.DB a)) = Some c ->
  spec.permitted handlers.Start (Status c) = true ->
  spec.pending_recipients id (handlers.DB a) <> [] ->
  handlers.StartCampaign uuid_Parse r a =
    let started :=
      gorm.with_campaigns (handlers.DB a)
        (map (fun row => if gorm.by_ID c row
                         then gorm.set_times (gorm.set_Status row "processing")
                                (Some (handlers.clock a)) (CompletedAt row)
                         else row)
             (gorm.campaigns (handlers.DB a))) in
    match queue.EnqueueRecipients
            (handlers.make_jobs id orgID (spec.pending_recipients id (handlers.DB a)))
            (handlers.Queue a) with
    | (q, Some _) =>
        (handlers.set_DB (handlers.set_Queue (handlers.set_DB a started) q)
           (fst (gorm.Updates_campaigns (gorm.by_ID c)
                   [("status", gorm.VString "draft")] started)),
         handlers.SendErrorEnvelope handlers.StatusInternalServerError
           "Failed to queue recipients")
    | (q, None) =>
        (handlers.set_Queue (handlers.set_DB a started) q,
         handlers.SendEnvelope [("message", AnyString "Campaign started");
                                ("status", AnyString "processing")])
    end.
Proof.
  intros Hf Horg Hid Hfind Hperm Hpending.
  unfold handlers.StartCampaign. rewrite Horg, Hid.
  rewrite (First_healthy _ _ _ Hf), Hfind.
  rewrite (permitted_Start_true _ Hperm).
  cbn [handlers.DB handlers.set_DB].
  rewrite (Find_healthy _ _ _ Hf). cbn [handlers.DB handlers.set_DB].
  change (List.filter (handlers.of_campaign_with_status id "pending")
            (gorm.recipients (handlers.DB a)))
    with (spec.pending_recipients id (handlers.DB a)).
  rewrite (length_zero_false _ Hpending).
  erewrite (Updates_campaigns_healthy _ _
              (fun row => gorm.set_times (gorm.set_Status row "processing")
                            (Some (handlers.clock a)) (CompletedAt row)));
    [|exact Hf|intros c0 _; reflexivity].
  cbn [handlers.DB handlers.set_DB handlers.Queue handlers.clock].
  rewrite set_DB_same.
  destruct (queue.EnqueueRecipients _ _) as [q [e|]]; reflexivity.
Qed.

(** X14.  An accepted start sets the campaign to processing, stamps
    started_at with the time of the request and hands the queue one job
    for every pending recipient; no recipient row and no other campaign
    changes. *)
Theorem StartCampaign_starts (r : handlers.Request) (a : handlers.App Q)
    (orgID id : UUID) (c : BulkMessageCampaign) (q : Q) :
  gorm.faults (handlers.DB a) = [] ->
  handlers.organization_id r = Some orgID ->
  uuid_Parse (handlers.id r) = Some id ->
  List.find (handlers.owned id orgID) (gorm.campaigns (handlers.DB a)) = Some c ->
  spec.permitted handlers.Start (Status c) = true ->
  spec.pending_recipients id (handlers.DB a) <> [] ->
  queue.EnqueueRecipients
    (handlers.make_jobs id orgID (spec.pending_recipients id (handlers.DB a)))
    (handlers.Queue a) = (q, None) ->
  handlers.StartCampaign uuid_Parse r a =
    ({| handlers.DB :=
          gorm.with_campaigns (handlers.DB a)
            (map (fun row => if gorm.by_ID c row
                             then gorm.set_times (gorm.set_Status row "processing")
                                    (Some (handlers.clock a)) (CompletedAt row)
                             else row)
                 (gorm.campaigns (handlers.DB a)));
        handlers.Queue := q;
        handlers.clock := handlers.clock a;
        handlers.WSHub := handlers.WSHub a |},
     handlers.SendEnvelope [("message", AnyString "Campaign started");
                            ("status", AnyString "processing")]).
Proof.
  intros Hf Horg Hid Hfind Hperm Hpending Hq.
  rewrite (StartCampaign_accepted r a orgID id c Hf Horg Hid Hfind Hperm Hpending).
  cbv zeta. rewrite Hq. reflexivity.
Qed.

(** X15.  When the queue refuses the jobs of a start, the campaign is set
    to draft, whichever of draft, scheduled and paused it was in before;
    started_at keeps the stamp of the failed start, and the answer is
    500. *)
Theorem StartCampaign_refused_by_queue_leaves_draft (r : handlers.Request)
    (a : handlers.App Q) (orgID id : UUID) (c : BulkMessageCampaign) (q : Q) (e : error) :
  gorm.faults (handlers.DB a) = [] ->
  handlers.organization_id r = Some orgID ->
  uuid_Parse (handlers.id r) = Some id ->
  List.find (handlers.owned id orgID) (gorm.campaigns (handlers.DB a)) = Some c ->
  spec.permitted handlers.Start (Status c) = true ->
  spec.pending_recipients id (handlers.DB a) <> [] ->
  queue.EnqueueRecipients
    (handlers.make_jobs id orgID (spec.pending_recipients id (handlers.DB a)))
    (handlers.Queue a) = (q, Some e) ->
  handlers.StartCampaign uuid_Parse r a =
    ({| handlers.DB :=
          gorm.with_campaigns (handlers.DB a)
            (map (fun row => if gorm.by_ID c row
                             then gorm.set_times (gorm.set_Status row "draft")
                                    (Some (handlers.clock a)) (CompletedAt row)
                             else row)
                 (gorm.campaigns (handlers.DB a)));
        handlers.Queue := q;
        handlers.clock := handlers.clock a;
        handlers.WSHub := handlers.WSHub a |},
     handlers.SendErrorEnvelope handlers.StatusInternalServerError
       "Failed to queue recipients").
Proof.
  intros Hf Horg Hid Hfind Hperm Hpending Hq.
  rewrite (StartCampaign_accepted r a orgID id c Hf Horg Hid Hfind Hperm Hpending).
  cbv zeta. rewrite Hq.
  erewrite (Updates_campaigns_healthy _ _ (fun row => gorm.set_Status row "draft"));
    [|exact Hf|intros c0 _; reflexivity].
  unfold handlers.set_DB, handlers.set_Queue.
  cbn [fst handlers.DB handlers.Queue handlers.clock handlers.WSHub].
  f_equal. f_equal. unfold gorm.with_campaigns.
  cbn [gorm.campaigns gorm.recipients gorm.messages gorm.accounts gorm.templates
       gorm.next_uuid gorm.faults].
  f_equal. rewrite map_map. apply map_ext. intros row.
  destruct (gorm.by_ID c row) eqn:Hrow; [|by rewrite Hrow].
  change (gorm.by_ID c (gorm.set_times (gorm.set_Status row "processing") _ _))
    with (gorm.by_ID c row).
  by rewrite Hrow.
Qed.

End HandlerOutcomes.

Section HandlerWrites.

Context {Q : Type} {QueueQ : queue.Queue Q}.
Variable uuid_Parse : string -> option UUID.
Variable uuid_String : UUID -> string.

Lemma Count_healthy {A : Type} (table : gorm.DB -> list A) (P : A -> bool) (d : gorm.DB) :
  gorm.faults d = [] ->
  gorm.Count table P d = (d, Ok (Z.of_nat (length (List.filter P (table d))))).
Proof. intros H. unfold gorm.Count. by rewrite (tick_healthy d H). Qed.

Lemma assign_ids_rows (rs : list BulkMessageRecipient) (n : N) :
  Forall2 (fun r row =>
             CampaignID row = CampaignID r /\ PhoneNumber row = PhoneNumber r /\
             RecipientName row = RecipientName r /\ TemplateParams row = TemplateParams r /\
             Recipient_Status row = Recipient_Status r /\ ErrorMessage row = ErrorMessage r /\
             WhatsAppMessageID row = WhatsAppMessageID r /\ SentAt row = SentAt r)
    rs (fst (gorm.assign_ids n rs)) /\
  map Recipient_ID (fst (gorm.assign_ids n rs))
    = map (fun k => (n + N.of_nat k)%N) (seq 0 (length rs)).
Proof.
  revert n. induction rs as [|r rs IH]; intros n; [by split; [constructor|]|].
  cbn [gorm.assign_ids]. destruct (IH (n + 1)%N) as [IH1 IH2].
  destruct (gorm.assign_ids (n + 1)%N rs) as [rest n']. cbn [fst] in *. split.
  - constructor; [done|exact IH1].
  - cbn [map length seq Recipient_ID]. f_equal; [lia|].
    rewrite IH2, <- seq_shift, map_map. apply map_ext. intros k. lia.
Qed.

Lemma Create_recipients_healthy (rs : list BulkMessageRecipient) (d : gorm.DB) :
  gorm.faults d = [] ->
  rs <> [] ->
  gorm.Create_recipients rs d =
    (gorm.with_next_uuid
       (gorm.with_recipients d (gorm.recipients d ++ fst (gorm.assign_ids (gorm.next_uuid d) rs)))
       (snd (gorm.assign_ids (gorm.next_uuid d) rs)), None).
Proof.
  intros Hf Hne. unfold gorm.Create_recipients. rewrite (tick_healthy _ Hf).
  destruct rs as [|r rs]; [done|]. by destruct (gorm.assign_ids _ _).
Qed.

(** X16.  An accepted import appends one pending recipient of the campaign
    for every entry of the request, in the order of the request, under the
    next free keys, and sets total_recipients of the campaign to the
    number of recipients it now has.  The rows that were there stay as
    they were. *)
Theorem ImportRecipients_appends_pending (r : handlers.Request) (a : handlers.App Q)
    (orgID id : UUID) (c : BulkMessageCampaign) (reqs : list handlers.RecipientRequest) :
  gorm.faults (handlers.DB a) = [] ->
  handlers.organization_id r = Some orgID ->
  uuid_Parse (handlers.id r) = Some id ->
  List.find (handlers.owned id orgID) (gorm.campaigns (handlers.DB a)) = Some c ->
  Status c = "draft" ->
  handlers.recipients_body r = Ok reqs ->
  reqs <> [] ->
  exists rows total,
    gorm.recipients (handlers.DB (fst (handlers.ImportRecipients uuid_Parse r a)))
      = gorm.recipients (handlers.DB a) ++ rows /\
    Forall2 (fun req row =>
               CampaignID row = id /\
               PhoneNumber row = handlers.Req_PhoneNumber req /\
               RecipientName row = handlers.Req_RecipientName req /\
               TemplateParams row = handlers.Req_TemplateParams req /\
               Recipient_Status row = "pending" /\ ErrorMessage row = "" /\
               WhatsAppMessageID row = "" /\ SentAt row = None) reqs rows /\
    map Recipient_ID rows
      = map (fun k => (gorm.next_uuid (handlers.DB a) + N.of_nat k)%N) (seq 0 (length reqs)) /\
    total = Z.of_nat (length (List.filter (fun row => bool_decide (CampaignID row = id))
                                (gorm.recipients (handlers.DB a) ++ rows))) /\
    gorm.campaigns (handlers.DB (fst (handlers.ImportRecipients uuid_Parse r a)))
      = map (fun row => if gorm.by_ID c row
                        then gorm.set_counters row total (SentCount row) (DeliveredCount row)
                               (ReadCount row) (FailedCount row)
                        else row)
            (gorm.campaigns (handlers.DB a)) /\
    snd (handlers.ImportRecipients uuid_Parse r a)
      = handlers.SendEnvelope
          [("message", AnyString "Recipients added successfully");
           ("added_count", AnyNumber (Z.of_nat (length reqs)));
           ("total_recipients", AnyNumber total)].
Proof.
  intros Hf Horg Hid Hfind Hstatus Hbody Hne.
  unfold handlers.ImportRecipients. rewrite Horg, Hid.
  rewrite (First_healthy _ _ _ Hf), Hfind, Hstatus, Hbody.
  cbn [String.eqb Ascii.eqb Bool.eqb negb handlers.DB handlers.set_DB].
  rewrite Create_recipients_healthy; [|exact Hf|by destruct reqs].
  match goal with
  | |- context [gorm.assign_ids ?n ?rs] =>
      pose proof (assign_ids_rows rs n) as [Hrows Hids];
      destruct (gorm.assign_ids n rs) as [rows n'] eqn:Hassign
  end.
  cbn [fst snd] in Hrows, Hids. cbn [fst snd handlers.DB handlers.set_DB].
  rewrite Count_healthy by exact Hf.
  cbn [handlers.DB handlers.set_DB gorm.recipients gorm.with_recipients gorm.with_next_uuid].
  erewrite (Updates_campaigns_healthy _ _
              (fun row => gorm.set_counters row _ (SentCount row) (DeliveredCount row)
                            (ReadCount row) (FailedCount row)));
    [|exact Hf|intros c0 _; reflexivity].
  cbn [fst snd handlers.DB handlers.set_DB gorm.recipients gorm.campaigns
       gorm.with_campaigns gorm.with_recipients gorm.with_next_uuid].
  eexists rows, _. split; [reflexivity|]. split.
  { apply Forall2_fmap_l in Hrows. eapply Forall2_impl; [exact Hrows|].
    intros x y. unfold compose. cbn. intros (-> & -> & -> & -> & -> & -> & -> & ->). done. }
  split.
  { rewrite Hids. by rewrite length_map. }
  split; [reflexivity|]. split; reflexivity.
Qed.

(** X17.  An import with an empty recipient list is refused by the store
    ([Create] of an empty slice) and answered with 500; nothing is
    written. *)
Theorem ImportRecipients_empty_list (r : handlers.Request) (a : handlers.App Q)
    (orgID id : UUID) (c : BulkMessageCampaign) :
  gorm.faults (handlers.DB a) = [] ->
  handlers.organization_id r = Some orgID ->
  uuid_Parse (handlers.id r) = Some id ->
  List.find (handlers.owned id orgID) (gorm.campaigns (handlers.DB a)) = Some c ->
  Status c = "draft" ->
  handlers.recipients_body r = Ok [] ->
  handlers.ImportRecipients uuid_Parse r a
    = (a, handlers.SendErrorEnvelope handlers.StatusInternalServerError
            "Failed to add recipients").
Proof.
  intros Hf Horg Hid Hfind Hstatus Hbody.
  unfold handlers.ImportRecipients. rewrite Horg, Hid.
  rewrite (First_healthy _ _ _ Hf), Hfind, Hstatus, Hbody.
  cbn [String.eqb Ascii.eqb Bool.eqb negb handlers.DB handlers.set_DB map].
  unfold gorm.Create_recipients. rewrite (tick_healthy _ Hf).
  by rewrite !set_DB_same.
Qed.

(** X18.  An accepted delete removes the campaign and every recipient of
    it, and nothing else: other campaigns, their recipients, the messages
    and the queue are as they were. *)
Theorem DeleteCampaign_removes_campaign_and_recipients (r : handlers.Request)
    (a : handlers.App Q) (orgID id : UUID) (c : BulkMessageCampaign) :
  gorm.faults (handlers.DB a) = [] ->
  handlers.organization_id r = Some orgID ->
  uuid_Parse (handlers.id r) = Some id ->
  List.find (handlers.owned id orgID) (gorm.campaigns (handlers.DB a)) = Some c ->
  spec.permitted handlers.Delete (Status c) = true ->
  snd (handlers.DeleteCampaign uuid_Parse r a)
    = handlers.SendEnvelope [("message", AnyString "Campaign deleted successfully")] /\
  (forall row,
      row ∈ gorm.campaigns (handlers.DB (fst (handlers.DeleteCampaign uuid_Parse r a))) <->
      row ∈ gorm.campaigns (handlers.DB a) /\ ID row <> id) /\
  (forall row,
      row ∈ gorm.recipients (handlers.DB (fst (handlers.DeleteCampaign uuid_Parse r a))) <->
      row ∈ gorm.recipients (handlers.DB a) /\ CampaignID row <> id) /\
  gorm.messages (handlers.DB (fst (handlers.DeleteCampaign uuid_Parse r a)))
    = gorm.messages (handlers.DB a) /\
  handlers.Queue (fst (handlers.DeleteCampaign uuid_Parse r a)) = handlers.Queue a.
Proof.
  intros Hf Horg Hid Hfind Hperm.
  rewrite permitted_Delete in Hperm. apply negb_true_iff in Hperm.
  unfold handlers.DeleteCampaign. rewrite Horg, Hid.
  rewrite (First_healthy _ _ _ Hf), Hfind, Hperm.
  cbn [handlers.DB handlers.set_DB].
  unfold gorm.Delete_recipients. rewrite (tick_healthy _ Hf).
  cbn [handlers.DB handlers.set_DB].
  unfold gorm.Delete_campaign, gorm.tick.
  cbn [gorm.faults gorm.with_recipients]. rewrite Hf.
  cbn [fst snd handlers.DB handlers.set_DB handlers.Queue gorm.campaigns gorm.recipients
       gorm.messages gorm.with_campaigns gorm.with_recipients].
  apply find_some in Hfind as [_ Hc]. unfold handlers.owned in Hc.
  apply andb_true_iff in Hc as [Hc _]. apply bool_decide_eq_true_1 in Hc.
  split; [reflexivity|]. split; [|split; [|done]].
  - intros row. rewrite list_elem_of_In, filter_In, <- list_elem_of_In.
    unfold gorm.by_ID. rewrite Hc, negb_true_iff, bool_decide_eq_false. done.
  - intros row. rewrite list_elem_of_In, filter_In, <- list_elem_of_In.
    rewrite negb_true_iff, bool_decide_eq_false. done.
Qed.

(** X19.  A start without pending recipients and a retry without failed
    recipients are refused with 400 before anything is written. *)
Theorem nothing_to_send_is_refused (r : handlers.Request) (a : handlers.App Q)
    (orgID id : UUID) (c : BulkMessageCampaign) :
  gorm.faults (handlers.DB a) = [] ->
  handlers.organization_id r = Some orgID ->
  uuid_Parse (handlers.id r) = Some id ->
  List.find (handlers.owned id orgID) (gorm.campaigns (handlers.DB a)) = Some c ->
  (spec.permitted handlers.Start (Status c) = true ->
   spec.pending_recipients id (handlers.DB a) = [] ->
   handlers.StartCampaign uuid_Parse r a
     = (a, handlers.SendErrorEnvelope handlers.StatusBadRequest
             "Campaign has no pending recipients")) /\
  (spec.permitted handlers.Retry (Status c) = true ->
   List.filter (handlers.of_campaign_with_status id "failed")
     (gorm.recipients (handlers.DB a)) = [] ->
   handlers.RetryFailed uuid_Parse uuid_String r a
     = (a, handlers.SendErrorEnvelope handlers.StatusBadRequest
             "No failed messages to retry")).
Proof.
  intros Hf Horg Hid Hfind. split.
  - intros Hperm Hnone. unfold handlers.StartCampaign. rewrite Horg, Hid.
    rewrite (First_healthy _ _ _ Hf), Hfind, (permitted_Start_true _ Hperm).
    cbn [handlers.DB handlers.set_DB]. rewrite (Find_healthy _ _ _ Hf).
    change (List.filter (handlers.of_campaign_with_status id "pending")
              (gorm.recipients (handlers.DB a)))
      with (spec.pending_recipients id (handlers.DB a)).
    rewrite Hnone. cbn [length Z.of_nat Z.eqb handlers.DB handlers.set_DB].
    by rewrite !set_DB_same.
  - intros Hperm Hnone. rewrite permitted_Retry in Hperm. apply negb_true_iff in Hperm.
    unfold handlers.RetryFailed. rewrite Horg, Hid.
    rewrite (First_healthy _ _ _ Hf), Hfind, Hperm.
    cbn [handlers.DB handlers.set_DB]. rewrite (Find_healthy _ _ _ Hf), Hnone.
    cbn [length Z.of_nat Z.eqb handlers.DB handlers.set_DB].
    by rewrite !set_DB_same.
Qed.

End HandlerWrites.

Section HandlerSequences.

Context {Q : Type} {QueueQ : queue.Queue Q}.
Variable uuid_Parse : string -> option UUID.
Variable uuid_String : UUID -> string.

Lemma First_found {A : Type} (table : gorm.DB -> list A) (P : A -> bool)
    (d d' : gorm.DB) (x : A) :
  (forall d0, table (snd (gorm.tick d0)) = table d0) ->
  gorm.First table P d = (d', Ok x) ->
  List.find P (table d) = Some x /\ spec.same_rows d d'.
Proof.
  intros Htick HF. split.
  - revert HF. unfold gorm.First. specialize (Htick d).
    destruct (gorm.tick d) as [f d1]. cbn [snd] in Htick.
    destruct f; [discriminate|]. rewrite Htick.
    destruct (List.find P (table d)); [|discriminate]. by intros [= _ ->].
  - pose proof (First_rows table P d) as H. by rewrite HF in H.
Qed.

Lemma Updates_status_result (P : BulkMessageCampaign -> bool) (s : string)
    (d d' : gorm.DB) :
  gorm.Updates_campaigns P [("status", gorm.VString s)] d = (d', None) ->
  gorm.campaigns d'
    = map (fun row => if P row then gorm.set_Status row s else row) (gorm.campaigns d) /\
  gorm.recipients d' = gorm.recipients d /\
  gorm.messages d' = gorm.messages d /\
  gorm.accounts d' = gorm.accounts d /\
  gorm.templates d' = gorm.templates d.
Proof.
  unfold gorm.Updates_campaigns.
  pose proof (tick_rows d) as (Hc & Hr & Hm & Ha & Ht).
  destruct (gorm.tick d) as [f d1]. cbn [snd] in *.
  destruct f; [discriminate|].
  rewrite (update_where_map _ (fun row => gorm.set_Status row s))
    by (intros c0 _; reflexivity).
  intros [= <-]. cbn [gorm.campaigns gorm.recipients gorm.messages gorm.accounts
                      gorm.templates gorm.with_campaigns].
  rewrite Hc. done.
Qed.

Lemma owned_set_Status (id orgID : UUID) (c : BulkMessageCampaign)
    (row : BulkMessageCampaign) (s : string) :
  handlers.owned id orgID (if gorm.by_ID c row then gorm.set_Status row s else row)
  = handlers.owned id orgID row.
Proof. by destruct (gorm.by_ID c row). Qed.

(** X20.  A cancelled campaign is at the end of its life as far as the API
    goes: after an accepted cancel every action but delete is refused with
    a client error and changes neither the store nor the queue. *)
Theorem cancelled_campaign_accepts_only_delete (act : handlers.action)
    (r : handlers.Request) (a : handlers.App Q) :
  handlers.status_code (snd (handlers.CancelCampaign uuid_Parse r a)) = handlers.StatusOK ->
  act <> handlers.Delete ->
  spec.same_rows (handlers.DB (fst (handlers.CancelCampaign uuid_Parse r a)))
    (handlers.DB (fst (handlers.invoke uuid_Parse uuid_String act r
                         (fst (handlers.CancelCampaign uuid_Parse r a))))) /\
  handlers.Queue (fst (handlers.invoke uuid_Parse uuid_String act r
                         (fst (handlers.CancelCampaign uuid_Parse r a))))
    = handlers.Queue a /\
  spec.client_error
    (handlers.status_code
       (snd (handlers.invoke uuid_Parse uuid_String act r
               (fst (handlers.CancelCampaign uuid_Parse r a))))).
Proof.
  unfold handlers.CancelCampaign.
  destruct (handlers.organization_id r) as [orgID|] eqn:Horg; [|discriminate].
  destruct (uuid_Parse (handlers.id r)) as [id|] eqn:Hid; [|discriminate].
  destruct (gorm.First gorm.campaigns _ _) as [d [c|e]] eqn:HF; [|discriminate].
  apply (First_found gorm.campaigns) in HF as [Hfind Hrows]; [|apply tick_campaigns].
  destruct (_ || _); [discriminate|].
  cbn [handlers.DB handlers.set_DB].
  destruct (gorm.Updates_campaigns _ _ d) as [d' [e|]] eqn:HU; [discriminate|].
  apply Updates_status_result in HU as (Hc & _).
  intros _ Hact. cbn [fst handlers.DB handlers.set_DB].
  set (a' := handlers.set_DB (handlers.set_DB a d) d').
  assert (List.find (handlers.owned id orgID) (gorm.campaigns (handlers.DB a'))
          = Some (gorm.set_Status c "cancelled")) as Hfind'.
  { cbn [a' handlers.DB handlers.set_DB]. rewrite Hc.
    destruct Hrows as (-> & _).
    rewrite find_map_preserving by (intros x; apply owned_set_Status).
    rewrite Hfind. cbn [option_map]. by rewrite by_ID_refl. }
  change (handlers.Queue a) with (handlers.Queue a').
  destruct act; [| | | | |done]; cbn [handlers.invoke].
  - by apply (StartCampaign_rejected uuid_Parse r a' orgID id _ Horg Hid Hfind').
  - by apply (PauseCampaign_rejected uuid_Parse r a' orgID id _ Horg Hid Hfind').
  - by apply (CancelCampaign_rejected uuid_Parse r a' orgID id _ Horg Hid Hfind').
  - by apply (RetryFailed_rejected uuid_Parse uuid_String r a' orgID id _ Horg Hid Hfind').
  - by apply (ImportRecipients_rejected uuid_Parse r a' orgID id _ Horg Hid Hfind').
Qed.

(** [PauseCampaign] on a healthy store, for a campaign that is running. *)
Lemma PauseCampaign_accepted (r : handlers.Request) (a : handlers.App Q)
    (orgID id : UUID) (c : BulkMessageCampaign) :
  gorm.faults (handlers.DB a) = [] ->
  handlers.organization_id r = Some orgID ->
  uuid_Parse (handlers.id r) = Some id ->
  List.find (handlers.owned id orgID) (gorm.campaigns (handlers.DB a)) = Some c ->
  spec.permitted handlers.Pause (Status c) = true ->
  handlers.PauseCampaign uuid_Parse r a =
    (handlers.set_DB a
       (gorm.with_campaigns (handlers.DB a)
          (map (fun row => if gorm.by_ID c row then gorm.set_Status row "paused" else row)
               (gorm.campaigns (handlers.DB a)))),
     handlers.SendEnvelope [("message", AnyString "Campaign paused");
                            ("status", AnyString "paused")]).
Proof.
  intros Hf Horg Hid Hfind Hperm.
  rewrite permitted_Pause in Hperm. apply negb_true_iff in Hperm.
  unfold handlers.PauseCampaign. rewrite Horg, Hid.
  rewrite (First_healthy _ _ _ Hf), Hfind, Hperm.
  cbn [handlers.DB handlers.set_DB].
  erewrite (Updates_campaigns_healthy _ _ (fun row => gorm.set_Status row "paused"));
    [|exact Hf|intros c0 _; reflexivity].
  by rewrite set_DB_same.
Qed.

(** X21.  Pausing a campaign takes no job back, and the start that resumes
    it enqueues a job for every recipient that is pending then: when no
    recipient was processed in between, the queue is handed the same jobs
    a second time. *)
Theorem resume_enqueues_pending_again (r : handlers.Request) (a : handlers.App Q)
    (orgID id : UUID) (c : BulkMessageCampaign) (q1 q2 : Q) :
  gorm.faults (handlers.DB a) = [] ->
  handlers.organization_id r = Some orgID ->
  uuid_Parse (handlers.id r) = Some id ->
  List.find (handlers.owned id orgID) (gorm.campaigns (handlers.DB a)) = Some c ->
  spec.permitted handlers.Start (Status c) = true ->
  spec.pending_recipients id (handlers.DB a) <> [] ->
  queue.EnqueueRecipients
    (handlers.make_jobs id orgID (spec.pending_recipients id (handlers.DB a)))
    (handlers.Queue a) = (q1, None) ->
  queue.EnqueueRecipients
    (handlers.make_jobs id orgID (spec.pending_recipients id (handlers.DB a))) q1
    = (q2, None) ->
  exists a1 a2 a3,
    handlers.StartCampaign uuid_Parse r a
      = (a1, handlers.SendEnvelope [("message", AnyString "Campaign started");
                                    ("status", AnyString "processing")]) /\
    handlers.Queue a1 = q1 /\
    handlers.PauseCampaign uuid_Parse r a1
      = (a2, handlers.SendEnvelope [("message", AnyString "Campaign paused");
                                    ("status", AnyString "paused")]) /\
    handlers.Queue a2 = q1 /\
    handlers.StartCampaign uuid_Parse r a2
      = (a3, handlers.SendEnvelope [("message", AnyString "Campaign started");
                                    ("status", AnyString "processing")]) /\
    handlers.Queue a3 = q2.
Proof.
  intros Hf Horg Hid Hfind Hperm Hpending Hq1 Hq2.
  rewrite (StartCampaign_accepted uuid_Parse r a orgID id c Hf Horg Hid Hfind Hperm Hpending).
  cbv zeta. rewrite Hq1.
  set (g1 := fun row => if gorm.by_ID c row
                        then gorm.set_times (gorm.set_Status row "processing")
                               (Some (handlers.clock a)) (CompletedAt row)
                        else row).
  set (a1 := handlers.set_Queue _ q1).
  assert (gorm.faults (handlers.DB a1) = []) as Hf1 by exact Hf.
  assert (List.find (handlers.owned id orgID) (gorm.campaigns (handlers.DB a1))
          = Some (g1 c)) as Hfind1.
  { cbn [a1 handlers.DB handlers.set_DB handlers.set_Queue gorm.campaigns gorm.with_campaigns].
    rewrite find_map_preserving, Hfind; [reflexivity|].
    intros x. unfold g1. by destruct (gorm.by_ID c x). }
  assert (Status (g1 c) = "processing") as Hs1.
  { unfold g1. by rewrite by_ID_refl. }
  assert (spec.permitted handlers.Pause (Status (g1 c)) = true) as Hperm1
    by (by rewrite Hs1).
  pose proof (PauseCampaign_accepted r a1 orgID id (g1 c) Hf1 Horg Hid Hfind1 Hperm1) as Hpause.
  set (g2 := fun row => if gorm.by_ID (g1 c) row then gorm.set_Status row "paused" else row)
    in Hpause.
  set (a2 := handlers.set_DB a1 _) in Hpause.
  assert (gorm.faults (handlers.DB a2) = []) as Hf2 by exact Hf.
  assert (List.find (handlers.owned id orgID) (gorm.campaigns (handlers.DB a2))
          = Some (g2 (g1 c))) as Hfind2.
  { cbn [a2 handlers.DB handlers.set_DB gorm.campaigns gorm.with_campaigns].
    rewrite find_map_preserving, Hfind1; [reflexivity|].
    intros x. unfold g2. by destruct (gorm.by_ID (g1 c) x). }
  assert (Status (g2 (g1 c)) = "paused") as Hs2.
  { unfold g2. by rewrite by_ID_refl. }
  assert (spec.permitted handlers.Start (Status (g2 (g1 c))) = true) as Hperm2
    by (by rewrite Hs2).
  assert (spec.pending_recipients id (handlers.DB a2)
          = spec.pending_recipients id (handlers.DB a)) as Hsame by reflexivity.
  assert (spec.pending_recipients id (handlers.DB a2) <> []) as Hpending2
    by (by rewrite Hsame).
  pose proof (StartCampaign_accepted uuid_Parse r a2 orgID id (g2 (g1 c))
                Hf2 Horg Hid Hfind2 Hperm2 Hpending2) as Hstart2.
  cbv zeta in Hstart2. rewrite Hsame in Hstart2.
  change (handlers.Queue a2) with q1 in Hstart2. rewrite Hq2 in Hstart2.
  eexists a1, a2, _. split; [reflexivity|]. split; [reflexivity|].
  split; [exact Hpause|]. split; [reflexivity|]. split; [exact Hstart2|]. reflexivity.
Qed.

End HandlerSequences.

(** ** The stats aggregator *)

Section Stats.

Context {Q : Type} {QueueQ : queue.Queue Q}.
Variable uuid_Parse : string -> option UUID.
Variable uuid_String : UUID -> string.

Lemma set_counters_same (c : BulkMessageCampaign) :
  gorm.set_counters c (TotalRecipients c) (SentCount c) (DeliveredCount c) (ReadCount c)
    (FailedCount c) = c.
Proof. by destruct c. Qed.

Lemma bump_uncounted (status : string) (c : BulkMessageCampaign) :
  String.eqb status "delivered" = false ->
  String.eqb status "read" = false ->
  String.eqb status "failed" = false ->
  behaviour.bump status c = c.
Proof.
  intros H1 H2 H3. unfold behaviour.bump. rewrite H1, H2, H3, !Z.add_0_r.
  apply set_counters_same.
Qed.

Lemma with_campaigns_same (d : gorm.DB) : gorm.with_campaigns d (gorm.campaigns d) = d.
Proof. by destruct d. Qed.

Lemma map_id_ext {A : Type} (g : A -> A) (l : list A) :
  (forall x, g x = x) -> map g l = l.
Proof. intros Hg. induction l as [|x l IH]; [done|]. cbn. by rewrite Hg, IH. Qed.

(** The store after [incrementCampaignStat] on a healthy store. *)
Lemma incrementCampaignStat_DB (campaignID status : string) (a : handlers.App Q) :
  gorm.faults (handlers.DB a) = [] ->
  handlers.DB (handlers.incrementCampaignStat uuid_Parse campaignID status a)
  = behaviour.counted (uuid_Parse campaignID) status (handlers.DB a).
Proof.
  intros Hf. unfold handlers.incrementCampaignStat, behaviour.counted.
  destruct (uuid_Parse campaignID) as [id|]; [|reflexivity].
  destruct (String.eqb status "delivered") eqn:H1;
    [|destruct (String.eqb status "read") eqn:H2;
      [|destruct (String.eqb status "failed") eqn:H3]].
  4: { rewrite (map_id_ext _ _); [by rewrite with_campaigns_same|].
       intros c. destruct (bool_decide _); [by apply bump_uncounted|reflexivity]. }
  all: erewrite (Updates_campaigns_healthy _ _ (behaviour.bump status));
    [|exact Hf
     |intros c0 _; unfold behaviour.bump; rewrite ?H1, ?H2, ?H3;
      apply String.eqb_eq in H1 || apply String.eqb_eq in H2 || apply String.eqb_eq in H3;
      subst status; cbn; rewrite ?Z.add_0_r; reflexivity].
  all: cbn [handlers.DB handlers.set_DB handlers.WSHub];
    destruct (handlers.WSHub a) as [sent|]; [|reflexivity];
    rewrite First_healthy by exact Hf;
    cbn [handlers.DB handlers.set_DB];
    destruct (List.find _ _); reflexivity.
Qed.

(** X22.  A status callback adds exactly one to the counter of its status
    on the rows of its campaign: delivered_count for delivered, read_count
    for read, failed_count for failed, and nothing for any other status
    (sent included).  No other row, column or table changes. *)
Theorem incrementCampaignStat_counts_one (campaignID status : string) (id : UUID)
    (a : handlers.App Q) :
  gorm.faults (handlers.DB a) = [] ->
  uuid_Parse campaignID = Some id ->
  gorm.campaigns (handlers.DB (handlers.incrementCampaignStat uuid_Parse campaignID status a))
    = map (fun c => if bool_decide (ID c = id) then behaviour.bump status c else c)
          (gorm.campaigns (handlers.DB a)) /\
  gorm.recipients (handlers.DB (handlers.incrementCampaignStat uuid_Parse campaignID status a))
    = gorm.recipients (handlers.DB a) /\
  gorm.messages (handlers.DB (handlers.incrementCampaignStat uuid_Parse campaignID status a))
    = gorm.messages (handlers.DB a) /\
  handlers.Queue (handlers.incrementCampaignStat uuid_Parse campaignID status a)
    = handlers.Queue a.
Proof.
  intros Hf Hid. rewrite (incrementCampaignStat_DB _ _ _ Hf), Hid.
  repeat split; try reflexivity.
  unfold handlers.incrementCampaignStat. rewrite Hid.
  repeat (destruct_match; cbn [handlers.Queue handlers.set_DB handlers.set_WSHub]);
    reflexivity.
Qed.

Lemma bump_bump (s1 s2 : string) (c : BulkMessageCampaign) :
  behaviour.bump s2 (behaviour.bump s1 c) = behaviour.bump s1 (behaviour.bump s2 c).
Proof.
  unfold behaviour.bump, gorm.set_counters.
  cbn [ID OrganizationID WhatsAppAccount_ Name TemplateID Status TotalRecipients SentCount
       DeliveredCount ReadCount FailedCount ScheduledAt StartedAt CompletedAt].
  f_equal; lia.
Qed.

Lemma counted_healthy (id : option UUID) (status : string) (d : gorm.DB) :
  gorm.faults (behaviour.counted id status d) = gorm.faults d.
Proof. unfold behaviour.counted. by destruct id. Qed.

(** X23.  Status callbacks do not lose each other's increments: on a
    healthy store two callbacks leave the same store in either order. *)
Theorem incrementCampaignStat_commutes (id1 status1 id2 status2 : string)
    (a : handlers.App Q) :
  gorm.faults (handlers.DB a) = [] ->
  handlers.DB (handlers.incrementCampaignStat uuid_Parse id2 status2
                 (handlers.incrementCampaignStat uuid_Parse id1 status1 a))
  = handlers.DB (handlers.incrementCampaignStat uuid_Parse id1 status1
                   (handlers.incrementCampaignStat uuid_Parse id2 status2 a)).
Proof.
  intros Hf.
  rewrite (incrementCampaignStat_DB id2 status2)
    by (rewrite (incrementCampaignStat_DB _ _ _ Hf); by rewrite counted_healthy).
  rewrite (incrementCampaignStat_DB id1 status1 _ Hf).
  rewrite (incrementCampaignStat_DB id1 status1)
    by (rewrite (incrementCampaignStat_DB _ _ _ Hf); by rewrite counted_healthy).
  rewrite (incrementCampaignStat_DB id2 status2 _ Hf).
  unfold behaviour.counted.
  destruct (uuid_Parse id1) as [u1|], (uuid_Parse id2) as [u2|]; try reflexivity.
  unfold gorm.with_campaigns.
  cbn [gorm.campaigns gorm.recipients gorm.messages gorm.accounts gorm.templates
       gorm.next_uuid gorm.faults].
  f_equal. rewrite !map_map. apply map_ext. intros c.
  destruct (bool_decide (ID c = u1)) eqn:H1, (bool_decide (ID c = u2)) eqn:H2;
    cbn [behaviour.bump gorm.set_counters ID]; rewrite ?H1, ?H2; try reflexivity.
  apply bump_bump.
Qed.

(** X24.  With a hub configured, a counted callback for a campaign that
    exists makes one broadcast: to the organization that owns the
    campaign, with the counters as they are after the increment. *)
Theorem incrementCampaignStat_broadcasts_to_owner (campaignID status : string) (id : UUID)
    (a : handlers.App Q) (c : BulkMessageCampaign) (sent : list handlers.StatsUpdate) :
  gorm.faults (handlers.DB a) = [] ->
  uuid_Parse campaignID = Some id ->
  status = "delivered" \/ status = "read" \/ status = "failed" ->
  List.find (fun c => bool_decide (ID c = id)) (gorm.campaigns (handlers.DB a)) = Some c ->
  handlers.WSHub a = Some sent ->
  handlers.WSHub (handlers.incrementCampaignStat uuid_Parse campaignID status a)
  = Some (sent ++ [ {| handlers.to_org := OrganizationID c;
                       handlers.campaign_id := campaignID;
                       handlers.sent_count := SentCount c;
                       handlers.delivered_count := DeliveredCount (behaviour.bump status c);
                       handlers.read_count := ReadCount (behaviour.bump status c);
                       handlers.failed_count := FailedCount (behaviour.bump status c) |} ]).
Proof.
  intros Hf Hid Hstatus Hfind Hhub.
  unfold handlers.incrementCampaignStat. rewrite Hid.
  assert (exists column,
             (if String.eqb status "delivered" then Some "delivered_count"
              else if String.eqb status "read" then Some "read_count"
              else if String.eqb status "failed" then Some "failed_count"
              else None) = Some column /\
             forall c0, gorm.update_campaign_row
                          [(column, gorm.VExpr (gorm.ColPlus column 1))] c0
                        = Some (behaviour.bump status c0)) as (column & -> & Hupd).
  { destruct Hstatus as [-> | [-> | ->]]; eexists; (split; [reflexivity|]);
      intros c0; unfold behaviour.bump; cbn; rewrite ?Z.add_0_r; reflexivity. }
  erewrite (Updates_campaigns_healthy _ _ (behaviour.bump status));
    [|exact Hf|intros c0 _; apply Hupd].
  cbn [handlers.DB handlers.set_DB handlers.WSHub]. rewrite Hhub.
  rewrite First_healthy by exact Hf.
  cbn [gorm.campaigns gorm.with_campaigns].
  rewrite find_map_preserving, Hfind.
  2: { intros x. destruct (bool_decide (ID x = id)) eqn:Hx;
         cbn [behaviour.bump gorm.set_counters ID]; by rewrite Hx. }
  cbn [option_map]. apply find_some in Hfind as [_ Hc]. rewrite Hc.
  reflexivity.
Qed.

End Stats.

Section Recount.

Context {Q : Type} {QueueQ : queue.Queue Q}.
Variable uuid_String : UUID -> string.

Lemma count_status_mono (narrow wide : list string) (ms : list Message) :
  (forall s, In s narrow -> In s wide) ->
  handlers.count_status narrow ms <= handlers.count_status wide ms.
Proof.
  intros Hsub. unfold handlers.count_status.
  induction ms as [|m ms IH]; [done|]. cbn [List.filter].
  destruct (existsb (String.eqb (Message_Status m)) narrow) eqn:Hn.
  - apply existsb_exists in Hn as (s & Hs & Heq).
    assert (existsb (String.eqb (Message_Status m)) wide = true) as ->.
    { apply existsb_exists. exists s. split; [by apply Hsub|exact Heq]. }
    cbn [length]. lia.
  - destruct (existsb _ wide); cbn [length]; lia.
Qed.

Lemma count_status_disjoint (l1 l2 : list string) (ms : list Message) :
  (forall s, In s l1 -> In s l2 -> False) ->
  handlers.count_status l1 ms + handlers.count_status l2 ms <= Z.of_nat (length ms).
Proof.
  intros Hdis. unfold handlers.count_status.
  induction ms as [|m ms IH]; [done|]. cbn [List.filter].
  destruct (existsb (String.eqb (Message_Status m)) l1) eqn:H1,
           (existsb (String.eqb (Message_Status m)) l2) eqn:H2; cbn [length]; try lia.
  exfalso. apply existsb_exists in H1 as (s1 & Hs1 & Heq1).
  apply existsb_exists in H2 as (s2 & Hs2 & Heq2).
  apply String.eqb_eq in Heq1, Heq2. subst. by apply (Hdis (Message_Status m)).
Qed.

(** X25.  The recompute leaves the counters of the campaign in funnel
    order: read is at most delivered, delivered at most sent, and sent and
    failed together are at most the number of messages of the campaign. *)
Theorem recalculateCampaignStats_funnel (id : UUID) (a : handlers.App Q)
    (c : BulkMessageCampaign) :
  gorm.faults (handlers.DB a) = [] ->
  c ∈ gorm.campaigns (handlers.DB (handlers.recalculateCampaignStats uuid_String id a)) ->
  ID c = id ->
  0 <= ReadCount c <= DeliveredCount c /\
  DeliveredCount c <= SentCount c /\
  0 <= FailedCount c /\
  SentCount c + FailedCount c
    <= Z.of_nat (length (spec.campaign_messages (uuid_String id) (handlers.DB a))).
Proof.
  intros Hf Hc Hid.
  destruct (recalculateCampaignStats_counts uuid_String id a c Hf Hc Hid)
    as (-> & -> & -> & ->).
  set (ms := spec.campaign_messages (uuid_String id) (handlers.DB a)).
  repeat split.
  - unfold handlers.count_status. lia.
  - apply count_status_mono. cbn. tauto.
  - apply count_status_mono. cbn. tauto.
  - unfold handlers.count_status. lia.
  - apply count_status_disjoint. cbn. intros s [<-|[<-|[<-|[]]]] [H|[]]; discriminate.
Qed.

Lemma set_counters_twice (id : UUID) (sent delivered read failed : Z)
    (c : BulkMessageCampaign) :
  (fun c0 => if bool_decide (ID c0 = id)
             then gorm.set_counters c0 (TotalRecipients c0) sent delivered read failed
             else c0)
    (if bool_decide (ID c = id)
     then gorm.set_counters c (TotalRecipients c) sent delivered read failed
     else c)
  = if bool_decide (ID c = id)
    then gorm.set_counters c (TotalRecipients c) sent delivered read failed
    else c.
Proof.
  cbn beta. destruct (bool_decide (ID c = id)) eqn:Hc; cbn [gorm.set_counters ID];
    by rewrite Hc.
Qed.

(** X26.  The recompute only reads the messages table, so doing it twice
    is doing it once. *)
Theorem recalculateCampaignStats_idempotent (id : UUID) (a : handlers.App Q) :
  gorm.faults (handlers.DB a) = [] ->
  handlers.recalculateCampaignStats uuid_String id
    (handlers.recalculateCampaignStats uuid_String id a)
  = handlers.recalculateCampaignStats uuid_String id a.
Proof.
  intros Hf. unfold handlers.recalculateCampaignStats.
  rewrite (Find_healthy _ _ _ Hf). cbn [handlers.DB handlers.set_DB].
  erewrite (Updates_campaigns_healthy _ _
              (fun c0 => gorm.set_counters c0 (TotalRecipients c0) _ _ _ _));
    [|exact Hf|intros c0 _; reflexivity].
  cbn [fst handlers.DB handlers.set_DB].
  rewrite Find_healthy by exact Hf.
  cbn [handlers.DB handlers.set_DB gorm.messages gorm.with_campaigns].
  erewrite (Updates_campaigns_healthy _ _
              (fun c0 => gorm.set_counters c0 (TotalRecipients c0) _ _ _ _));
    [|exact Hf|intros c0 _; reflexivity].
  cbn [fst handlers.DB handlers.set_DB gorm.campaigns gorm.with_campaigns].
  unfold handlers.set_DB. cbn [handlers.DB handlers.Queue handlers.clock handlers.WSHub].
  f_equal. unfold gorm.with_campaigns.
  cbn [gorm.campaigns gorm.recipients gorm.messages gorm.accounts gorm.templates
       gorm.next_uuid gorm.faults].
  repeat match goal with
         | |- context [handlers.count_status ?l ?ms] =>
             generalize (handlers.count_status l ms); intro
         end.
  f_equal. rewrite map_map. apply map_ext. intros c. apply set_counters_twice.
Qed.

End Recount.

Section RetryOutcome.

Context {Q : Type} {QueueQ : queue.Queue Q}.
Variable uuid_Parse : string -> option UUID.
Variable uuid_String : UUID -> string.

Lemma count_failed_after_reset (text : string) (ms : list Message) :
  handlers.count_status ["failed"]
    (List.filter (fun m => bool_decide (Metadata_campaign_id m = Some text))
       (map (fun m => if bool_decide (Metadata_campaign_id m = Some text)
                         && bool_decide (Message_Status m = "failed")
                      then {| Metadata_campaign_id := Metadata_campaign_id m;
                              Message_Status := "pending";
                              Message_ErrorMessage := "" |}
                      else m) ms)) = 0.
Proof.
  unfold handlers.count_status.
  induction ms as [|m ms IH]; [done|]. cbn [map List.filter].
  destruct (bool_decide (Metadata_campaign_id m = Some text)) eqn:Hmeta; cbn [andb].
  - destruct (bool_decide (Message_Status m = "failed")) eqn:Hst.
    + cbn [Metadata_campaign_id]. rewrite Hmeta. cbn [List.filter Message_Status existsb].
      exact IH.
    + rewrite Hmeta. cbn [List.filter existsb].
      apply bool_decide_eq_false_1 in Hst.
      destruct (String.eqb (Message_Status m) "failed") eqn:Heq.
      * apply String.eqb_eq in Heq. done.
      * cbn [orb]. exact IH.
  - rewrite Hmeta. exact IH.
Qed.

(** X27.  An accepted retry hands the queue one job for every recipient
    that was failed, sets the campaign to processing, and leaves its
    failed_count at zero: the failed messages of the campaign have been
    reset to pending before the counters are recomputed. *)
Theorem RetryFailed_requeues_the_failed (r : handlers.Request) (a : handlers.App Q)
    (orgID id : UUID) (c : BulkMessageCampaign) (q : Q) :
  gorm.faults (handlers.DB a) = [] ->
  handlers.organization_id r = Some orgID ->
  uuid_Parse (handlers.id r) = Some id ->
  List.find (handlers.owned id orgID) (gorm.campaigns (handlers.DB a)) = Some c ->
  spec.permitted handlers.Retry (Status c) = true ->
  List.filter (handlers.of_campaign_with_status id "failed")
    (gorm.recipients (handlers.DB a)) <> [] ->
  queue.EnqueueRecipients
    (handlers.make_jobs id orgID
       (List.filter (handlers.of_campaign_with_status id "failed")
          (gorm.recipients (handlers.DB a))))
    (handlers.Queue a) = (q, None) ->
  snd (handlers.RetryFailed uuid_Parse uuid_String r a)
    = handlers.SendEnvelope
        [("message", AnyString "Retrying failed messages");
         ("retry_count",
          AnyNumber (Z.of_nat (length (List.filter (handlers.of_campaign_with_status id "failed")
                                         (gorm.recipients (handlers.DB a))))));
         ("status", AnyString "processing")] /\
  handlers.Queue (fst (handlers.RetryFailed uuid_Parse uuid_String r a)) = q /\
  forall c',
    c' ∈ gorm.campaigns (handlers.DB (fst (handlers.RetryFailed uuid_Parse uuid_String r a))) ->
    ID c' = id ->
    Status c' = "processing" /\ FailedCount c' = 0.
Proof.
  intros Hf Horg Hid Hfind Hperm Hfailed Hq.
  rewrite permitted_Retry in Hperm. apply negb_true_iff in Hperm.
  pose proof Hfind as Hc. apply find_some in Hc as [_ Hc]. unfold handlers.owned in Hc.
  apply andb_true_iff in Hc as [Hc _]. apply bool_decide_eq_true_1 in Hc.
  unfold handlers.RetryFailed. rewrite Horg, Hid.
  rewrite (First_healthy _ _ _ Hf), Hfind, Hperm.
  cbn [handlers.DB handlers.set_DB]. rewrite (Find_healthy _ _ _ Hf).
  cbn [handlers.DB handlers.set_DB]. rewrite (length_zero_false _ Hfailed).
  erewrite (Updates_recipients_healthy _ _
              (fun x => gorm.set_recipient x "pending" "" (WhatsAppMessageID x) (SentAt x)));
    [|exact Hf|intros r0 _; reflexivity].
  cbn [handlers.DB handlers.set_DB].
  erewrite (Updates_messages_healthy _ _
              (fun m => {| Metadata_campaign_id := Metadata_campaign_id m;
                           Message_Status := "pending";
                           Message_ErrorMessage := "" |}));
    [|exact Hf|intros m0 _; reflexivity].
  cbn [fst handlers.DB handlers.set_DB].
  unfold handlers.recalculateCampaignStats.
  rewrite Find_healthy by exact Hf.
  cbn [handlers.DB handlers.set_DB gorm.messages gorm.with_messages gorm.with_recipients].
  rewrite count_failed_after_reset.
  erewrite (Updates_campaigns_healthy (fun c0 => bool_decide (ID c0 = id)) _
              (fun c0 => gorm.set_counters c0 (TotalRecipients c0) _ _ _ 0));
    [|exact Hf|intros c0 _; reflexivity].
  cbn [fst handlers.DB handlers.set_DB].
  erewrite (Updates_campaigns_healthy _ _ (fun c0 => gorm.set_Status c0 "processing"));
    [|exact Hf|intros c0 _; reflexivity].
  cbn [fst handlers.DB handlers.set_DB handlers.Queue].
  rewrite Hq. cbn [fst snd handlers.DB handlers.set_DB handlers.set_Queue handlers.Queue].
  split; [reflexivity|]. split; [reflexivity|].
  cbn [gorm.campaigns gorm.with_campaigns gorm.with_messages gorm.with_recipients].
  repeat match goal with
         | |- context [handlers.count_status ?l ?ms] =>
             generalize (handlers.count_status l ms); intro
         end.
  intros c' Hc' Hid'. rewrite map_map in Hc'.
  apply list_elem_of_In, in_map_iff in Hc' as (c0 & <- & _).
  revert Hid'. unfold gorm.by_ID. rewrite Hc.
  destruct (bool_decide (ID c0 = id)) eqn:Hc0; cbn [ID gorm.set_counters].
  - rewrite Hc0. done.
  - rewrite Hc0. intros Hid'. apply bool_decide_eq_false_1 in Hc0. done.
Qed.

End RetryOutcome.

(** Runs of the theorems above on the sample deployment. *)

Lemma foreign_campaign_is_not_found_witness :
  snd (handlers.invoke scenario.uuid_Parse scenario.uuid_String handlers.Delete
         samples.foreign_request (scenario.app scenario.completed_store true))
    = handlers.SendErrorEnvelope handlers.StatusNotFound "Campaign not found" /\
  spec.same_rows scenario.completed_store
    (handlers.DB (fst (handlers.invoke scenario.uuid_Parse scenario.uuid_String handlers.Delete
                         samples.foreign_request (scenario.app scenario.completed_store true)))) /\
  handlers.Queue (fst (handlers.invoke scenario.uuid_Parse scenario.uuid_String handlers.Delete
                         samples.foreign_request (scenario.app scenario.completed_store true)))
    = handlers.Queue (scenario.app scenario.completed_store true).
Proof.
  apply (foreign_campaign_is_not_found scenario.uuid_Parse scenario.uuid_String
           handlers.Delete samples.foreign_request
           (scenario.app scenario.completed_store true) 2%N scenario.cid).
  - reflexivity.
  - reflexivity.
  - reflexivity.
Defined.

Lemma StartCampaign_starts_witness :
  scenario.counters
    (handlers.DB (fst (handlers.StartCampaign scenario.uuid_Parse scenario.request
                         (scenario.app scenario.draft_store true))))
    = [("processing", 0, 0)] /\
  scenario.jobs
    (handlers.Queue (fst (handlers.StartCampaign scenario.uuid_Parse scenario.request
                            (scenario.app scenario.draft_store true))))
    = samples.five_jobs.
Proof.
  rewrite (StartCampaign_starts scenario.uuid_Parse scenario.request
             (scenario.app scenario.draft_store true) scenario.org scenario.cid
             (scenario.campaign "draft" 0 0)
             {| scenario.healthy := true; scenario.jobs := samples.five_jobs |}).
  - split; reflexivity.
  - reflexivity.
  - reflexivity.
  - reflexivity.
  - reflexivity.
  - reflexivity.
  - discriminate.
  - reflexivity.
Defined.

Lemma StartCampaign_refused_by_queue_leaves_draft_witness :
  scenario.counters samples.paused_store = [("paused", 0, 0)] /\
  scenario.counters
    (handlers.DB (fst (handlers.StartCampaign scenario.uuid_Parse scenario.request
                         (scenario.app samples.paused_store false))))
    = [("draft", 0, 0)].
Proof.
  rewrite (StartCampaign_refused_by_queue_leaves_draft scenario.uuid_Parse scenario.request
             (scenario.app samples.paused_store false) scenario.org scenario.cid
             (scenario.campaign "paused" 0 0)
             {| scenario.healthy := false; scenario.jobs := [] |}
             "dial tcp: connection refused").
  - split; reflexivity.
  - reflexivity.
  - reflexivity.
  - reflexivity.
  - reflexivity.
  - reflexivity.
  - discriminate.
  - reflexivity.
Defined.

Lemma ImportRecipients_appends_pending_witness :
  exists rows total,
    gorm.recipients
      (handlers.DB (fst (handlers.ImportRecipients scenario.uuid_Parse samples.import_request
                           (scenario.app scenario.draft_store true))))
      = gorm.recipients (handlers.DB (scenario.app scenario.draft_store true)) ++ rows /\
    Forall2 (fun req row =>
               CampaignID row = scenario.cid /\
               PhoneNumber row = handlers.Req_PhoneNumber req /\
               RecipientName row = handlers.Req_RecipientName req /\
               TemplateParams row = handlers.Req_TemplateParams req /\
               Recipient_Status row = "pending" /\ ErrorMessage row = "" /\
               WhatsAppMessageID row = "" /\ SentAt row = None) samples.two_requests rows /\
    map Recipient_ID rows
      = map (fun k => (gorm.next_uuid (handlers.DB (scenario.app scenario.draft_store true))
                       + N.of_nat k)%N) (seq 0 (length samples.two_requests)) /\
    total = Z.of_nat (length (List.filter
                                (fun row => bool_decide (CampaignID row = scenario.cid))
                                (gorm.recipients
                                   (handlers.DB (scenario.app scenario.draft_store true))
                                 ++ rows))) /\
    gorm.campaigns
      (handlers.DB (fst (handlers.ImportRecipients scenario.uuid_Parse samples.import_request
                           (scenario.app scenario.draft_store true))))
      = map (fun row => if gorm.by_ID (scenario.campaign "draft" 0 0) row
                        then gorm.set_counters row total (SentCount row) (DeliveredCount row)
                               (ReadCount row) (FailedCount row)
                        else row)
            (gorm.campaigns (handlers.DB (scenario.app scenario.draft_store true))) /\
    snd (handlers.ImportRecipients scenario.uuid_Parse samples.import_request
           (scenario.app scenario.draft_store true))
      = handlers.SendEnvelope
          [("message", AnyString "Recipients added successfully");
           ("added_count", AnyNumber (Z.of_nat (length samples.two_requests)));
           ("total_recipients", AnyNumber total)].
Proof.
  apply (ImportRecipients_appends_pending scenario.uuid_Parse samples.import_request
           (scenario.app scenario.draft_store true) scenario.org scenario.cid
           (scenario.campaign "draft" 0 0) samples.two_requests).
  - reflexivity.
  - reflexivity.
  - reflexivity.
  - reflexivity.
  - reflexivity.
  - reflexivity.
  - discriminate.
Defined.

Lemma ImportRecipients_empty_list_witness :
  handlers.ImportRecipients scenario.uuid_Parse scenario.request
    (scenario.app scenario.draft_store true)
  = (scenario.app scenario.draft_store true,
     handlers.SendErrorEnvelope handlers.StatusInternalServerError "Failed to add recipients").
Proof.
  apply (ImportRecipients_empty_list scenario.uuid_Parse scenario.request
           (scenario.app scenario.draft_store true) scenario.org scenario.cid
           (scenario.campaign "draft" 0 0)).
  - reflexivity.
  - reflexivity.
  - reflexivity.
  - reflexivity.
  - reflexivity.
  - reflexivity.
Defined.

Lemma DeleteCampaign_removes_campaign_and_recipients_witness :
  snd (handlers.DeleteCampaign scenario.uuid_Parse scenario.request
         (scenario.app scenario.completed_store true))
    = handlers.SendEnvelope [("message", AnyString "Campaign deleted successfully")] /\
  gorm.campaigns
    (handlers.DB (fst (handlers.DeleteCampaign scenario.uuid_Parse scenario.request
                         (scenario.app scenario.completed_store true)))) = [] /\
  gorm.recipients
    (handlers.DB (fst (handlers.DeleteCampaign scenario.uuid_Parse scenario.request
                         (scenario.app scenario.completed_store true)))) = [].
Proof.
  split; [|split; vm_compute; reflexivity].
  apply (DeleteCampaign_removes_campaign_and_recipients scenario.uuid_Parse scenario.request
           (scenario.app scenario.completed_store true) scenario.org scenario.cid
           (scenario.campaign "completed" 3 2)).
  - reflexivity.
  - reflexivity.
  - reflexivity.
  - reflexivity.
  - reflexivity.
Defined.

Lemma nothing_to_send_is_refused_witness :
  handlers.StartCampaign scenario.uuid_Parse scenario.request
    (scenario.app samples.empty_draft_store true)
  = (scenario.app samples.empty_draft_store true,
     handlers.SendErrorEnvelope handlers.StatusBadRequest
       "Campaign has no pending recipients").
Proof.
  apply (proj1 (nothing_to_send_is_refused scenario.uuid_Parse scenario.uuid_String
                  scenario.request (scenario.app samples.empty_draft_store true)
                  scenario.org scenario.cid (scenario.campaign "draft" 0 0)
                  eq_refl eq_refl eq_refl eq_refl)).
  - reflexivity.
  - reflexivity.
Defined.

Lemma cancelled_campaign_accepts_only_delete_witness :
  spec.client_error
    (handlers.status_code
       (snd (handlers.invoke scenario.uuid_Parse scenario.uuid_String handlers.Start
               scenario.request
               (fst (handlers.CancelCampaign scenario.uuid_Parse scenario.request
                       (scenario.app scenario.processing_store true)))))).
Proof.
  apply (cancelled_campaign_accepts_only_delete scenario.uuid_Parse scenario.uuid_String
           handlers.Start scenario.request (scenario.app scenario.processing_store true)).
  - reflexivity.
  - discriminate.
Defined.

Lemma resume_enqueues_pending_again_witness :
  exists a1 a2 a3,
    handlers.StartCampaign scenario.uuid_Parse scenario.request
      (scenario.app scenario.draft_store true)
      = (a1, handlers.SendEnvelope [("message", AnyString "Campaign started");
                                    ("status", AnyString "processing")]) /\
    handlers.Queue a1 = {| scenario.healthy := true; scenario.jobs := samples.five_jobs |} /\
    handlers.PauseCampaign scenario.uuid_Parse scenario.request a1
      = (a2, handlers.SendEnvelope [("message", AnyString "Campaign paused");
                                    ("status", AnyString "paused")]) /\
    handlers.Queue a2 = {| scenario.healthy := true; scenario.jobs := samples.five_jobs |} /\
    handlers.StartCampaign scenario.uuid_Parse scenario.request a2
      = (a3, handlers.SendEnvelope [("message", AnyString "Campaign started");
                                    ("status", AnyString "processing")]) /\
    handlers.Queue a3
      = {| scenario.healthy := true;
           scenario.jobs := (samples.five_jobs ++ samples.five_jobs)%list |}.
Proof.
  apply (resume_enqueues_pending_again scenario.uuid_Parse scenario.request
           (scenario.app scenario.draft_store true) scenario.org scenario.cid
           (scenario.campaign "draft" 0 0)
           {| scenario.healthy := true; scenario.jobs := samples.five_jobs |}
           {| scenario.healthy := true;
              scenario.jobs := (samples.five_jobs ++ samples.five_jobs)%list |}).
  - reflexivity.
  - reflexivity.
  - reflexivity.
  - reflexivity.
  - reflexivity.
  - discriminate.
  - reflexivity.
  - reflexivity.
Defined.

Lemma incrementCampaignStat_counts_one_witness :
  map DeliveredCount
    (gorm.campaigns
       (handlers.DB (handlers.incrementCampaignStat scenario.uuid_Parse scenario.cid_text
                       "delivered" (scenario.app scenario.resumed_store true))))
  = [1].
Proof.
  rewrite (proj1 (incrementCampaignStat_counts_one scenario.uuid_Parse scenario.cid_text
                    "delivered" scenario.cid (scenario.app scenario.resumed_store true)
                    eq_refl eq_refl)).
  reflexivity.
Defined.

Lemma incrementCampaignStat_commutes_witness :
  handlers.DB (handlers.incrementCampaignStat scenario.uuid_Parse scenario.cid_text "failed"
                 (handlers.incrementCampaignStat scenario.uuid_Parse scenario.cid_text
                    "delivered" (scenario.app scenario.resumed_store true)))
  = handlers.DB (handlers.incrementCampaignStat scenario.uuid_Parse scenario.cid_text
                   "delivered"
                   (handlers.incrementCampaignStat scenario.uuid_Parse scenario.cid_text
                      "failed" (scenario.app scenario.resumed_store true))).
Proof.
  apply (incrementCampaignStat_commutes scenario.uuid_Parse scenario.cid_text "delivered"
           scenario.cid_text "failed" (scenario.app scenario.resumed_store true)).
  reflexivity.
Defined.

Lemma incrementCampaignStat_broadcasts_to_owner_witness :
  handlers.WSHub (handlers.incrementCampaignStat scenario.uuid_Parse scenario.cid_text "read"
                    (samples.hub_app scenario.resumed_store))
  = Some [ {| handlers.to_org := scenario.org;
              handlers.campaign_id := scenario.cid_text;
              handlers.sent_count := 1;
              handlers.delivered_count := 0;
              handlers.read_count := 1;
              handlers.failed_count := 0 |} ].
Proof.
  rewrite (incrementCampaignStat_broadcasts_to_owner scenario.uuid_Parse scenario.cid_text
             "read" scenario.cid (samples.hub_app scenario.resumed_store)
             (scenario.campaign "processing" 1 0) []).
  - reflexivity.
  - reflexivity.
  - reflexivity.
  - right. by left.
  - reflexivity.
  - reflexivity.
Defined.

Lemma recalculateCampaignStats_funnel_witness :
  0 <= ReadCount samples.recounted <= DeliveredCount samples.recounted /\
  DeliveredCount samples.recounted <= SentCount samples.recounted /\
  0 <= FailedCount samples.recounted /\
  SentCount samples.recounted + FailedCount samples.recounted
    <= Z.of_nat (length (spec.campaign_messages (scenario.uuid_String scenario.cid)
                           (handlers.DB (scenario.app samples.ledger_store true)))).
Proof.
  apply (recalculateCampaignStats_funnel scenario.uuid_String scenario.cid
           (scenario.app samples.ledger_store true) samples.recounted).
  - reflexivity.
  - vm_compute. left.
  - reflexivity.
Defined.

Lemma recalculateCampaignStats_idempotent_witness :
  handlers.recalculateCampaignStats scenario.uuid_String scenario.cid
    (handlers.recalculateCampaignStats scenario.uuid_String scenario.cid
       (scenario.app samples.ledger_store true))
  = handlers.recalculateCampaignStats scenario.uuid_String scenario.cid
      (scenario.app samples.ledger_store true).
Proof.
  apply (recalculateCampaignStats_idempotent scenario.uuid_String scenario.cid
           (scenario.app samples.ledger_store true)).
  reflexivity.
Defined.

Lemma RetryFailed_requeues_the_failed_witness :
  handlers.Queue (fst (handlers.RetryFailed scenario.uuid_Parse scenario.uuid_String
                         scenario.request (scenario.app scenario.completed_store true)))
    = {| scenario.healthy := true;
         scenario.jobs :=
           handlers.make_jobs scenario.cid scenario.org
             [ scenario.recipient 102 "+2" "failed" "(#131026) Message undeliverable" "";
               scenario.recipient 104 "+4" "failed" "(#131026) Message undeliverable" "" ] |}.
Proof.
  apply (RetryFailed_requeues_the_failed scenario.uuid_Parse scenario.uuid_String
           scenario.request (scenario.app scenario.completed_store true)
           scenario.org scenario.cid (scenario.campaign "completed" 3 2)).
  - reflexivity.
  - reflexivity.
  - reflexivity.
  - reflexivity.
  - reflexivity.
  - discriminate.
  - vm_compute. reflexivity.
Defined.
